(** * IPDK docker network plugin: state, ledger and handlers of plugin.go

    A shallow embedding of [plugin.go]: the three lock-guarded tables
    ([nwMap], [epMap], [brMap]), the bolt ledger behind them, and the
    network-driver handlers, written as computations in a small state and
    error monad that also records the externally visible events of a call. *)

From Stdlib Require Import ZArith Lia Ascii String DecimalString.
From Stdlib Require DecimalPos DecimalZ.
From stdpp Require Import base strings gmap list list_numbers sorting fin_maps.

Local Open Scope Z_scope.
Local Open Scope string_scope.

(** ** Go values *)

(** Go's [int] on a 64-bit platform: a signed 64-bit integer whose addition
    wraps around. *)
Module GoInt.

Definition min_int : Z := - 2 ^ 63.
Definition max_int : Z := 2 ^ 63 - 1.

Definition wrap (z : Z) : Z := (z + 2 ^ 63) mod 2 ^ 64 - 2 ^ 63.

Definition add (a b : Z) : Z := wrap (a + b).

(** [fmt.Sprintf("%d", n)] *)
Definition itoa (n : Z) : string := NilZero.string_of_int (Z.to_int n).

End GoInt.

(** [error]: the text of a Go error value.  Where an error is built with
    [fmt.Errorf] from [%v] verbs over structured values its text is the
    format string; these errors only ever reach the log. *)
Definition error : Type := string.

(** [%v] of a [[]string]. *)
Fixpoint join_sp (l : list string) : string :=
  match l with
  | [] => ""
  | [x] => x
  | x :: r => x +:+ " " +:+ join_sp r
  end.

Definition fmt_slice (l : list string) : string := "[" +:+ join_sp l +:+ "]".

(** [strings.Replace(s, ".", "", -1)] *)
Fixpoint strings_Replace_dot (s : string) : string :=
  match s with
  | EmptyString => EmptyString
  | String c r =>
      if Ascii.eqb c "."%char then strings_Replace_dot r
      else String c (strings_Replace_dot r)
  end.

(** ** Records of the tables *)

Record epVal := mk_epVal {
  IP : string;
  vhostuserPort : string;
  ipdkInterface : string
}.

(** [net.IPNet] *)
Record IPNet := mk_IPNet {
  IPNet_IP : list Byte.byte;
  IPNet_Mask : list Byte.byte
}.

Record nwVal := mk_nwVal {
  Bridge : string;
  Gateway : IPNet
}.

(** ** Process state *)

(** The mutex embedded in each table structure. *)
Inductive mutex := nwMapMu | epMapMu | brMapMu.

Global Instance mutex_eq_dec : EqDecision mutex.
Proof. solve_decision. Defined.

Record epMap_t := mk_epMap {
  epMap_locked : bool;
  epMap_m : gmap string epVal
}.

Record nwMap_t := mk_nwMap {
  nwMap_locked : bool;
  nwMap_m : gmap string nwVal
}.

Record brMap_t := mk_brMap {
  brMap_locked : bool;
  brCount : Z;
  intfCount : Z;
  brMap_m : gmap string Z
}.

(** The package-level variables.  [db] is the content of the bolt file:
    bucket name to key to stored bytes. *)
Record Globals := mk_Globals {
  intfCounter : Z;
  epMap : epMap_t;
  nwMap : nwMap_t;
  brMap : brMap_t;
  dbFile : string;
  db : gmap string (gmap string (list Byte.byte))
}.

Definition set_intfCounter (c : Z) (g : Globals) : Globals :=
  mk_Globals c (epMap g) (nwMap g) (brMap g) (dbFile g) (db g).
Definition set_epMap (e : epMap_t) (g : Globals) : Globals :=
  mk_Globals (intfCounter g) e (nwMap g) (brMap g) (dbFile g) (db g).
Definition set_nwMap (n : nwMap_t) (g : Globals) : Globals :=
  mk_Globals (intfCounter g) (epMap g) n (brMap g) (dbFile g) (db g).
Definition set_brMap (b : brMap_t) (g : Globals) : Globals :=
  mk_Globals (intfCounter g) (epMap g) (nwMap g) b (dbFile g) (db g).
Definition set_db (d : gmap string (gmap string (list Byte.byte))) (g : Globals)
  : Globals :=
  mk_Globals (intfCounter g) (epMap g) (nwMap g) (brMap g) (dbFile g) d.

Definition locked (m : mutex) (g : Globals) : bool :=
  match m with
  | nwMapMu => nwMap_locked (nwMap g)
  | epMapMu => epMap_locked (epMap g)
  | brMapMu => brMap_locked (brMap g)
  end.

Definition set_locked (m : mutex) (b : bool) (g : Globals) : Globals :=
  match m with
  | nwMapMu => set_nwMap (mk_nwMap b (nwMap_m (nwMap g))) g
  | epMapMu => set_epMap (mk_epMap b (epMap_m (epMap g))) g
  | brMapMu =>
      set_brMap (mk_brMap b (brCount (brMap g)) (intfCount (brMap g))
                   (brMap_m (brMap g))) g
  end.

(** [func init()]: fresh tables, both counters of [brMap] at 1.  The
    argument is what the bolt file at [dbFile] holds when the process
    starts. *)
Definition init (disk : gmap string (gmap string (list Byte.byte))) : Globals :=
  {| intfCounter := 0;
     epMap := mk_epMap false ∅;
     nwMap := mk_nwMap false ∅;
     brMap := mk_brMap false 1 1 ∅;
     dbFile := "/tmp/dpdk_bolt.db";
     db := disk |}.

(** ** Responses and events *)

(** The response structures of the remote driver API, with the fields the
    handlers fill in. *)
Inductive Response :=
| ErrResponse (Err : string)
| JoinResponse (InterfaceName : string * string) (Gateway : string)
    (Err : string).

Definition resp_Err (r : Response) : string :=
  match r with
  | ErrResponse e => e
  | JoinResponse _ _ e => e
  end.

(** What a call does to the world outside the tables and the ledger, in
    program order.  [glog.Infof] lines are not recorded; a [glog.Errorf] is
    recorded with its format string. *)
Inductive event :=
| EvLock (m : mutex)
| EvUnlock (m : mutex)
| EvMkdir (path : string)
| EvRemoveAll (path : string)
| EvExec (cmd : string) (args : list string)
| EvErrorf (format : string)
| EvSend (r : Response).

(** The outcome of the external calls a handler makes: for each call the
    error it returns, [None] for success. *)
Record Env := mk_Env {
  os_Mkdir : string -> option error;
  exec_Command : string -> list string -> option error;
  bolt_Open : string -> option error;
  bolt_CreateBucket : string -> option error;
  bolt_Put : string -> string -> option error;
  bolt_Delete : string -> string -> option error
}.

(** ** The monad of a call *)

Record Frame := mk_Frame {
  G : Globals;
  trace : list event;
  deferred : list mutex
}.

(** How a statement ends: it yields a value, the function returns, the
    goroutine panics, or it blocks for ever on a mutex that is held. *)
Inductive Res (A : Type) :=
| Val (a : A)
| Returned
| Panic (msg : string)
| Blocked (m : mutex).
Arguments Val {A} a.
Arguments Returned {A}.
Arguments Panic {A} msg.
Arguments Blocked {A} m.

Definition M (A : Type) : Type := Frame -> Res A * Frame.

Definition M_ret {A} (a : A) : M A := fun fr => (Val a, fr).

Definition M_bind {A B} (f : A -> M B) (m : M A) : M B :=
  fun fr =>
    match m fr with
    | (Val a, fr') => f a fr'
    | (Returned, fr') => (Returned, fr')
    | (Panic msg, fr') => (Panic msg, fr')
    | (Blocked mu, fr') => (Blocked mu, fr')
    end.

Global Instance M_MRet : MRet M := @M_ret.
Global Instance M_MBind : MBind M := @M_bind.

Definition get : M Globals := fun fr => (Val (G fr), fr).

Definition modify (f : Globals -> Globals) : M unit :=
  fun fr => (Val tt, mk_Frame (f (G fr)) (trace fr) (deferred fr)).

Definition emit (e : event) : M unit :=
  fun fr => (Val tt, mk_Frame (G fr) (trace fr ++ [e]) (deferred fr)).

(** [return] *)
Definition return_ {A} : M A := fun fr => (Returned, fr).

Definition panic {A} (msg : string) : M A := fun fr => (Panic msg, fr).

Definition nil_deref : string :=
  "runtime error: invalid memory address or nil pointer dereference".

(** [p.f] for a pointer [p] read from a map: a missing key gives nil. *)
Definition deref {A} (p : option A) : M A :=
  match p with
  | Some a => mret a
  | None => panic nil_deref
  end.

(** [mu.Lock()]: a held mutex blocks the caller. *)
Definition Lock (mu : mutex) : M unit :=
  fun fr =>
    if locked mu (G fr) then (Blocked mu, fr)
    else (Val tt, mk_Frame (set_locked mu true (G fr))
                    (trace fr ++ [EvLock mu]) (deferred fr)).

(** [mu.Unlock()]: unlocking a free mutex is a run-time error. *)
Definition Unlock (mu : mutex) : M unit :=
  fun fr =>
    if locked mu (G fr)
    then (Val tt, mk_Frame (set_locked mu false (G fr))
                    (trace fr ++ [EvUnlock mu]) (deferred fr))
    else (Panic "fatal error: sync: unlock of unlocked mutex", fr).

(** [defer mu.Unlock()] *)
Definition defer_Unlock (mu : mutex) : M unit :=
  fun fr => (Val tt, mk_Frame (G fr) (trace fr) (mu :: deferred fr)).

(** How a handler call ends. *)
Inductive Status :=
| Done
| Panicked (msg : string)
| Blocks (m : mutex).

Record Outcome := mk_Outcome {
  status : Status;
  globals : Globals;
  events : list event
}.

(** The deferred unlocks run last-in first-out when the function returns
    or panics. *)
Fixpoint run_deferred (ds : list mutex) (s : Status) (g : Globals)
    (tr : list event) : Outcome :=
  match ds with
  | [] => mk_Outcome s g tr
  | mu :: ds' =>
      if locked mu g
      then run_deferred ds' s (set_locked mu false g) (tr ++ [EvUnlock mu])
      else mk_Outcome (Panicked "fatal error: sync: unlock of unlocked mutex")
             g tr
  end.

(** One call of a handler on the process state [g]. *)
Definition call (body : M unit) (g : Globals) : Outcome :=
  match body (mk_Frame g [] []) with
  | (Val _, fr) | (Returned, fr) =>
      run_deferred (deferred fr) Done (G fr) (trace fr)
  | (Panic msg, fr) =>
      run_deferred (deferred fr) (Panicked msg) (G fr) (trace fr)
  | (Blocked mu, fr) => mk_Outcome (Blocks mu) (G fr) (trace fr)
  end.

(** The response a call sent, if any. *)
Fixpoint response (tr : list event) : option Response :=
  match tr with
  | [] => None
  | EvSend r :: _ => Some r
  | _ :: tr' => response tr'
  end.

Definition sendResponse (resp : Response) : M unit := emit (EvSend resp).

(** ** Library functions the plugin calls *)

(** A value passed as [interface{}] to the ledger. *)
Inductive any :=
| AnyNwVal (v : nwVal)
| AnyEpVal (v : epVal)
| AnyInt (n : Z).

(** The functions of Go's [net] and [encoding/gob] packages that the plugin
    uses.  [ParseCIDR] gives the IP address of [net.ParseCIDR], [None] when
    it returns an error; [gob_Decode_nil] is [Decode] on a nil interface,
    which reads a value off the stream and discards it. *)
Class GoLib := mk_GoLib {
  ParseCIDR : string -> option (list Byte.byte);
  IP_String : list Byte.byte -> string;
  gob_Encode : any -> option (list Byte.byte);
  gob_Decode_nwVal : list Byte.byte -> option nwVal;
  gob_Decode_epVal : list Byte.byte -> option epVal;
  gob_Decode_int : list Byte.byte -> option Z;
  gob_Decode_nil : list Byte.byte -> option error
}.

(** ** Requests *)

(** A request as a handler meets it: reading the body may fail, decoding
    the JSON may fail, or a request structure comes out.  The structures
    are those of libnetwork's remote driver API, cut down to the fields the
    handlers read; the [Interface] of a CreateEndpoint request is a
    pointer there ([Interface *EndpointInterface]), nil when the body has no
    such member. *)
Inductive Request (A : Type) :=
| BodyError (err : error)
| JSONError (err : error)
| Decoded (req : A).
Arguments BodyError {A} err.
Arguments JSONError {A} err.
Arguments Decoded {A} req.

(** [IPAMData]: only the gateway pointer is read. *)
Record IPAMData := mk_IPAMData { IPAM_Gateway : option IPNet }.

Module CreateNetworkRequest.
Record t := mk { NetworkID : string; IPv4Data : list IPAMData }.
End CreateNetworkRequest.

Module DeleteNetworkRequest.
Record t := mk { NetworkID : string }.
End DeleteNetworkRequest.

Record EndpointInterface := mk_EndpointInterface { Address : string }.

Module CreateEndpointRequest.
Record t := mk {
  NetworkID : string;
  EndpointID : string;
  Interface : option EndpointInterface
}.
End CreateEndpointRequest.

(** The address a CreateEndpoint request asks for: the [Address] of its
    [Interface], and the empty string when the request has no [Interface]
    at all. *)
Definition address_of (req : CreateEndpointRequest.t) : string :=
  match CreateEndpointRequest.Interface req with
  | Some intf => Address intf
  | None => ""
  end.

Module DeleteEndpointRequest.
Record t := mk { NetworkID : string; EndpointID : string }.
End DeleteEndpointRequest.

Module JoinRequest.
Record t := mk { NetworkID : string; EndpointID : string }.
End JoinRequest.

(** The opening of every handler: [getBody], then [json.Unmarshal]; either
    failure is answered with ["Error: " + err.Error()]. *)
Definition getBody_Unmarshal {A} (r : Request A) : M A :=
  match r with
  | BodyError e => sendResponse (ErrResponse ("Error: " +:+ e));; return_
  | JSONError e => sendResponse (ErrResponse ("Error: " +:+ e));; return_
  | Decoded req => mret req
  end.

(** ** The ledger *)

Section Ledger.
Context `{GoLib}.

(** [dbTableInit]: one update transaction creating every missing bucket;
    a failure rolls the whole transaction back. *)
Fixpoint create_buckets (env : Env) (tables : list string)
    (d : gmap string (gmap string (list Byte.byte)))
  : error + gmap string (gmap string (list Byte.byte)) :=
  match tables with
  | [] => inr d
  | table :: rest =>
      match bolt_CreateBucket env table with
      | Some e => inl "Bucket creation error: %v %v"
      | None =>
          create_buckets env rest
            (match d !! table with
             | Some _ => d
             | None => <[table := ∅]> d
             end)
      end
  end.

Definition dbTableInit (env : Env) (tables : list string) : M (option error) :=
  g ← get;
  match create_buckets env tables (db g) with
  | inl e => emit (EvErrorf "Table creation error %v");; mret (Some e)
  | inr d => modify (set_db d);; mret None
  end.

(** [dbAdd]: encode the value, find the bucket, put the key, commit.  The
    ledger changes only when every step succeeded. *)
Definition dbAdd (env : Env) (table key : string) (value : any)
  : M (option error) :=
  match gob_Encode value with
  | None => emit (EvErrorf "Encode Error: %v %v");; mret (Some "gob: encode")
  | Some v =>
      g ← get;
      match db g !! table with
      | None => mret (Some ("Bucket " +:+ table +:+ " not found"))
      | Some bucket =>
          match bolt_Put env table key with
          | Some e => mret (Some "Key Store error: %v %v %v %v")
          | None =>
              modify (set_db (<[table := <[key := v]> bucket]> (db g)));;
              mret None
          end
      end
  end.

Definition dbDelete (env : Env) (table key : string) : M (option error) :=
  g ← get;
  match db g !! table with
  | None => mret (Some ("Bucket " +:+ table +:+ " not found"))
  | Some bucket =>
      match bolt_Delete env table key with
      | Some e => mret (Some "Key Delete error: %v %v ")
      | None =>
          modify (set_db (<[table := delete key bucket]> (db g)));;
          mret None
      end
  end.

(** [dbGet]: the named result [value] is never assigned; the bytes found
    are decoded into that nil interface, which discards them. *)
Definition dbGet (table key : string) : M (option any * option error) :=
  g ← get;
  match db g !! table with
  | None => mret (None, Some ("Bucket " +:+ table +:+ " not found"))
  | Some bucket =>
      match bucket !! key with
      | None => mret (None, None)
      | Some val =>
          match gob_Decode_nil val with
          | Some e =>
              emit (EvErrorf "Decode Error: %v %v %v");; mret (None, Some e)
          | None => mret (None, None)
          end
      end
  end.

(** [b.ForEach(fn)]: [fn] on every pair of the bucket until one call
    returns an error.  Keys are distinct, so when no call fails the tables
    built do not depend on the order of the visit. *)
Definition ForEach (b : gmap string (list Byte.byte))
    (fn : string -> list Byte.byte -> M (option error)) : M (option error) :=
  map_fold (fun k v acc =>
              e ← acc;
              match e with
              | Some _ => mret e
              | None => fn k v
              end) (mret None) b.

(** A [db.View] over one bucket with [ForEach]; [tx.Bucket] of a missing
    bucket is nil and the iteration dereferences it. *)
Definition View_ForEach (table : string)
    (fn : string -> list Byte.byte -> M (option error)) : M (option error) :=
  g ← get;
  b ← deref (db g !! table);
  ForEach b fn.

Definition load_nwVal (k : string) (v : list Byte.byte) : M (option error) :=
  match gob_Decode_nwVal v with
  | None => mret (Some "Decode Error: %v %v %v")
  | Some nVal =>
      modify (fun g =>
        set_nwMap (mk_nwMap (nwMap_locked (nwMap g))
                     (<[k := nVal]> (nwMap_m (nwMap g)))) g);;
      mret None
  end.

Definition load_epVal (k : string) (v : list Byte.byte) : M (option error) :=
  match gob_Decode_epVal v with
  | None => mret (Some "Decode Error: %v %v %v")
  | Some eVal =>
      modify (fun g =>
        set_epMap (mk_epMap (epMap_locked (epMap g))
                     (<[k := eVal]> (epMap_m (epMap g)))) g);;
      mret None
  end.

Definition load_brVal (k : string) (v : list Byte.byte) : M (option error) :=
  match gob_Decode_int v with
  | None => mret (Some "Decode Error: %v %v %v")
  | Some brVal =>
      modify (fun g =>
        set_brMap (mk_brMap (brMap_locked (brMap g)) (brCount (brMap g))
                     (intfCount (brMap g))
                     (<[k := brVal]> (brMap_m (brMap g)))) g);;
      mret None
  end.

(** [initDb]: open the file, create the four buckets, read the counter,
    then load the three tables from their buckets. *)
Definition initDb (env : Env) : M (option error) :=
  g ← get;
  match bolt_Open env (dbFile g) with
  | Some e => mret (Some ("dbInit failed " +:+ e))
  | None =>
      err ← dbTableInit env ["global"; "nwMap"; "epMap"; "brMap"];
      match err with
      | Some e => mret (Some ("dbInit failed " +:+ e))
      | None =>
          ce ← dbGet "global" "counter";
          match ce.2 with
          | Some _ =>
              emit (EvErrorf "dbGet failed %v");;
              modify (set_intfCounter 100)
          | None =>
              match ce.1 with
              | Some (AnyInt n) => modify (set_intfCounter n)
              | _ => modify (set_intfCounter 100)
              end
          end;;
          err ← View_ForEach "nwMap" load_nwVal;
          match err with
          | Some e => mret (Some e)
          | None =>
              err ← View_ForEach "epMap" load_epVal;
              match err with
              | Some e => mret (Some e)
              | None => View_ForEach "brMap" load_brVal
              end
          end
      end
  end.

End Ledger.

(** ** Out-of-process effects *)

(** [os.Mkdir(path, 0755)] *)
Definition Mkdir (env : Env) (path : string) : M (option error) :=
  emit (EvMkdir path);; mret (os_Mkdir env path).

(** [exec.Command(cmd, args...).Output()] and [.Run()]: the output is only
    logged, the error decides what the handler does next. *)
Definition Command (env : Env) (cmd : string) (args : list string)
  : M (option error) :=
  emit (EvExec cmd args);; mret (exec_Command env cmd args).

(** [os.RemoveAll(path)], its result dropped. *)
Definition RemoveAll (path : string) : M unit := emit (EvRemoveAll path).

(** [glog.Errorf(format, ...)] when [err != nil]. *)
Definition log_if_err (err : option error) (format : string) : M unit :=
  match err with
  | Some _ => emit (EvErrorf format)
  | None => mret tt
  end.

(** ** The handlers *)

Section Handlers.
Context `{GoLib}.

(** [s[0]] *)
Definition index0 {A} (s : list A) : M A :=
  match s with
  | x :: _ => mret x
  | [] => panic "runtime error: index out of range [0] with length 0"
  end.

Definition handlerCreateNetwork (env : Env)
    (r : Request CreateNetworkRequest.t) : M unit :=
  let bridge := "br" in
  req ← getBody_Unmarshal r;
  let id := CreateNetworkRequest.NetworkID req in
  Lock nwMapMu;;
  defer_Unlock nwMapMu;;
  d ← index0 (CreateNetworkRequest.IPv4Data req);
  gw ← deref (IPAM_Gateway d);
  let v := mk_nwVal bridge gw in
  modify (fun g =>
    set_nwMap (mk_nwMap (nwMap_locked (nwMap g))
                 (<[id := v]> (nwMap_m (nwMap g)))) g);;
  err ← dbAdd env "nwMap" id (AnyNwVal v);
  log_if_err err "Unable to update db %v";;
  Lock brMapMu;;
  g ← get;
  let n := brCount (brMap g) in
  modify (set_brMap (mk_brMap (brMap_locked (brMap g)) n
                       (intfCount (brMap g)) (<[id := n]> (brMap_m (brMap g)))));;
  modify (fun g =>
    set_brMap (mk_brMap (brMap_locked (brMap g))
                 (GoInt.add (brCount (brMap g)) 1)
                 (intfCount (brMap g)) (brMap_m (brMap g))) g);;
  err ← dbAdd env "brMap" id (AnyInt n);
  log_if_err err "Unable to update db %v";;
  Unlock brMapMu;;
  sendResponse (ErrResponse "").

Definition handlerDeleteNetwork (env : Env)
    (r : Request DeleteNetworkRequest.t) : M unit :=
  req ← getBody_Unmarshal r;
  let id := DeleteNetworkRequest.NetworkID req in
  Lock nwMapMu;;
  defer_Unlock nwMapMu;;
  g ← get;
  nv ← deref (nwMap_m (nwMap g) !! id);
  let bridge := Bridge nv in
  modify (fun g =>
    set_nwMap (mk_nwMap (nwMap_locked (nwMap g))
                 (delete id (nwMap_m (nwMap g)))) g);;
  err ← dbDelete env "nwMap" id;
  log_if_err err "Unable to update db %v %v";;
  Lock brMapMu;;
  modify (fun g =>
    set_brMap (mk_brMap (brMap_locked (brMap g)) (brCount (brMap g))
                 (intfCount (brMap g)) (delete id (brMap_m (brMap g)))) g);;
  err ← dbDelete env "brMap" id;
  log_if_err err "Unable to update db %v %v";;
  Unlock brMapMu;;
  sendResponse (ErrResponse "").

(** The argument lists of the three commands of [handlerCreateEndpoint]. *)
Definition gnmi_args (netname nethost socketpath : string) : list string :=
  ["exec"; "ipdk"; "gnmi-cli"; "set";
   "device:virtual-device,name:" +:+ netname +:+ ",host:" +:+ nethost
     +:+ ",device-type:VIRTIO_NET,queues:1,socket-path:" +:+ socketpath
     +:+ "/vhu.sock,port-type:LINK"].

Definition p4ctl_args (ip : string) (ipdk_intf : Z) : list string :=
  ["exec"; "ipdk"; "ovs-p4ctl"; "add-entry"; "br0"; "ingress.ipv4_host";
   "hdr.ipv4.dst_addr=" +:+ ip +:+ ",action=ingress.send("
     +:+ GoInt.itoa ipdk_intf +:+ ")"].

Definition dummy_args (vhostPort : string) : list string :=
  ["link"; "add"; vhostPort; "type"; "dummy"].

Definition handlerCreateEndpoint (env : Env)
    (r : Request CreateEndpointRequest.t) : M unit :=
  req ← getBody_Unmarshal r;
  intf ← deref (CreateEndpointRequest.Interface req);
  let addr := Address intf in
  (if decide (addr = "") then
     sendResponse
       (ErrResponse "Error: IP Address parameter not provided in docker run");;
     return_
   else mret tt);;
  ip ← match ParseCIDR addr with
       | Some ip => mret ip
       | None =>
           sendResponse
             (ErrResponse ("Error: Invalid IP Address "
                           +:+ "invalid CIDR address: " +:+ addr));;
           return_
       end;
  Lock nwMapMu;;
  g ← get;
  nv ← deref (nwMap_m (nwMap g) !! CreateEndpointRequest.NetworkID req);
  let bridge := Bridge nv in
  Unlock nwMapMu;;
  (if decide (bridge = "") then
     sendResponse (ErrResponse "Error: incompatible network");; return_
   else mret tt);;
  Lock nwMapMu;;
  defer_Unlock nwMapMu;;
  Lock epMapMu;;
  defer_Unlock epMapMu;;
  Lock brMapMu;;
  defer_Unlock brMapMu;;
  let vhostPort := IP_String ip in
  let socketpath := "/tmp/vhostuser_" +:+ IP_String ip in
  err ← Mkdir env socketpath;
  match err with
  | Some e =>
      sendResponse
        (ErrResponse ("Error making socket path " +:+ socketpath
                      +:+ ": err: " +:+ e));;
      return_
  | None => mret tt
  end;;
  g ← get;
  let ipdk_intf := intfCount (brMap g) in
  modify (set_brMap (mk_brMap (brMap_locked (brMap g)) (brCount (brMap g))
                       (GoInt.add (intfCount (brMap g)) 1)
                       (brMap_m (brMap g))));;
  let netname := strings_Replace_dot ("net_vhost" +:+ GoInt.itoa ipdk_intf) in
  let nethost := strings_Replace_dot ("host_" +:+ GoInt.itoa ipdk_intf) in
  let args := gnmi_args netname nethost socketpath in
  err ← Command env "docker" args;
  match err with
  | Some e =>
      sendResponse
        (ErrResponse ("Error EndPointCreate: [docker] [" +:+ fmt_slice args
                      +:+ "] [" +:+ e +:+ "]"));;
      return_
  | None => mret tt
  end;;
  let args := p4ctl_args (IP_String ip) ipdk_intf in
  err ← Command env "docker" args;
  match err with
  | Some e =>
      sendResponse
        (ErrResponse ("Error ovs-p4ctl : [docker] [" +:+ fmt_slice args
                      +:+ "] [" +:+ e +:+ "]"));;
      return_
  | None => mret tt
  end;;
  let args := dummy_args vhostPort in
  err ← Command env "ip" args;
  match err with
  | Some e =>
      sendResponse
        (ErrResponse ("Error EndPointCreate: [ip] [" +:+ fmt_slice args
                      +:+ "] [" +:+ e +:+ "]"));;
      return_
  | None => mret tt
  end;;
  g ← get;
  let v := mk_epVal addr vhostPort (GoInt.itoa (intfCount (brMap g))) in
  let id := CreateEndpointRequest.EndpointID req in
  modify (fun g =>
    set_epMap (mk_epMap (epMap_locked (epMap g))
                 (<[id := v]> (epMap_m (epMap g)))) g);;
  err ← dbAdd env "epMap" id (AnyEpVal v);
  log_if_err err "Unable to update db %v %v";;
  sendResponse (ErrResponse "").

Definition handlerDeleteEndpoint (env : Env)
    (r : Request DeleteEndpointRequest.t) : M unit :=
  req ← getBody_Unmarshal r;
  let id := DeleteEndpointRequest.EndpointID req in
  Lock epMapMu;;
  Lock nwMapMu;;
  g ← get;
  m ← deref (epMap_m (epMap g) !! id);
  let vhostPort := vhostuserPort m in
  modify (fun g =>
    set_epMap (mk_epMap (epMap_locked (epMap g))
                 (delete id (epMap_m (epMap g)))) g);;
  err ← dbDelete env "epMap" id;
  log_if_err err "Unable to update db %v %v";;
  Unlock nwMapMu;;
  Unlock epMapMu;;
  let args := ["link"; "del"; vhostPort] in
  err ← Command env "ip" args;
  match err with
  | Some e =>
      sendResponse
        (ErrResponse ("Error EndPointCreate: [ip] [" +:+ fmt_slice args
                      +:+ "] [" +:+ e +:+ "]"));;
      return_
  | None => mret tt
  end;;
  RemoveAll ("/tmp/vhostuser_" +:+ vhostPort);;
  (* [if err != nil] here reads the [err] of [json.Unmarshal], which is nil *)
  sendResponse (ErrResponse "").

Definition handlerJoin (r : Request JoinRequest.t) : M unit :=
  req ← getBody_Unmarshal r;
  Lock nwMapMu;;
  Lock epMapMu;;
  g ← get;
  let nm := nwMap_m (nwMap g) !! JoinRequest.NetworkID req in
  let em := epMap_m (epMap g) !! JoinRequest.EndpointID req in
  Unlock nwMapMu;;
  Unlock epMapMu;;
  nm ← deref nm;
  let gateway := IP_String (IPNet_IP (Gateway nm)) in
  em ← deref em;
  sendResponse (JoinResponse (vhostuserPort em, "eth") gateway "").

End Handlers.

(** ** Reading a trace *)

(** The out-of-process effects of a call, in order. *)
Fixpoint effects (tr : list event) : list event :=
  match tr with
  | [] => []
  | EvMkdir p :: tr' => EvMkdir p :: effects tr'
  | EvRemoveAll p :: tr' => EvRemoveAll p :: effects tr'
  | EvExec c a :: tr' => EvExec c a :: effects tr'
  | _ :: tr' => effects tr'
  end.

(** The number of the virtual device a command creates.  The device is
    named in the last argument of
    [docker exec ipdk gnmi-cli set "device:virtual-device,name:net_vhost<n>,..."];
    the number is the decimal numeral after [net_vhost]. *)
Definition is_numeral (c : ascii) : bool :=
  Ascii.eqb c "-" || ((48 <=? N_of_ascii c)%N && (N_of_ascii c <=? 57)%N).

Fixpoint numeral_prefix (s : string) : string :=
  match s with
  | String c r => if is_numeral c then String c (numeral_prefix r) else ""
  | EmptyString => ""
  end.

Fixpoint strip_prefix (prefix s : string) : option string :=
  match prefix, s with
  | EmptyString, _ => Some s
  | String a prefix', String b s' =>
      if Ascii.eqb a b then strip_prefix prefix' s' else None
  | String _ _, EmptyString => None
  end.

(** [strconv.Atoi] *)
Definition atoi (s : string) : option Z :=
  Z.of_int <$> NilZero.int_of_string s.

Definition device_name_prefix : string :=
  "device:virtual-device,name:net_vhost".

Definition command_device (cmd : string) (args : list string) : option Z :=
  match args with
  | [a1; a2; a3; a4; device] =>
      if String.eqb cmd "docker" && String.eqb a1 "exec"
         && String.eqb a2 "ipdk" && String.eqb a3 "gnmi-cli"
         && String.eqb a4 "set"
      then rest ← strip_prefix device_name_prefix device;
           atoi (numeral_prefix rest)
      else None
  | _ => None
  end.

Definition device_index (e : event) : option Z :=
  match e with
  | EvExec cmd args => command_device cmd args
  | _ => None
  end.

(** The numbers of the virtual devices created in a trace, in order. *)
Fixpoint device_indices (tr : list event) : list Z :=
  match tr with
  | [] => []
  | e :: tr' =>
      match device_index e with
      | Some n => n :: device_indices tr'
      | None => device_indices tr'
      end
  end.

(** The documented lock order: Network, then Endpoint, then Bridge. *)
Definition rank (m : mutex) : nat :=
  match m with
  | nwMapMu => 0
  | epMapMu => 1
  | brMapMu => 2
  end.

(** A trace keeps the order when every [Lock] is of a mutex that ranks
    above all the mutexes held at that moment. *)
Fixpoint ordered_from (held : list mutex) (tr : list event) : bool :=
  match tr with
  | [] => true
  | EvLock m :: tr' =>
      forallb (fun h => Nat.ltb (rank h) (rank m)) held
      && ordered_from (m :: held) tr'
  | EvUnlock m :: tr' =>
      ordered_from (filter (fun h => h ≠ m) held) tr'
  | _ :: tr' => ordered_from held tr'
  end.

Definition lock_order_respected (tr : list event) : bool := ordered_from [] tr.

(** No mutex is held: the state between two calls that ran to their end. *)
Definition quiescent (g : Globals) : Prop :=
  nwMap_locked (nwMap g) = false
  ∧ epMap_locked (epMap g) = false
  ∧ brMap_locked (brMap g) = false.

(** ** Provisioning an endpoint *)

(** The four provisioning steps of CreateEndpoint for the address text
    [ip] and the interface index [n], in program order: the socket
    directory, the virtual device, the forwarding rule, the dummy link. *)
Definition provisioning_steps (ip : string) (n : Z) : list event :=
  let socketpath := "/tmp/vhostuser_" +:+ ip in
  [EvMkdir socketpath;
   EvExec "docker"
     (gnmi_args (strings_Replace_dot ("net_vhost" +:+ GoInt.itoa n))
        (strings_Replace_dot ("host_" +:+ GoInt.itoa n)) socketpath);
   EvExec "docker" (p4ctl_args ip n);
   EvExec "ip" (dummy_args ip)].

(** What the environment answers to a step. *)
Definition step_result (env : Env) (e : event) : option error :=
  match e with
  | EvMkdir p => os_Mkdir env p
  | EvExec c a => exec_Command env c a
  | _ => None
  end.


Fixpoint all_succeed (env : Env) (steps : list event) : bool :=
  match steps with
  | [] => true
  | s :: rest =>
      match step_result env s with
      | Some _ => false
      | None => all_succeed env rest
      end
  end.

Section Admissible.
Context `{GoLib}.

(** A CreateEndpoint request that passes the address and network checks on
    a state where no mutex is held. *)
Definition admissible (g : Globals) (req : CreateEndpointRequest.t)
    (ip : list Byte.byte) : Prop :=
  quiescent g
  ∧ address_of req ≠ ""
  ∧ ParseCIDR (address_of req) = Some ip
  ∧ ∃ nv, nwMap_m (nwMap g) !! CreateEndpointRequest.NetworkID req = Some nv
          ∧ Bridge nv ≠ "".

End Admissible.

(** ** Sequences of requests *)

(** The requests the router of [main] hands to the handlers above. *)
Inductive Op :=
| CreateNetwork (r : Request CreateNetworkRequest.t)
| DeleteNetwork (r : Request DeleteNetworkRequest.t)
| CreateEndpoint (r : Request CreateEndpointRequest.t)
| DeleteEndpoint (r : Request DeleteEndpointRequest.t)
| Join (r : Request JoinRequest.t).

Section Serving.
Context `{GoLib}.

Definition serve (env : Env) (op : Op) (g : Globals) : Outcome :=
  match op with
  | CreateNetwork r => call (handlerCreateNetwork env r) g
  | DeleteNetwork r => call (handlerDeleteNetwork env r) g
  | CreateEndpoint r => call (handlerCreateEndpoint env r) g
  | DeleteEndpoint r => call (handlerDeleteEndpoint env r) g
  | Join r => call (handlerJoin r) g
  end.

(** The process state after a sequence of requests, each met by its own
    environment.  A call that panics or blocks leaves its state behind and
    the server goes on with the next request. *)
Fixpoint run (ops : list (Env * Op)) (g : Globals) : Globals :=
  match ops with
  | [] => g
  | (env, op) :: rest => run rest (globals (serve env op g))
  end.

Definition bridge_counter (g : Globals) : Z := brCount (brMap g).
Definition intf_counter (g : Globals) : Z := intfCount (brMap g).

(** The bridge number a call gives its network: the number that a
    CreateNetwork which ran to its end has stored in [brMap.m] under the ID
    of its request (line 160).  No other call gives one. *)
Definition bridge_number_stored (op : Op) (o : Outcome) : list Z :=
  match op, status o with
  | CreateNetwork (Decoded req), Done =>
      option_list
        (brMap_m (brMap (globals o)) !! CreateNetworkRequest.NetworkID req)
  | _, _ => []
  end.

(** The interface indices a call uses: the numbers of the virtual devices
    it asked gnmi-cli for, read off the commands it ran (line 305). *)
Definition devices_created (op : Op) (o : Outcome) : list Z :=
  device_indices (events o).

(** The numbers read by [read] off the calls of a sequence of requests,
    oldest first. *)
Fixpoint numbers_given (read : Op -> Outcome -> list Z)
    (ops : list (Env * Op)) (g : Globals) : list Z :=
  match ops with
  | [] => []
  | (env, op) :: rest =>
      let o := serve env op g in
      read op o ++ numbers_given read rest (globals o)
  end.

(** The bridge numbers stored, and the interface indices used, along a
    sequence of requests. *)
Definition bridge_ids := numbers_given bridge_number_stored.
Definition intf_ids := numbers_given devices_created.

(** A call gives out no number and leaves the counter [ctr] alone, or
    gives out the value of [ctr] and adds one to it. *)
Definition gives_from (ctr : Globals -> Z) (read : Op -> Outcome -> list Z)
  : Prop :=
  ∀ env op g,
    let o := serve env op g in
    (read op o = [] ∧ ctr (globals o) = ctr g)
    ∨ (read op o = [ctr g] ∧ ctr (globals o) = GoInt.add (ctr g) 1).

End Serving.

(** ** Start-up: rebuilding the tables from the ledger *)

(** The content of a bucket, empty when the bucket is missing. *)
Definition bucket (d : gmap string (gmap string (list Byte.byte)))
    (table : string) : gmap string (list Byte.byte) :=
  default ∅ (d !! table).

Section Restart.
Context `{GoLib}.

(** Every value in the three table buckets decodes at the type [initDb]
    reads it at. *)
Definition decodable (d : gmap string (gmap string (list Byte.byte))) : Prop :=
  map_Forall (fun _ v => is_Some (gob_Decode_nwVal v)) (bucket d "nwMap")
  ∧ map_Forall (fun _ v => is_Some (gob_Decode_epVal v)) (bucket d "epMap")
  ∧ map_Forall (fun _ v => is_Some (gob_Decode_int v)) (bucket d "brMap").

(** The start of the process: [init], then [initDb] as [main] calls it. *)
Definition startup (env : Env)
    (disk : gmap string (gmap string (list Byte.byte)))
  : Res (option error) * Frame :=
  initDb env (mk_Frame (init disk) [] []).

(** A computation that keeps a property of the frame, however it ends. *)
Definition preserves {A} (I : Frame -> Prop) (m : M A) : Prop :=
  ∀ fr, I fr -> I (m fr).2.

(** What the three loops keep: the ledger and the free mutexes. *)
Definition loops_keep (d : gmap string (gmap string (list Byte.byte)))
    (fr : Frame) : Prop :=
  db (G fr) = d ∧ quiescent (G fr).

(** What the loops of [initDb] never write. *)
Definition counters_are (c n i : Z) (fr : Frame) : Prop :=
  intfCounter (G fr) = c
  ∧ brCount (brMap (G fr)) = n
  ∧ intfCount (brMap (G fr)) = i.

(** The codec can read back, at the type of its table, whatever it wrote. *)
Definition codec_reads_back : Prop :=
  ∀ v bytes, gob_Encode v = Some bytes ->
    match v with
    | AnyNwVal _ => is_Some (gob_Decode_nwVal bytes)
    | AnyEpVal _ => is_Some (gob_Decode_epVal bytes)
    | AnyInt _ => is_Some (gob_Decode_int bytes)
    end.

End Restart.

(** ** A library instance to run the model on

    The IPv4 fragment of [net.ParseCIDR] and [net.IP.String], and a small
    self-delimiting codec standing in for [encoding/gob].  Like gob, the
    codec transmits only the exported fields of a structure, so of an
    [epVal] only [IP] is stored. *)
Module Example.

Definition digit (c : ascii) : option N :=
  let n := N_of_ascii c in
  if ((48 <=? n) && (n <=? 57))%N then Some (n - 48)%N else None.

Fixpoint dtoi_from (acc : N) (s : string) : option N :=
  match s with
  | EmptyString => Some acc
  | String c r =>
      match digit c with
      | Some d => dtoi_from (acc * 10 + d)%N r
      | None => None
      end
  end.

Definition dtoi (s : string) : option N :=
  match s with
  | EmptyString => None
  | _ => dtoi_from 0%N s
  end.

Fixpoint split_at (sep : ascii) (s : string) : string * list string :=
  match s with
  | EmptyString => (EmptyString, [])
  | String c r =>
      let '(hd, tl) := split_at sep r in
      if Ascii.eqb c sep then (EmptyString, hd :: tl)
      else (String c hd, tl)
  end.

Definition split (sep : ascii) (s : string) : list string :=
  let '(hd, tl) := split_at sep s in hd :: tl.

Definition octet (s : string) : option Byte.byte :=
  n ← dtoi s; Byte.of_N n.

Definition v4InV6Prefix : list Byte.byte :=
  (replicate 10 Byte.x00 ++ [Byte.xff; Byte.xff])%list.

Definition parseCIDR (s : string) : option (list Byte.byte) :=
  match split "/" s with
  | [addr; mask] =>
      n ← dtoi mask;
      if (n <=? 32)%N then
        match split "." addr with
        | [a; b; c; d] =>
            a ← octet a; b ← octet b; c ← octet c; d ← octet d;
            Some (v4InV6Prefix ++ [a; b; c; d])%list
        | _ => None
        end
      else None
  | _ => None
  end.

Definition dec (b : Byte.byte) : string := GoInt.itoa (Z.of_N (Byte.to_N b)).

Definition ipString (ip : list Byte.byte) : string :=
  match drop 12 ip with
  | [a; b; c; d] => dec a +:+ "." +:+ dec b +:+ "." +:+ dec c +:+ "." +:+ dec d
  | _ => "<nil>"
  end.

(** A byte string with its length in front; longer than 255 bytes does not
    encode. *)
Definition put_bytes (l : list Byte.byte) : option (list Byte.byte) :=
  n ← Byte.of_N (N.of_nat (length l)); Some (n :: l).

Definition get_bytes (l : list Byte.byte)
  : option (list Byte.byte * list Byte.byte) :=
  match l with
  | [] => None
  | n :: r =>
      let k := N.to_nat (Byte.to_N n) in
      if decide (k ≤ length r)%nat then Some (take k r, drop k r) else None
  end.

Definition encode (v : any) : option (list Byte.byte) :=
  match v with
  | AnyNwVal v =>
      b ← put_bytes (list_byte_of_string (Bridge v));
      i ← put_bytes (IPNet_IP (Gateway v));
      m ← put_bytes (IPNet_Mask (Gateway v));
      Some (Byte.x01 :: b ++ i ++ m)%list
  | AnyEpVal v =>
      i ← put_bytes (list_byte_of_string (IP v));
      Some (Byte.x02 :: i)
  | AnyInt n => Some (Byte.x03 :: list_byte_of_string (GoInt.itoa n))
  end.

Definition decode_nwVal (l : list Byte.byte) : option nwVal :=
  match l with
  | Byte.x01 :: r =>
      '(b, r) ← get_bytes r;
      '(i, r) ← get_bytes r;
      '(m, r) ← get_bytes r;
      match r with
      | [] => Some (mk_nwVal (string_of_list_byte b) (mk_IPNet i m))
      | _ => None
      end
  | _ => None
  end.

Definition decode_epVal (l : list Byte.byte) : option epVal :=
  match l with
  | Byte.x02 :: r =>
      '(i, r) ← get_bytes r;
      match r with
      | [] => Some (mk_epVal (string_of_list_byte i) "" "")
      | _ => None
      end
  | _ => None
  end.

Definition decode_int (l : list Byte.byte) : option Z :=
  match l with
  | Byte.x03 :: r => Z.of_int <$> NilZero.int_of_string (string_of_list_byte r)
  | _ => None
  end.

Definition decode_nil (l : list Byte.byte) : option error :=
  match l with
  | Byte.x01 :: _ =>
      match decode_nwVal l with Some _ => None | None => Some "unexpected EOF" end
  | Byte.x02 :: _ =>
      match decode_epVal l with Some _ => None | None => Some "unexpected EOF" end
  | Byte.x03 :: _ =>
      match decode_int l with Some _ => None | None => Some "unexpected EOF" end
  | _ => Some "gob: unknown type id or corrupted data"
  end.

Definition lib : GoLib :=
  {| ParseCIDR := parseCIDR;
     IP_String := ipString;
     gob_Encode := encode;
     gob_Decode_nwVal := decode_nwVal;
     gob_Decode_epVal := decode_epVal;
     gob_Decode_int := decode_int;
     gob_Decode_nil := decode_nil |}.

(** Every external call succeeds. *)
Definition ok : Env :=
  {| os_Mkdir := fun _ => None;
     exec_Command := fun _ _ => None;
     bolt_Open := fun _ => None;
     bolt_CreateBucket := fun _ => None;
     bolt_Put := fun _ _ => None;
     bolt_Delete := fun _ _ => None |}.

(** The dataplane refuses the forwarding rule; all else succeeds. *)
Definition p4ctl_down : Env :=
  {| os_Mkdir := fun _ => None;
     exec_Command := fun _ args =>
       if decide (args !! 2%nat = Some "ovs-p4ctl")
       then Some "exit status 1" else None;
     bolt_Open := fun _ => None;
     bolt_CreateBucket := fun _ => None;
     bolt_Put := fun _ _ => None;
     bolt_Delete := fun _ _ => None |}.


(** The process after [init] and [initDb] over [disk]. *)
Definition started (disk : gmap string (gmap string (list Byte.byte)))
  : Globals :=
  (startup (H := lib) ok disk).2.(G).

Definition gw : IPNet :=
  mk_IPNet (v4InV6Prefix ++ [Byte.x0a; Byte.x00; Byte.x00; Byte.x01])%list
    [Byte.xff; Byte.xff; Byte.xff; Byte.x00].

Definition ip1 : list Byte.byte :=
  (v4InV6Prefix ++ [Byte.x0a; Byte.x00; Byte.x00; Byte.x05])%list.

Definition net1 : CreateNetworkRequest.t :=
  CreateNetworkRequest.mk "net1" [mk_IPAMData (Some gw)].

Definition net2 : CreateNetworkRequest.t :=
  CreateNetworkRequest.mk "net2" [mk_IPAMData (Some gw)].

Definition ep1 : CreateEndpointRequest.t :=
  CreateEndpointRequest.mk "net1" "ep1"
    (Some (mk_EndpointInterface "10.0.0.5/24")).

(** The request has no [Interface]. *)
Definition ep_no_interface : CreateEndpointRequest.t :=
  CreateEndpointRequest.mk "net1" "ep1" None.

(** The address lacks its prefix length. *)
Definition ep_bad : CreateEndpointRequest.t :=
  CreateEndpointRequest.mk "net1" "ep1"
    (Some (mk_EndpointInterface "10.0.0.5")).

Definition del_net1 : DeleteNetworkRequest.t := DeleteNetworkRequest.mk "net1".

Definition del_ep1 : DeleteEndpointRequest.t :=
  DeleteEndpointRequest.mk "net1" "ep1".

(** Network net1 exists. *)
Definition with_net1 : Globals :=
  run (H := lib) [(ok, CreateNetwork (Decoded net1))] (started ∅).

(** Network net1 and its endpoint ep1 exist. *)
Definition with_ep1 : Globals :=
  run (H := lib) [(ok, CreateEndpoint (Decoded ep1))] with_net1.

(** Creations and deletions of the same network and endpoint. *)
Definition churn : list (Env * Op) :=
  [(ok, CreateNetwork (Decoded net1));
   (ok, CreateEndpoint (Decoded ep1));
   (ok, DeleteEndpoint (Decoded del_ep1));
   (ok, DeleteNetwork (Decoded del_net1));
   (ok, CreateNetwork (Decoded net1));
   (ok, CreateEndpoint (Decoded ep1))].

(** A ledger whose "global" table holds the integer 500 under "counter",
    and one that holds bytes no decoder accepts. *)
Definition counter500 : list Byte.byte :=
  Byte.x03 :: list_byte_of_string "500".

Definition disk_counter500 : gmap string (gmap string (list Byte.byte)) :=
  {[ "global" := {[ "counter" := counter500 ]} ]}.

Definition disk_counter_bad : gmap string (gmap string (list Byte.byte)) :=
  {[ "global" := {[ "counter" := [Byte.x00] ]} ]}.

End Example.


(** ** Further readings of requests and states *)

(** The error a request carries when its body could not be read or
    decoded. *)
Definition request_error {A} (r : Request A) : option error :=
  match r with
  | BodyError e => Some e
  | JSONError e => Some e
  | Decoded _ => None
  end.

Definition decode_error (op : Op) : option error :=
  match op with
  | CreateNetwork r => request_error r
  | DeleteNetwork r => request_error r
  | CreateEndpoint r => request_error r
  | DeleteEndpoint r => request_error r
  | Join r => request_error r
  end.

Section Reaching.
Context `{GoLib}.

(** The requests that get as far as the tables: they decode, and a
    CreateEndpoint request has an address that parses. *)
Definition reaches_tables (op : Op) : Prop :=
  match op with
  | CreateNetwork (Decoded _) => True
  | DeleteNetwork (Decoded _) => True
  | CreateEndpoint (Decoded req) =>
      address_of req ≠ ""
      ∧ is_Some (ParseCIDR (address_of req))
  | DeleteEndpoint (Decoded _) => True
  | Join (Decoded _) => True
  | _ => False
  end.

(** The two requests that make a handler panic with a mutex held: a
    CreateEndpoint with a good address for a network without entry, and a
    DeleteEndpoint for an endpoint without entry. *)
Definition leaks_mutex (g : Globals) (op : Op) : Prop :=
  match op with
  | CreateEndpoint (Decoded req) =>
      address_of req ≠ ""
      ∧ is_Some (ParseCIDR (address_of req))
      ∧ nwMap_m (nwMap g) !! CreateEndpointRequest.NetworkID req = None
  | DeleteEndpoint (Decoded req) =>
      epMap_m (epMap g) !! DeleteEndpointRequest.EndpointID req = None
  | _ => False
  end.

End Reaching.

(** Every network in the table has the bridge name "br". *)
Definition all_br (g : Globals) : Prop :=
  map_Forall (fun _ v => Bridge v = "br") (nwMap_m (nwMap g)).

(** The network table and the bridge table have the same network IDs. *)
Definition same_networks (g : Globals) : Prop :=
  dom (nwMap_m (nwMap g)) = dom (brMap_m (brMap g)).

Section Main.
Context `{GoLib}.

(** Some value in a table bucket does not decode at the type [initDb]
    reads it at. *)
Definition corrupt (d : gmap string (gmap string (list Byte.byte))) : Prop :=
  (∃ k v, bucket d "nwMap" !! k = Some v ∧ gob_Decode_nwVal v = None)
  ∨ (∃ k v, bucket d "epMap" !! k = Some v ∧ gob_Decode_epVal v = None)
  ∨ (∃ k v, bucket d "brMap" !! k = Some v ∧ gob_Decode_int v = None).

(** The three loops of [initDb], as they follow the reading of the
    counter. *)
Definition load_tables : M (option error) :=
  err ← View_ForEach "nwMap" load_nwVal;
  match err with
  | Some e => mret (Some e)
  | None =>
      err ← View_ForEach "epMap" load_epVal;
      match err with
      | Some e => mret (Some e)
      | None => View_ForEach "brMap" load_brVal
      end
  end.

(** [main]: [initDb], then the server.  An error of [initDb] ends the
    process in [glog.Fatalf] before any request is served; the result is
    the state after the requests, [None] when the process does not get to
    serve. *)
Definition main (env : Env)
    (disk : gmap string (gmap string (list Byte.byte)))
    (requests : list (Env * Op)) : option Globals :=
  match startup env disk with
  | (Val None, fr) => Some (run requests (G fr))
  | _ => None
  end.

End Main.

(** ** Programming the pipeline *)






(** ** The ledger as a copy of the network tables *)

Section Mirror.
Context `{GoLib}.

(** The bucket [table] exists and holds, key by key, the encoding of the
    in-memory table [m]: a key is in the bucket exactly when it is in the
    table, and its bytes are what the codec makes of the table's value. *)
Definition ledger_has {V} (enc : V -> any) (m : gmap string V)
    (d : gmap string (gmap string (list Byte.byte))) (table : string) : Prop :=
  ∃ b, d !! table = Some b
       ∧ ∀ k, Some <$> b !! k = (fun v => gob_Encode (enc v)) <$> m !! k.

(** The buckets "nwMap" and "brMap" are copies of the two tables. *)
Definition ledger_follows (g : Globals) : Prop :=
  ledger_has AnyNwVal (nwMap_m (nwMap g)) (db g) "nwMap"
  ∧ ledger_has AnyInt (brMap_m (brMap g)) (db g) "brMap".

(** A request served with its ledger writes going through: the ledger
    refuses no write, and the record a CreateNetwork stores encodes. *)
Definition writes_go_through (eo : Env * Op) : Prop :=
  (∀ t k, bolt_Put eo.1 t k = None ∧ bolt_Delete eo.1 t k = None)
  ∧ match eo.2 with
    | CreateNetwork (Decoded req) =>
        ∀ d rest gw,
          CreateNetworkRequest.IPv4Data req = d :: rest ->
          IPAM_Gateway d = Some gw ->
          is_Some (gob_Encode (AnyNwVal (mk_nwVal "br" gw)))
    | _ => True
    end.

(** The codec returns the network record and the bridge number it was
    given. *)
Definition codec_round_trip : Prop :=
  (∀ v bytes, gob_Encode (AnyNwVal v) = Some bytes ->
              gob_Decode_nwVal bytes = Some v)
  ∧ (∀ n bytes, gob_Encode (AnyInt n) = Some bytes ->
                gob_Decode_int bytes = Some n).

End Mirror.

(** ** Further example data *)

Module Scenario.

(** A request that cannot be decoded. *)
Definition truncated : Request DeleteNetworkRequest.t :=
  JSONError "unexpected end of JSON input".

(** A CreateNetwork request without IPv4 data. *)
Definition net_no_ipv4 : CreateNetworkRequest.t :=
  CreateNetworkRequest.mk "net3" [].

Definition join1 : JoinRequest.t := JoinRequest.mk "net1" "ep1".

(** The record CreateEndpoint stores for [Example.ep1] on a fresh process. *)
Definition ep1_record : epVal := mk_epVal "10.0.0.5/24" "10.0.0.5" "2".

(** The process after a CreateEndpoint for a network that does not exist:
    the handler has panicked with the network mutex held. *)
Definition wedged : Globals :=
  globals (serve (H := Example.lib) Example.ok
             (CreateEndpoint (Decoded Example.ep1)) (Example.started ∅)).

(** A fresh process whose bridge counter stands at the largest [int]. *)
Definition at_max : Globals :=
  set_brMap (mk_brMap false GoInt.max_int 1 ∅) (Example.started ∅).

(** A ledger whose network bucket holds bytes the codec does not read. *)
Definition disk_corrupt : gmap string (gmap string (list Byte.byte)) :=
  {[ "nwMap" := {[ "net1" := [Byte.x00] ]} ]}.

(** The ledgers a process leaves behind with one network, and with one
    network and one endpoint. *)
Definition disk_net1 : gmap string (gmap string (list Byte.byte)) :=
  db Example.with_net1.

Definition disk_ep1 : gmap string (gmap string (list Byte.byte)) :=
  db Example.with_ep1.

(** The ledger with one network, and under "counter" in "global" bytes
    that no decoder accepts. *)
Definition disk_net1_bad_counter
  : gmap string (gmap string (list Byte.byte)) :=
  <["global" := {[ "counter" := [Byte.x00] ]}]> (db Example.with_net1).

(** The bridge number 1 as the ledger holds it. *)
Definition one : list Byte.byte := Byte.x03 :: list_byte_of_string "1".

End Scenario.


(** * Proofs *)

(** ** Proof support *)

Ltac unfold_M :=
  unfold getBody_Unmarshal, sendResponse, Mkdir, Command, RemoveAll,
    log_if_err, index0, deref, emit, get, modify, return_, panic, Lock,
    Unlock, defer_Unlock;
  unfold mbind, M_MBind, M_bind, mret, M_MRet, M_ret.

Ltac msimpl :=
  cbn [G trace deferred locked set_locked set_nwMap set_epMap set_brMap
       set_db set_intfCounter intfCounter nwMap epMap brMap db dbFile
       nwMap_locked nwMap_m epMap_locked epMap_m brMap_locked brCount
       intfCount brMap_m app fst snd run_deferred status globals events
       effects response resp_Err] in *.

(** One step of symbolic execution: use a known value of the scrutinee, or
    split on it. *)
Ltac mstep :=
  match goal with
  | Heq : ?x = _ |- context [match ?x with _ => _ end] => rewrite Heq
  | |- context [match ?x with _ => _ end] =>
      lazymatch x with
      | context [match _ with _ => _ end] => fail
      | _ => destruct x eqn:?
      end
  end.

Ltac mrun := msimpl; repeat (mstep; msimpl).

(** A request that asks for an address has an [Interface]. *)
Lemma address_of_present req :
  address_of req ≠ "" ->
  ∃ intf, CreateEndpointRequest.Interface req = Some intf
          ∧ address_of req = Address intf.
Proof.
  unfold address_of. destruct (CreateEndpointRequest.Interface req); [|done].
  by eexists.
Qed.

Ltac have_interface Ha :=
  let Haddr := fresh "Haddr" in
  destruct (address_of_present _ Ha) as (intf & Hintf & Haddr);
  rewrite Haddr in *; clear Haddr.

Lemma set_locked_same g mu : set_locked mu (locked mu g) g = g.
Proof. by destruct mu, g as [? [] [] [] ? ?]. Qed.

(** ** Requests that are refused or that crash the handler *)

Section Refusals.
Context `{GoLib}.

(** Claim C7.  A CreateEndpoint request whose [Interface] carries an
    address that is empty or is not accepted by [ParseCIDR] is answered
    with a non-empty error and nothing else happens: the answer is the only
    event of the call (no directory, no command), no mutex is even taken,
    and the process state (counters, tables, ledger) is the one before the
    call.  A request that has no [Interface] gets no answer at all: the read
    of [req.Interface.Address] in the very check for a missing address
    goes through the nil pointer and panics.  That path has no event and
    leaves the state as it was, too. *)
Theorem CreateEndpoint_bad_address env req g :
  (CreateEndpointRequest.Interface req = None ->
   call (handlerCreateEndpoint env (Decoded req)) g
   = mk_Outcome (Panicked nil_deref) g [])
  ∧ (∀ intf,
       CreateEndpointRequest.Interface req = Some intf ->
       Address intf = "" ∨ ParseCIDR (Address intf) = None ->
       ∃ msg,
         msg ≠ ""
         ∧ call (handlerCreateEndpoint env (Decoded req)) g
           = mk_Outcome Done g [EvSend (ErrResponse msg)]).
Proof.
  split.
  - intros Hnil. unfold call, handlerCreateEndpoint. unfold_M. msimpl.
    rewrite Hnil. msimpl. reflexivity.
  - intros intf Hintf Hbad. unfold call, handlerCreateEndpoint. unfold_M.
    msimpl. rewrite Hintf. msimpl.
    destruct (decide (Address intf = "")) as [Hempty | Hfull]; msimpl.
    + eexists. split; [|reflexivity]. discriminate.
    + destruct Hbad as [Hempty | Hparse]; [done|].
      rewrite Hparse. msimpl. eexists. split; [|reflexivity]. discriminate.
Qed.

(** Claim C1.  A CreateEndpoint request with a good address for a network
    that has no entry does not get an error answer: reading [.Bridge]
    through the nil pointer panics.  No answer is sent, no provisioning step
    runs, and the first [nwMap.Lock()], which has no deferred unlock, stays
    held. *)
Theorem CreateEndpoint_unknown_network env req g ip :
  address_of req ≠ "" ->
  ParseCIDR (address_of req) = Some ip ->
  nwMap_m (nwMap g) !! CreateEndpointRequest.NetworkID req = None ->
  nwMap_locked (nwMap g) = false ->
  let o := call (handlerCreateEndpoint env (Decoded req)) g in
  status o = Panicked nil_deref
  ∧ response (events o) = None
  ∧ effects (events o) = []
  ∧ globals o = set_locked nwMapMu true g.
Proof.
  intros Ha Hp Hn Hl. have_interface Ha.
  unfold call, handlerCreateEndpoint. unfold_M. msimpl.
  rewrite Hintf. msimpl.
  rewrite decide_False by done. rewrite Hp. msimpl. rewrite Hl. msimpl.
  rewrite Hn. msimpl. done.
Qed.

(** Claim C10.  DeleteNetwork and DeleteEndpoint do not guard the lookup:
    for an ID without an entry the handler dereferences the nil record and
    panics, and no answer of any kind is sent.  In DeleteNetwork the
    deferred unlock restores the state; in DeleteEndpoint the tables and
    the ledger are untouched but both mutexes stay held. *)
Theorem Delete_absent_id_panics env g :
  quiescent g ->
  (∀ req, nwMap_m (nwMap g) !! DeleteNetworkRequest.NetworkID req = None ->
     let o := call (handlerDeleteNetwork env (Decoded req)) g in
     status o = Panicked nil_deref
     ∧ response (events o) = None
     ∧ globals o = g)
  ∧ (∀ req, epMap_m (epMap g) !! DeleteEndpointRequest.EndpointID req = None ->
     let o := call (handlerDeleteEndpoint env (Decoded req)) g in
     status o = Panicked nil_deref
     ∧ response (events o) = None
     ∧ globals o = set_locked nwMapMu true (set_locked epMapMu true g)).
Proof.
  intros (Hn & He & Hb). split; intros req Hreq.
  - unfold call, handlerDeleteNetwork. unfold_M. msimpl.
    rewrite Hn. msimpl. rewrite Hreq. msimpl.
    repeat split. rewrite <- Hn. apply (set_locked_same g nwMapMu).
  - unfold call, handlerDeleteEndpoint. unfold_M. msimpl.
    rewrite He. msimpl. rewrite Hn. msimpl. rewrite Hreq. msimpl. done.
Qed.

End Refusals.

(** ** Lock order *)

Section LockOrder.
Context `{GoLib}.

(** The handlers that take more than one mutex, apart from DeleteEndpoint,
    keep the order Network, Endpoint, Bridge on every path. *)
Lemma CreateNetwork_lock_order env r g :
  lock_order_respected (events (call (handlerCreateNetwork env r) g)) = true.
Proof.
  unfold call, handlerCreateNetwork, dbAdd. unfold_M. mrun; reflexivity.
Qed.

Lemma DeleteNetwork_lock_order env r g :
  lock_order_respected (events (call (handlerDeleteNetwork env r) g)) = true.
Proof.
  unfold call, handlerDeleteNetwork, dbDelete. unfold_M. mrun; reflexivity.
Qed.

Lemma CreateEndpoint_lock_order env r g :
  lock_order_respected (events (call (handlerCreateEndpoint env r) g)) = true.
Proof.
  unfold call, handlerCreateEndpoint, dbAdd. unfold_M. mrun; reflexivity.
Qed.

Lemma Join_lock_order r g :
  lock_order_respected (events (call (handlerJoin r) g)) = true.
Proof.
  unfold call, handlerJoin. unfold_M. mrun; reflexivity.
Qed.

(** Claim C5.  DeleteEndpoint takes the Endpoint mutex first and the
    Network mutex second, against the order Network, Endpoint, Bridge that
    the other handlers keep. *)
Theorem DeleteEndpoint_lock_order env req g :
  quiescent g ->
  let tr := events (call (handlerDeleteEndpoint env (Decoded req)) g) in
  take 2 tr = [EvLock epMapMu; EvLock nwMapMu]
  ∧ lock_order_respected tr = false.
Proof.
  intros (Hn & He & Hb).
  unfold call, handlerDeleteEndpoint, dbDelete. unfold_M.
  mrun; split; reflexivity.
Qed.

End LockOrder.

(** ** Provisioning an endpoint *)

Lemma strings_Replace_dot_app s1 s2 :
  strings_Replace_dot (s1 +:+ s2)
  = strings_Replace_dot s1 +:+ strings_Replace_dot s2.
Proof.
  induction s1 as [|c s1 IH]; [done|].
  change (String c s1 +:+ s2) with (String c (s1 +:+ s2)).
  cbn [strings_Replace_dot]. rewrite IH.
  by destruct (Ascii.eqb c ".").
Qed.

Lemma strings_Replace_dot_uint d :
  strings_Replace_dot (NilEmpty.string_of_uint d) = NilEmpty.string_of_uint d.
Proof. induction d; cbn; by rewrite ?IHd. Qed.

(** A decimal numeral has no dot, so the [strings.Replace] on the device
    and host names changes nothing. *)
Lemma strings_Replace_dot_itoa n :
  strings_Replace_dot (GoInt.itoa n) = GoInt.itoa n.
Proof.
  unfold GoInt.itoa, NilZero.string_of_int, NilZero.string_of_uint.
  destruct (Z.to_int n) as [d|d]; destruct d; cbn;
    by rewrite ?strings_Replace_dot_uint.
Qed.

Lemma GoInt_add_1 n :
  GoInt.min_int <= n < GoInt.max_int -> GoInt.add n 1 = n + 1.
Proof.
  unfold GoInt.add, GoInt.wrap, GoInt.min_int, GoInt.max_int.
  intros Hn. rewrite Z.mod_small; lia.
Qed.

Ltac solve_elem := apply list_elem_of_In; cbn [In]; auto 20.

Section Provisioning.
Context `{GoLib}.




End Provisioning.

(** ** Sequences of requests *)

Section ServingFacts.
Context `{GoLib}.

(** Reading the device number back from the command. *)
Lemma strip_prefix_app prefix s :
  strip_prefix prefix (prefix +:+ s) = Some s.
Proof.
  induction prefix as [|a prefix IH]; [by destruct s|].
  change (String a prefix +:+ s) with (String a (prefix +:+ s)).
  cbn [strip_prefix]. by rewrite Ascii.eqb_refl.
Qed.

Lemma numeral_prefix_uint d s :
  numeral_prefix (NilEmpty.string_of_uint d +:+ String "," s)
  = NilEmpty.string_of_uint d.
Proof.
  induction d; cbn [NilEmpty.string_of_uint]; [reflexivity|..];
    match goal with
    | |- numeral_prefix (String ?c ?r +:+ ?t) = _ =>
        change (String c r +:+ t) with (String c (r +:+ t))
    end;
    cbn [numeral_prefix];
    match goal with
    | |- context [is_numeral ?c] => change (is_numeral c) with true
    end;
    cbn iota; by rewrite IHd.
Qed.

Lemma numeral_prefix_itoa n s :
  numeral_prefix (GoInt.itoa n +:+ String "," s) = GoInt.itoa n.
Proof.
  unfold GoInt.itoa, NilZero.string_of_int, NilZero.string_of_uint.
  destruct (Z.to_int n) as [d|d].
  - destruct d; [reflexivity|..]; apply numeral_prefix_uint.
  - change (String "-" ?r +:+ ?t) with (String "-" (r +:+ t)).
    cbn [numeral_prefix]. change (is_numeral "-") with true. cbn iota.
    f_equal. destruct d; [reflexivity|..]; apply numeral_prefix_uint.
Qed.

Lemma atoi_itoa n : atoi (GoInt.itoa n) = Some n.
Proof.
  unfold atoi, GoInt.itoa. rewrite NilZero.isi.
  - cbn. by rewrite DecimalZ.of_to.
  - destruct n; cbn; try discriminate.
    intros [= Hp]. by apply DecimalPos.Unsigned.to_uint_nonnil in Hp.
  - destruct n; cbn; try discriminate.
    intros [= Hp]. by apply DecimalPos.Unsigned.to_uint_nonnil in Hp.
Qed.

Lemma command_device_gnmi n nethost socketpath :
  command_device "docker"
    (gnmi_args ("net_vhost" +:+ GoInt.itoa n) nethost socketpath)
  = Some n.
Proof.
  unfold command_device, gnmi_args.
  change (String.eqb "docker" "docker" && String.eqb "exec" "exec"
          && String.eqb "ipdk" "ipdk" && String.eqb "gnmi-cli" "gnmi-cli"
          && String.eqb "set" "set") with true.
  cbn iota.
  change ("device:virtual-device,name:" +:+ ("net_vhost" +:+ GoInt.itoa n)
          +:+ ",host:" +:+ nethost
          +:+ ",device-type:VIRTIO_NET,queues:1,socket-path:" +:+ socketpath
          +:+ "/vhu.sock,port-type:LINK")
    with (device_name_prefix
          +:+ (GoInt.itoa n
               +:+ String ","
                     ("host:" +:+ nethost
                      +:+ ",device-type:VIRTIO_NET,queues:1,socket-path:"
                      +:+ socketpath +:+ "/vhu.sock,port-type:LINK"))).
  rewrite strip_prefix_app. cbn [mbind option_bind].
  by rewrite numeral_prefix_itoa, atoi_itoa.
Qed.

Lemma command_device_p4ctl ip n :
  command_device "docker" (p4ctl_args ip n) = None.
Proof. reflexivity. Qed.

Lemma command_device_ip args : command_device "ip" args = None.
Proof.
  unfold command_device.
  repeat (destruct args as [|? args]; try reflexivity).
Qed.

(** The device numbers of a trace a handler has left. *)
Ltac read_devices :=
  cbn [device_indices device_index];
  rewrite ?strings_Replace_dot_app, ?strings_Replace_dot_itoa;
  change (strings_Replace_dot "net_vhost") with "net_vhost";
  change (strings_Replace_dot "host_") with "host_";
  rewrite ?command_device_gnmi, ?command_device_p4ctl, ?command_device_ip.

(** The number a call gives out is the one the counter held, and the
    counter moves exactly when a number is given out. *)
Lemma bridge_numbers_from_counter : gives_from bridge_counter bridge_number_stored.
Proof.
  intros env [r|r|r|r|r] g; unfold bridge_number_stored, bridge_counter,
    serve, call; cbv zeta.
  - unfold handlerCreateNetwork, dbAdd. unfold_M.
    mrun; try (left; done); right; by rewrite lookup_insert_eq.
  - unfold handlerDeleteNetwork, dbDelete. unfold_M. mrun; by left.
  - unfold handlerCreateEndpoint, dbAdd. unfold_M. mrun; by left.
  - unfold handlerDeleteEndpoint, dbDelete. unfold_M. mrun; by left.
  - unfold handlerJoin. unfold_M. mrun; by left.
Qed.

Lemma device_indices_from_counter : gives_from intf_counter devices_created.
Proof.
  intros env [r|r|r|r|r] g; unfold devices_created, intf_counter,
    serve, call; cbv zeta.
  - unfold handlerCreateNetwork, dbAdd. unfold_M.
    mrun; read_devices; by left.
  - unfold handlerDeleteNetwork, dbDelete. unfold_M.
    mrun; read_devices; by left.
  - unfold handlerCreateEndpoint, dbAdd. unfold_M.
    mrun; read_devices; first [by left | by right].
  - unfold handlerDeleteEndpoint, dbDelete. unfold_M.
    mrun; read_devices; by left.
  - unfold handlerJoin. unfold_M. mrun; read_devices; by left.
Qed.

(** What the two creating calls give out when they get through:
    CreateNetwork stores the bridge counter as the network's number,
    CreateEndpoint numbers the virtual device by the interface counter. *)
Lemma CreateNetwork_hands_out env req d rest gw g :
  quiescent g ->
  CreateNetworkRequest.IPv4Data req = d :: rest ->
  IPAM_Gateway d = Some gw ->
  let o := serve env (CreateNetwork (Decoded req)) g in
  bridge_number_stored (CreateNetwork (Decoded req)) o = [bridge_counter g]
  ∧ quiescent (globals o)
  ∧ bridge_counter (globals o) = GoInt.add (bridge_counter g) 1.
Proof.
  intros (Hn & He & Hb) Hd Hgw.
  unfold bridge_number_stored, bridge_counter, quiescent, serve, call,
    handlerCreateNetwork, dbAdd in *.
  unfold_M. msimpl. rewrite Hd. msimpl.
  mrun; by rewrite lookup_insert_eq.
Qed.

Lemma CreateEndpoint_hands_out env req ip g :
  admissible g req ip ->
  os_Mkdir env ("/tmp/vhostuser_" +:+ IP_String ip) = None ->
  let o := serve env (CreateEndpoint (Decoded req)) g in
  devices_created (CreateEndpoint (Decoded req)) o = [intf_counter g].
Proof.
  intros ((Hn & He & Hb) & Ha & Hp & nv & Hnv & Hbr) Hmk.
  have_interface Ha.
  unfold devices_created, intf_counter, serve, call, handlerCreateEndpoint,
    dbAdd in *.
  unfold_M. mrun; try done; by read_devices.
Qed.

(** No request writes the variable [intfCounter]. *)
Lemma intfCounter_untouched env op g :
  intfCounter (globals (serve env op g)) = intfCounter g.
Proof.
  destruct op as [r|r|r|r|r]; unfold serve, call.
  - unfold handlerCreateNetwork, dbAdd. unfold_M. mrun; done.
  - unfold handlerDeleteNetwork, dbDelete. unfold_M. mrun; done.
  - unfold handlerCreateEndpoint, dbAdd. unfold_M. mrun; done.
  - unfold handlerDeleteEndpoint, dbDelete. unfold_M. mrun; done.
  - unfold handlerJoin. unfold_M. mrun; done.
Qed.

Lemma intfCounter_untouched_run ops g :
  intfCounter (run ops g) = intfCounter g.
Proof.
  revert g. induction ops as [|[env op] rest IH]; intros g; [done|].
  cbn [run]. by rewrite IH, intfCounter_untouched.
Qed.

(** Along a run that stays inside the range of [int], the numbers given
    out from a counter are the consecutive integers from its first value,
    and the counter ends just above the last of them. *)
Lemma numbers_given_consecutive ctr read ops :
  gives_from ctr read ->
  ∀ g,
    GoInt.min_int <= ctr g ->
    ctr g + Z.of_nat (length ops) <= GoInt.max_int ->
    ∃ k : nat,
      (k <= length ops)%nat
      ∧ numbers_given read ops g = seqZ (ctr g) (Z.of_nat k)
      ∧ ctr (run ops g) = ctr g + Z.of_nat k.
Proof.
  intros Hgive. induction ops as [|[env op] rest IH]; intros g Hlo Hhi.
  - exists 0%nat. cbn. rewrite seqZ_nil by lia. repeat split; lia.
  - cbn [numbers_given run length] in *.
    destruct (Hgive env op g) as [[Hnone Hsame] | [Hone Hinc]].
    + rewrite Hnone.
      destruct (IH (globals (serve env op g))) as (k & Hk & Hout & Hctr);
        [lia | lia |].
      exists k. rewrite Hout, Hctr, Hsame. repeat split; lia.
    + rewrite GoInt_add_1 in Hinc by lia. rewrite Hone.
      destruct (IH (globals (serve env op g))) as (k & Hk & Hout & Hctr);
        [lia | lia |].
      exists (S k). rewrite Hout, Hctr, Hinc. repeat split; [lia | | lia].
      rewrite (seqZ_cons (ctr g)) by lia. cbn. do 2 f_equal; lia.
Qed.

End ServingFacts.

Lemma StronglySorted_seqZ m (k : nat) :
  StronglySorted Z.lt (seqZ m (Z.of_nat k)).
Proof.
  induction k as [|k IH]; [rewrite seqZ_nil by lia; constructor|].
  rewrite seqZ_S. apply StronglySorted_app; repeat split.
  - intros x y Hx Hy. apply elem_of_seqZ in Hx.
    apply list_elem_of_singleton in Hy. lia.
  - done.
  - repeat constructor.
Qed.

Section Counters.
Context `{GoLib}.

(** Claim C2.  Over any sequence of CreateNetwork, DeleteNetwork,
    CreateEndpoint, DeleteEndpoint (and Join) requests that keeps the two
    counters inside the range of Go's [int], the bridge numbers that the
    CreateNetwork calls store for their networks are strictly increasing,
    and so are the interface indices by which the CreateEndpoint calls
    number their virtual devices: each is above all the earlier ones, none
    comes back after a delete, and all lie below the value the counter has
    at the end. *)
Theorem counters_strictly_increasing ops g :
  GoInt.min_int <= bridge_counter g ->
  GoInt.min_int <= intf_counter g ->
  bridge_counter g + Z.of_nat (length ops) <= GoInt.max_int ->
  intf_counter g + Z.of_nat (length ops) <= GoInt.max_int ->
  StronglySorted Z.lt (bridge_ids ops g)
  ∧ StronglySorted Z.lt (intf_ids ops g)
  ∧ Forall (fun n => n < bridge_counter (run ops g)) (bridge_ids ops g)
  ∧ Forall (fun n => n < intf_counter (run ops g)) (intf_ids ops g).
Proof.
  intros Hb Hi Hbmax Himax.
  destruct (numbers_given_consecutive bridge_counter bridge_number_stored ops
              bridge_numbers_from_counter g)
    as (kb & _ & Hbout & Hbctr); [done | done |].
  destruct (numbers_given_consecutive intf_counter devices_created ops
              device_indices_from_counter g)
    as (ki & _ & Hiout & Hictr); [done | done |].
  unfold bridge_ids, intf_ids. rewrite Hbout, Hiout, Hbctr, Hictr.
  repeat split; try apply StronglySorted_seqZ;
    apply Forall_seqZ; intros; lia.
Qed.

End Counters.

(** ** Start-up: rebuilding the tables from the ledger *)

Section Startup.
Context `{GoLib}.

Lemma M_bind_val {A B} (m : M A) (f : A -> M B) fr a fr' :
  m fr = (Val a, fr') -> (m ≫= f) fr = f a fr'.
Proof. intros Hm. unfold mbind, M_MBind, M_bind. by rewrite Hm. Qed.

(** *** Bucket creation *)

Lemma create_buckets_keeps env tables d d' t b :
  create_buckets env tables d = inr d' -> d !! t = Some b -> d' !! t = Some b.
Proof.
  revert d. induction tables as [|t0 rest IH]; intros d Hc Ht; cbn in Hc.
  - by simplify_eq.
  - destruct (bolt_CreateBucket env t0); [done|].
    apply (IH _ Hc). destruct (d !! t0) eqn:Ht0; [done|].
    destruct (decide (t0 = t)) as [->|Hne]; [congruence|].
    by rewrite lookup_insert_ne.
Qed.

Lemma create_buckets_lookup env tables d d' t :
  create_buckets env tables d = inr d' -> t ∈ tables ->
  d' !! t = Some (bucket d t).
Proof.
  revert d. induction tables as [|t0 rest IH]; intros d Hc Ht; cbn in Hc.
  - by apply elem_of_nil in Ht.
  - destruct (bolt_CreateBucket env t0); [done|].
    destruct (decide (t = t0)) as [->|Hne].
    + apply (create_buckets_keeps _ _ _ _ _ _ Hc). unfold bucket.
      destruct (d !! t0) eqn:Ht0; [done|]. cbn. apply lookup_insert_eq.
    + apply elem_of_cons in Ht as [?|Ht]; [done|].
      rewrite (IH _ Hc Ht). unfold bucket. f_equal.
      destruct (d !! t0); [done|]. by rewrite lookup_insert_ne.
Qed.

Lemma create_buckets_succeeds env tables d :
  (∀ t, bolt_CreateBucket env t = None) ->
  ∃ d', create_buckets env tables d = inr d'.
Proof.
  intros Hok. revert d. induction tables as [|t0 rest IH]; intros d; cbn.
  - by eexists.
  - rewrite Hok. apply IH.
Qed.

(** *** The loops over the buckets *)

Lemma preserves_ret {A} I (a : A) : preserves I (mret a).
Proof. by intros fr Hfr. Qed.

Lemma preserves_bind {A B} I (m : M A) (f : A -> M B) :
  preserves I m -> (∀ a, preserves I (f a)) -> preserves I (m ≫= f).
Proof.
  intros Hm Hf fr Hfr. specialize (Hm fr Hfr).
  unfold mbind, M_MBind, M_bind. destruct (m fr) as [[a| |msg|mu] fr']; try done.
  by apply Hf.
Qed.

Lemma preserves_ForEach I b fn :
  (∀ k v, preserves I (fn k v)) -> preserves I (ForEach b fn).
Proof.
  intros Hfn. unfold ForEach.
  apply (map_fold_weak_ind (fun r _ => preserves I r)).
  - apply preserves_ret.
  - intros k v m r _ Hr. apply preserves_bind; [done|].
    intros [e|]; [apply preserves_ret | apply Hfn].
Qed.

Lemma load_nwVal_preserves (I : Frame -> Prop) k v :
  (∀ fr m, I fr ->
     I (mk_Frame (set_nwMap (mk_nwMap (nwMap_locked (nwMap (G fr))) m) (G fr))
          (trace fr) (deferred fr))) ->
  preserves I (load_nwVal k v).
Proof.
  intros HI fr Hfr. unfold load_nwVal. destruct (gob_Decode_nwVal v); [|done].
  unfold_M. cbn. by apply HI.
Qed.

Lemma load_epVal_preserves (I : Frame -> Prop) k v :
  (∀ fr m, I fr ->
     I (mk_Frame (set_epMap (mk_epMap (epMap_locked (epMap (G fr))) m) (G fr))
          (trace fr) (deferred fr))) ->
  preserves I (load_epVal k v).
Proof.
  intros HI fr Hfr. unfold load_epVal. destruct (gob_Decode_epVal v); [|done].
  unfold_M. cbn. by apply HI.
Qed.

Lemma load_brVal_preserves (I : Frame -> Prop) k v :
  (∀ fr m, I fr ->
     I (mk_Frame
          (set_brMap (mk_brMap (brMap_locked (brMap (G fr)))
                        (brCount (brMap (G fr))) (intfCount (brMap (G fr))) m)
             (G fr))
          (trace fr) (deferred fr))) ->
  preserves I (load_brVal k v).
Proof.
  intros HI fr Hfr. unfold load_brVal. destruct (gob_Decode_int v); [|done].
  unfold_M. cbn. by apply HI.
Qed.

(** A loop whose every call succeeds on the values of the bucket runs to
    the end without error. *)
Lemma ForEach_succeeds (ok : list Byte.byte -> Prop) b fn :
  (∀ k v fr, ok v -> ∃ fr', fn k v fr = (Val None, fr')) ->
  map_Forall (fun _ v => ok v) b ->
  ∀ fr, ∃ fr', ForEach b fn fr = (Val None, fr').
Proof.
  intros Hfn. unfold ForEach.
  apply (map_fold_weak_ind
           (fun r m => map_Forall (fun _ v => ok v) m ->
                       ∀ fr, ∃ fr', r fr = (Val None, fr'))).
  - intros _ fr. by eexists.
  - intros k v m r Hk IH Hall fr.
    apply map_Forall_insert in Hall as [Hv Hall]; [|done].
    destruct (IH Hall fr) as (fr1 & Hr).
    rewrite (M_bind_val _ _ _ _ _ Hr). by apply Hfn.
Qed.

(** The nwMap loop: the table it leaves holds, under each key of the
    bucket, the decoded value. *)
Lemma ForEach_load_nwVal b :
  map_Forall (fun _ v => is_Some (gob_Decode_nwVal v)) b ->
  ∀ fr, ∃ fr',
    ForEach b load_nwVal fr = (Val None, fr')
    ∧ ∀ k, nwMap_m (nwMap (G fr')) !! k
           = match b !! k with
             | Some v => gob_Decode_nwVal v
             | None => nwMap_m (nwMap (G fr)) !! k
             end.
Proof.
  unfold ForEach.
  apply (map_fold_weak_ind
           (fun r m =>
              map_Forall (fun _ v => is_Some (gob_Decode_nwVal v)) m ->
              ∀ fr, ∃ fr',
                r fr = (Val None, fr')
                ∧ ∀ k, nwMap_m (nwMap (G fr')) !! k
                       = match m !! k with
                         | Some v => gob_Decode_nwVal v
                         | None => nwMap_m (nwMap (G fr)) !! k
                         end)).
  - intros _ fr. exists fr. split; [done|]. intros k. by rewrite lookup_empty.
  - intros k v m r Hk IH Hall fr.
    apply map_Forall_insert in Hall as [[nVal Hv] Hall]; [|done].
    destruct (IH Hall fr) as (fr1 & Hr & Hlook).
    rewrite (M_bind_val _ _ _ _ _ Hr). unfold load_nwVal. rewrite Hv.
    unfold_M. cbn. eexists. split; [done|]. cbn. intros k'.
    destruct (decide (k = k')) as [<-|Hne].
    + by rewrite !lookup_insert_eq.
    + rewrite !lookup_insert_ne by done. apply Hlook.
Qed.

Lemma load_epVal_succeeds k v fr :
  is_Some (gob_Decode_epVal v) -> ∃ fr', load_epVal k v fr = (Val None, fr').
Proof. intros [e He]. unfold load_epVal. rewrite He. by eexists. Qed.

Lemma load_brVal_succeeds k v fr :
  is_Some (gob_Decode_int v) -> ∃ fr', load_brVal k v fr = (Val None, fr').
Proof. intros [n Hn]. unfold load_brVal. rewrite Hn. by eexists. Qed.

Lemma dbTableInit_ok env tables fr d' :
  create_buckets env tables (db (G fr)) = inr d' ->
  dbTableInit env tables fr
  = (Val None, mk_Frame (set_db d' (G fr)) (trace fr) (deferred fr)).
Proof. intros Hc. unfold dbTableInit. unfold_M. by rewrite Hc. Qed.

(** [dbGet] never yields a value, and leaves the process state alone. *)
Lemma dbGet_result table key fr :
  ∃ e l, dbGet table key fr
         = (Val (None, e), mk_Frame (G fr) (trace fr ++ l) (deferred fr)).
Proof.
  unfold dbGet. unfold_M. destruct fr as [g tr ds]. cbn.
  destruct (db g !! table) as [b|]; [|by exists (Some ("Bucket " +:+ table +:+ " not found")), []; rewrite app_nil_r].
  destruct (b !! key) as [v|]; [|by exists None, []; rewrite app_nil_r].
  destruct (gob_Decode_nil v) as [e|]; [by eexists _, [_]|].
  by exists None, []; rewrite app_nil_r.
Qed.

Lemma View_ForEach_eq table fn fr b :
  db (G fr) !! table = Some b -> View_ForEach table fn fr = ForEach b fn fr.
Proof. intros Hb. unfold View_ForEach. unfold_M. by rewrite Hb. Qed.

Lemma ForEach_loops_keep d b fn fr r fr' :
  fn = load_nwVal ∨ fn = load_epVal ∨ fn = load_brVal ->
  ForEach b fn fr = (r, fr') -> loops_keep d fr -> loops_keep d fr'.
Proof.
  intros Hfn Hr Hfr.
  assert (preserves (loops_keep d) (ForEach b fn)) as Hpres.
  { apply preserves_ForEach. intros k v.
    destruct Hfn as [-> | [-> | ->]];
      [apply load_nwVal_preserves | apply load_epVal_preserves
      | apply load_brVal_preserves]; by intros ? ? [? (? & ? & ?)]. }
  specialize (Hpres fr Hfr). by rewrite Hr in Hpres.
Qed.

Lemma ForEach_keeps_nwMap n b fn fr r fr' :
  fn = load_epVal ∨ fn = load_brVal ->
  ForEach b fn fr = (r, fr') -> nwMap (G fr) = n -> nwMap (G fr') = n.
Proof.
  intros Hfn Hr Hfr.
  assert (preserves (fun fr => nwMap (G fr) = n) (ForEach b fn)) as Hpres.
  { apply preserves_ForEach. intros k v.
    destruct Hfn as [-> | ->];
      [apply load_epVal_preserves | apply load_brVal_preserves]; done. }
  specialize (Hpres fr Hfr). by rewrite Hr in Hpres.
Qed.

(** The tables after a start-up that meets no error: [nwMap] holds exactly
    the decoded content of its bucket, and no mutex is held. *)
Lemma startup_rebuilds env disk :
  bolt_Open env "/tmp/dpdk_bolt.db" = None ->
  (∀ t, bolt_CreateBucket env t = None) ->
  decodable disk ->
  ∃ fr,
    startup env disk = (Val None, fr)
    ∧ (∀ k, nwMap_m (nwMap (G fr)) !! k
            = bucket disk "nwMap" !! k ≫= gob_Decode_nwVal)
    ∧ quiescent (G fr).
Proof.
  intros Hopen Hmk (Hnw & Hep & Hbr).
  destruct (create_buckets_succeeds env ["global"; "nwMap"; "epMap"; "brMap"]
              disk Hmk) as (d' & Hd').
  assert (d' !! "nwMap" = Some (bucket disk "nwMap")) as Lnw
    by (apply (create_buckets_lookup _ _ _ _ _ Hd'); solve_elem).
  assert (d' !! "epMap" = Some (bucket disk "epMap")) as Lep
    by (apply (create_buckets_lookup _ _ _ _ _ Hd'); solve_elem).
  assert (d' !! "brMap" = Some (bucket disk "brMap")) as Lbr
    by (apply (create_buckets_lookup _ _ _ _ _ Hd'); solve_elem).
  unfold startup, initDb.
  erewrite M_bind_val by reflexivity. cbn [G init dbFile]. rewrite Hopen.
  erewrite M_bind_val by (by apply dbTableInit_ok).
  cbn [G trace deferred].
  match goal with
  | |- ∃ _, (dbGet ?t ?k ≫= _) ?fr = _ ∧ _ =>
      destruct (dbGet_result t k fr) as (e & l & Hget)
  end.
  rewrite (M_bind_val _ _ _ _ _ Hget). cbn [fst snd G trace deferred].
  assert (∃ fr0,
    (match e with
     | Some _ =>
         emit (EvErrorf "dbGet failed %v");; modify (set_intfCounter 100)
     | None => modify (set_intfCounter 100)
     end) (mk_Frame (set_db d' (init disk)) ([] ++ l) []) = (Val (), fr0)
    ∧ loops_keep d' fr0 ∧ nwMap_m (nwMap (G fr0)) = ∅)
    as (fr0 & Hcnt & Hkeep0 & Hempty).
  { destruct e; eexists; (split; [reflexivity|]); by cbn. }
  rewrite (M_bind_val _ _ _ _ _ Hcnt).
  destruct (ForEach_load_nwVal _ Hnw fr0) as (fr1 & Hr1 & Hlook).
  pose proof (ForEach_loops_keep _ _ _ _ _ _ (or_introl eq_refl) Hr1 Hkeep0)
    as Hkeep1.
  rewrite <- (View_ForEach_eq "nwMap") in Hr1
    by (destruct Hkeep0 as [-> _]; exact Lnw).
  rewrite (M_bind_val _ _ _ _ _ Hr1).
  destruct (ForEach_succeeds _ _ load_epVal load_epVal_succeeds Hep fr1)
    as (fr2 & Hr2).
  pose proof (ForEach_loops_keep _ _ _ _ _ _
                (or_intror (or_introl eq_refl)) Hr2 Hkeep1) as Hkeep2.
  pose proof (ForEach_keeps_nwMap _ _ _ _ _ _ (or_introl eq_refl) Hr2 eq_refl)
    as Hnw2.
  rewrite <- (View_ForEach_eq "epMap") in Hr2
    by (destruct Hkeep1 as [-> _]; exact Lep).
  rewrite (M_bind_val _ _ _ _ _ Hr2).
  destruct (ForEach_succeeds _ _ load_brVal load_brVal_succeeds Hbr fr2)
    as (fr3 & Hr3).
  pose proof (ForEach_loops_keep _ _ _ _ _ _
                (or_intror (or_intror eq_refl)) Hr3 Hkeep2) as Hkeep3.
  pose proof (ForEach_keeps_nwMap _ _ _ _ _ _ (or_intror eq_refl) Hr3 Hnw2)
    as Hnw3.
  rewrite <- (View_ForEach_eq "brMap") in Hr3
    by (destruct Hkeep2 as [-> _]; exact Lbr).
  exists fr3. split; [exact Hr3|]. split; [|by destruct Hkeep3].
  intros k. rewrite Hnw3, Hlook, Hempty, lookup_empty.
  by destruct (bucket disk "nwMap" !! k).
Qed.

Lemma preserves_View_ForEach I table fn :
  (∀ k v, preserves I (fn k v)) -> preserves I (View_ForEach table fn).
Proof.
  intros Hfn. unfold View_ForEach.
  apply preserves_bind; [by intros fr Hfr|]. intros g.
  apply preserves_bind; [by intros fr Hfr; destruct (db g !! table)|].
  intros b. by apply preserves_ForEach.
Qed.

Lemma View_ForEach_counters c n i table fn fr r fr' :
  fn = load_nwVal ∨ fn = load_epVal ∨ fn = load_brVal ->
  View_ForEach table fn fr = (r, fr') ->
  counters_are c n i fr -> counters_are c n i fr'.
Proof.
  intros Hfn Hr Hfr.
  assert (preserves (counters_are c n i) (View_ForEach table fn)) as Hpres.
  { apply preserves_View_ForEach. intros k v.
    destruct Hfn as [-> | [-> | ->]];
      [apply load_nwVal_preserves | apply load_epVal_preserves
      | apply load_brVal_preserves]; by intros ? ? (? & ? & ?). }
  specialize (Hpres fr Hfr). by rewrite Hr in Hpres.
Qed.

(** After a start-up without error the variable [intfCounter] is 100 and
    both counters of [brMap] are 1, whatever the ledger holds. *)
Lemma startup_counters env disk fr :
  startup env disk = (Val None, fr) -> counters_are 100 1 1 fr.
Proof.
  unfold startup, initDb, dbTableInit, dbGet. unfold_M. cbn [init].
  mrun; try done; intros Hres; simplify_eq.
  all: repeat match goal with
         | Hv : View_ForEach _ _ _ = _ |- _ =>
             eapply View_ForEach_counters in Hv; [| tauto | done]; revert Hv
         end.
  all: unfold counters_are;
    cbn [G intfCounter brMap brCount intfCount set_intfCounter set_db init];
    intros (? & ? & ?) (? & ? & ?) (? & ? & ?); repeat split; congruence.
Qed.

(** Claim C8.  A network record written to the ledger by [dbAdd] without
    error comes back unchanged when the process starts again: with the
    in-memory tables gone, [init] and [initDb] over the ledger as the write
    left it rebuild [nwMap] with the very same record under the same key.
    The codec is assumed to decode what it encoded for this record, and the
    ledger to hold decodable values ([serve_decodable] below shows that the
    handlers keep it so). *)
Theorem NetworkRecord_round_trip env env' fr0 key v fr :
  decodable (db (G fr0)) ->
  (∀ bytes, gob_Encode (AnyNwVal v) = Some bytes ->
            gob_Decode_nwVal bytes = Some v) ->
  dbAdd env "nwMap" key (AnyNwVal v) fr0 = (Val None, fr) ->
  bolt_Open env' "/tmp/dpdk_bolt.db" = None ->
  (∀ t, bolt_CreateBucket env' t = None) ->
  ∃ fr',
    startup env' (db (G fr)) = (Val None, fr')
    ∧ nwMap_m (nwMap (G fr')) !! key = Some v.
Proof.
  intros (Hnw & Hep & Hbr) Hround Hadd Hopen Hmk.
  unfold dbAdd in Hadd. revert Hadd. unfold_M.
  destruct (gob_Encode (AnyNwVal v)) as [bytes|] eqn:Henc; [|done].
  specialize (Hround bytes eq_refl).
  destruct (db (G fr0) !! "nwMap") as [b|] eqn:Hb; [|done].
  destruct (bolt_Put env "nwMap" key); [done|].
  intros [= <-]. cbn [G db set_db].
  assert (bucket (<["nwMap" := <[key := bytes]> b]> (db (G fr0))) "nwMap"
          = <[key := bytes]> b) as Hnew
    by (unfold bucket; by rewrite lookup_insert_eq).
  destruct (startup_rebuilds env' (<["nwMap" := <[key := bytes]> b]> (db (G fr0))))
    as (fr' & Hstart & Hlook & _); [done | done | |].
  - unfold decodable, bucket in *. rewrite lookup_insert_eq.
    rewrite !lookup_insert_ne by done. rewrite Hb in Hnw. cbn in *.
    repeat split; [|done|done].
    apply map_Forall_insert_2; [|done]. rewrite Hround. by eexists.
  - exists fr'. split; [done|].
    by rewrite Hlook, Hnew, lookup_insert_eq.
Qed.

(** Claim C6, as the code has it.  When start-up succeeds and the read of
    key "counter" in table "global" fails, [intfCounter] is 100.  The
    interface indices of CreateEndpoint do not come from that variable,
    which no request ever writes: they come from [brMap.intfCount], which
    is 1 after every start-up whatever the ledger holds.  The virtual
    devices that the requests after start-up create are numbered 1, 2, 3,
    ... without a gap, and the next CreateEndpoint that gets as far as its
    socket directory numbers its device one above the last of them. *)
Theorem startup_interface_counter env disk fr :
  startup env disk = (Val None, fr) ->
  (∀ v e, bucket disk "global" !! "counter" = Some v ->
          gob_Decode_nil v = Some e -> intfCounter (G fr) = 100)
  ∧ intf_counter (G fr) = 1
  ∧ ∀ ops, Z.of_nat (length ops) < GoInt.max_int ->
      let used := intf_ids ops (G fr) in
      used = seqZ 1 (Z.of_nat (length used))
      ∧ intfCounter (run ops (G fr)) = intfCounter (G fr)
      ∧ ∀ env' req ip,
          admissible (run ops (G fr)) req ip ->
          os_Mkdir env' ("/tmp/vhostuser_" +:+ IP_String ip) = None ->
          devices_created (CreateEndpoint (Decoded req))
            (serve env' (CreateEndpoint (Decoded req)) (run ops (G fr)))
          = [1 + Z.of_nat (length used)].
Proof.
  intros Hstart. destruct (startup_counters _ _ _ Hstart) as (Hc & Hn & Hi).
  split; [done|]. split; [done|]. intros ops Hlen used.
  destruct (numbers_given_consecutive intf_counter devices_created ops
              device_indices_from_counter (G fr))
    as (k & Hk & Hout & Hctr).
  - unfold intf_counter, GoInt.min_int. rewrite Hi. lia.
  - unfold intf_counter. rewrite Hi. lia.
  - assert (intf_counter (G fr) = 1) as Hone by done.
    rewrite Hone in Hout, Hctr.
    assert (length used = k) as Hused.
    { subst used. unfold intf_ids. rewrite Hout, length_seqZ. lia. }
    rewrite Hused. split; [exact Hout|].
    split; [apply intfCounter_untouched_run|].
    intros env' req ip Hadm Hmk.
    rewrite (CreateEndpoint_hands_out env' req ip _ Hadm Hmk).
    by rewrite Hctr.
Qed.

End Startup.

Section Reachable.
Context `{GoLib}.

(** A call that ends normally has released every mutex it took. *)
Lemma serve_Done_quiescent env op g :
  quiescent g ->
  status (serve env op g) = Done ->
  quiescent (globals (serve env op g)).
Proof.
  intros (Hn & He & Hb). unfold quiescent.
  destruct op as [r|r|r|r|r]; unfold serve, call.
  - unfold handlerCreateNetwork, dbAdd. unfold_M. mrun; done.
  - unfold handlerDeleteNetwork, dbDelete. unfold_M. mrun; done.
  - unfold handlerCreateEndpoint, dbAdd. unfold_M. mrun; done.
  - unfold handlerDeleteEndpoint, dbDelete. unfold_M. mrun; done.
  - unfold handlerJoin. unfold_M. mrun; done.
Qed.

Lemma decodable_put d t b k bytes :
  decodable d -> d !! t = Some b ->
  (t = "nwMap" -> is_Some (gob_Decode_nwVal bytes)) ->
  (t = "epMap" -> is_Some (gob_Decode_epVal bytes)) ->
  (t = "brMap" -> is_Some (gob_Decode_int bytes)) ->
  decodable (<[t := <[k := bytes]> b]> d).
Proof.
  intros (Hnw & Hep & Hbr) Hb Tnw Tep Tbr. unfold decodable, bucket in *.
  repeat split.
  - destruct (decide (t = "nwMap")) as [->|Hne].
    + rewrite lookup_insert_eq. rewrite Hb in Hnw.
      apply map_Forall_insert_2; auto.
    + by rewrite lookup_insert_ne.
  - destruct (decide (t = "epMap")) as [->|Hne].
    + rewrite lookup_insert_eq. rewrite Hb in Hep.
      apply map_Forall_insert_2; auto.
    + by rewrite lookup_insert_ne.
  - destruct (decide (t = "brMap")) as [->|Hne].
    + rewrite lookup_insert_eq. rewrite Hb in Hbr.
      apply map_Forall_insert_2; auto.
    + by rewrite lookup_insert_ne.
Qed.

Lemma decodable_delete d t b k :
  decodable d -> d !! t = Some b -> decodable (<[t := delete k b]> d).
Proof.
  intros (Hnw & Hep & Hbr) Hb. unfold decodable, bucket in *.
  repeat split.
  - destruct (decide (t = "nwMap")) as [->|Hne].
    + rewrite lookup_insert_eq. rewrite Hb in Hnw. by apply map_Forall_delete.
    + by rewrite lookup_insert_ne.
  - destruct (decide (t = "epMap")) as [->|Hne].
    + rewrite lookup_insert_eq. rewrite Hb in Hep. by apply map_Forall_delete.
    + by rewrite lookup_insert_ne.
  - destruct (decide (t = "brMap")) as [->|Hne].
    + rewrite lookup_insert_eq. rewrite Hb in Hbr. by apply map_Forall_delete.
    + by rewrite lookup_insert_ne.
Qed.

Ltac solve_decodable Hlaw :=
  repeat first
    [ assumption
    | eapply decodable_delete; [|eassumption]
    | eapply decodable_put;
      [ | eassumption
        | first [discriminate | intros _; eapply (Hlaw (AnyNwVal _)); eassumption]
        | first [discriminate | intros _; eapply (Hlaw (AnyEpVal _)); eassumption]
        | first [discriminate | intros _; eapply (Hlaw (AnyInt _)); eassumption] ] ].

(** With such a codec the handlers keep the ledger decodable, so every
    ledger the process writes from a decodable one can be loaded again. *)
Lemma serve_decodable env op g :
  codec_reads_back ->
  decodable (db g) -> decodable (db (globals (serve env op g))).
Proof.
  intros Hlaw Hd. destruct op as [r|r|r|r|r]; unfold serve, call.
  - unfold handlerCreateNetwork, dbAdd. unfold_M. mrun; solve_decodable Hlaw.
  - unfold handlerDeleteNetwork, dbDelete. unfold_M. mrun; solve_decodable Hlaw.
  - unfold handlerCreateEndpoint, dbAdd. unfold_M. mrun; solve_decodable Hlaw.
  - unfold handlerDeleteEndpoint, dbDelete. unfold_M. mrun; solve_decodable Hlaw.
  - unfold handlerJoin. unfold_M. mrun; solve_decodable Hlaw.
Qed.

End Reachable.

(** * Further properties of the handlers *)

(** Symbolic execution that also looks through a ledger write to another
    table. *)
Ltac mrun_db :=
  msimpl;
  repeat (first [rewrite lookup_insert_ne by done
                | rewrite lookup_insert_eq
                | mstep]; msimpl).

Lemma unlocked_nwMap g :
  nwMap_locked (nwMap g) = false -> mk_nwMap false (nwMap_m (nwMap g)) = nwMap g.
Proof. destruct g as [? ? [] ? ? ?]; cbn. by intros ->. Qed.

Lemma unlocked_epMap g :
  epMap_locked (epMap g) = false -> mk_epMap false (epMap_m (epMap g)) = epMap g.
Proof. destruct g as [? [] ? ? ? ?]; cbn. by intros ->. Qed.

Lemma unlocked_brMap g :
  brMap_locked (brMap g) = false ->
  mk_brMap false (brCount (brMap g)) (intfCount (brMap g)) (brMap_m (brMap g))
  = brMap g.
Proof. destruct g as [? ? ? [] ? ?]; cbn. by intros ->. Qed.

Lemma Globals_eta g :
  mk_Globals (intfCounter g) (epMap g) (nwMap g) (brMap g) (dbFile g) (db g) = g.
Proof. by destruct g. Qed.

Section Networks.
Context `{GoLib}.

(** X1.  A request whose body cannot be read or decoded is answered with
    "Error: " and the text of the error by every table handler; the answer
    is the only event, no mutex is touched and the state is unchanged,
    whatever state the process is in. *)
Theorem undecodable_request_answered env op g e :
  decode_error op = Some e ->
  serve env op g = mk_Outcome Done g [EvSend (ErrResponse ("Error: " +:+ e))].
Proof.
  destruct op as [r|r|r|r|r]; destruct r as [e'|e'|req]; cbn;
    intros [= ->]; reflexivity.
Qed.

(** The state and events of a CreateNetwork call whose two ledger writes
    go through. *)
Lemma CreateNetwork_outcome env req d rest gw g b1 b2 bn bb :
  quiescent g ->
  CreateNetworkRequest.IPv4Data req = d :: rest ->
  IPAM_Gateway d = Some gw ->
  gob_Encode (AnyNwVal (mk_nwVal "br" gw)) = Some b1 ->
  gob_Encode (AnyInt (brCount (brMap g))) = Some b2 ->
  db g !! "nwMap" = Some bn ->
  db g !! "brMap" = Some bb ->
  bolt_Put env "nwMap" (CreateNetworkRequest.NetworkID req) = None ->
  bolt_Put env "brMap" (CreateNetworkRequest.NetworkID req) = None ->
  serve env (CreateNetwork (Decoded req)) g
  = mk_Outcome Done
      (mk_Globals (intfCounter g) (epMap g)
         (mk_nwMap false
            (<[CreateNetworkRequest.NetworkID req := mk_nwVal "br" gw]>
               (nwMap_m (nwMap g))))
         (mk_brMap false (GoInt.add (brCount (brMap g)) 1)
            (intfCount (brMap g))
            (<[CreateNetworkRequest.NetworkID req := brCount (brMap g)]>
               (brMap_m (brMap g))))
         (dbFile g)
         (<["brMap" := <[CreateNetworkRequest.NetworkID req := b2]> bb]>
            (<["nwMap" := <[CreateNetworkRequest.NetworkID req := b1]> bn]>
               (db g))))
      [EvLock nwMapMu; EvLock brMapMu; EvUnlock brMapMu;
       EvSend (ErrResponse ""); EvUnlock nwMapMu].
Proof.
  intros (Hn & He & Hb) Hd Hgw H1 H2 Hbn Hbb Hp1 Hp2.
  unfold serve, call, handlerCreateNetwork, dbAdd. unfold_M. msimpl.
  rewrite Hd. mrun_db; done.
Qed.

(** X2.  A CreateNetwork call whose ledger writes go through answers
    without error and leaves no mutex held.  It stores the network with
    the fixed bridge name "br" and the gateway of the first IPv4 entry,
    gives it the current bridge number, moves the bridge counter by one,
    and the two ledger buckets hold the encoded record and number under
    the network ID.  Nothing asks whether the ID was there before: an
    existing entry is overwritten.  Endpoints and the interface counter
    are untouched and no command runs. *)
Theorem CreateNetwork_effect env req d rest gw g b1 b2 bn bb :
  quiescent g ->
  CreateNetworkRequest.IPv4Data req = d :: rest ->
  IPAM_Gateway d = Some gw ->
  gob_Encode (AnyNwVal (mk_nwVal "br" gw)) = Some b1 ->
  gob_Encode (AnyInt (brCount (brMap g))) = Some b2 ->
  db g !! "nwMap" = Some bn ->
  db g !! "brMap" = Some bb ->
  bolt_Put env "nwMap" (CreateNetworkRequest.NetworkID req) = None ->
  bolt_Put env "brMap" (CreateNetworkRequest.NetworkID req) = None ->
  let id := CreateNetworkRequest.NetworkID req in
  let o := serve env (CreateNetwork (Decoded req)) g in
  status o = Done
  ∧ response (events o) = Some (ErrResponse "")
  ∧ effects (events o) = []
  ∧ quiescent (globals o)
  ∧ nwMap_m (nwMap (globals o)) = <[id := mk_nwVal "br" gw]> (nwMap_m (nwMap g))
  ∧ brMap_m (brMap (globals o)) = <[id := brCount (brMap g)]> (brMap_m (brMap g))
  ∧ bridge_counter (globals o) = GoInt.add (bridge_counter g) 1
  ∧ bucket (db (globals o)) "nwMap" = <[id := b1]> bn
  ∧ bucket (db (globals o)) "brMap" = <[id := b2]> bb
  ∧ epMap (globals o) = epMap g
  ∧ intf_counter (globals o) = intf_counter g.
Proof.
  intros Hq Hd Hgw H1 H2 Hbn Hbb Hp1 Hp2 id o. subst o id.
  rewrite (CreateNetwork_outcome env req d rest gw g b1 b2 bn bb) by done.
  unfold bucket, quiescent, bridge_counter, intf_counter. cbn.
  rewrite lookup_insert_eq, lookup_insert_ne, lookup_insert_eq by done.
  destruct Hq as (_ & He & _). by repeat split.
Qed.

(** X3.  A CreateNetwork request without an IPv4 entry, or whose first
    entry has no gateway, makes the handler panic while it builds the
    record.  The deferred unlock releases the network mutex: the state is
    exactly the one before the call, and the caller gets no answer. *)
Theorem CreateNetwork_malformed env req g :
  quiescent g ->
  CreateNetworkRequest.IPv4Data req = []
  ∨ (∃ rest, CreateNetworkRequest.IPv4Data req = mk_IPAMData None :: rest) ->
  ∃ msg,
    serve env (CreateNetwork (Decoded req)) g
    = mk_Outcome (Panicked msg) g [EvLock nwMapMu; EvUnlock nwMapMu].
Proof.
  intros (Hn & He & Hb) Hbad.
  destruct g as [c e [nl nm] b f d]. cbn in Hn. subst nl.
  unfold serve, call, handlerCreateNetwork. unfold_M. msimpl.
  destruct Hbad as [-> | [rest ->]]; msimpl; eexists; reflexivity.
Qed.

(** The state and events of a DeleteNetwork call for a network that exists
    and whose two ledger deletions go through. *)
Lemma DeleteNetwork_outcome env req g nv bn bb :
  quiescent g ->
  nwMap_m (nwMap g) !! DeleteNetworkRequest.NetworkID req = Some nv ->
  db g !! "nwMap" = Some bn ->
  db g !! "brMap" = Some bb ->
  bolt_Delete env "nwMap" (DeleteNetworkRequest.NetworkID req) = None ->
  bolt_Delete env "brMap" (DeleteNetworkRequest.NetworkID req) = None ->
  serve env (DeleteNetwork (Decoded req)) g
  = mk_Outcome Done
      (mk_Globals (intfCounter g) (epMap g)
         (mk_nwMap false
            (delete (DeleteNetworkRequest.NetworkID req) (nwMap_m (nwMap g))))
         (mk_brMap false (brCount (brMap g)) (intfCount (brMap g))
            (delete (DeleteNetworkRequest.NetworkID req) (brMap_m (brMap g))))
         (dbFile g)
         (<["brMap" := delete (DeleteNetworkRequest.NetworkID req) bb]>
            (<["nwMap" := delete (DeleteNetworkRequest.NetworkID req) bn]>
               (db g))))
      [EvLock nwMapMu; EvLock brMapMu; EvUnlock brMapMu;
       EvSend (ErrResponse ""); EvUnlock nwMapMu].
Proof.
  intros (Hn & He & Hb) Hnv Hbn Hbb Hd1 Hd2.
  unfold serve, call, handlerDeleteNetwork, dbDelete. unfold_M.
  mrun_db; done.
Qed.

(** X4.  DeleteNetwork for a network that exists answers without error
    whatever the ledger does, takes the network out of the network table
    and its number out of the bridge table, runs no command and leaves
    both counters as they were.  It never looks at the endpoint table:
    endpoints created on the network stay behind. *)
Theorem DeleteNetwork_effect env req g nv :
  quiescent g ->
  nwMap_m (nwMap g) !! DeleteNetworkRequest.NetworkID req = Some nv ->
  let id := DeleteNetworkRequest.NetworkID req in
  let o := serve env (DeleteNetwork (Decoded req)) g in
  status o = Done
  ∧ response (events o) = Some (ErrResponse "")
  ∧ effects (events o) = []
  ∧ quiescent (globals o)
  ∧ nwMap_m (nwMap (globals o)) = delete id (nwMap_m (nwMap g))
  ∧ brMap_m (brMap (globals o)) = delete id (brMap_m (brMap g))
  ∧ bridge_counter (globals o) = bridge_counter g
  ∧ intf_counter (globals o) = intf_counter g
  ∧ epMap (globals o) = epMap g.
Proof.
  intros (Hn & He & Hb) Hnv.
  unfold serve, call, handlerDeleteNetwork, dbDelete, quiescent,
    bridge_counter, intf_counter.
  unfold_M. mrun; by repeat split.
Qed.

(** X5.  Creating a network that was not there and deleting it again, with
    the ledger working, brings the process back to the state before the
    two calls in everything but the bridge counter, which stays one
    higher: the tables and the ledger are as they were, and the bridge
    number is not given back. *)
Theorem CreateNetwork_DeleteNetwork_round_trip
    env1 env2 req d rest gw g b1 b2 bn bb :
  let id := CreateNetworkRequest.NetworkID req in
  quiescent g ->
  CreateNetworkRequest.IPv4Data req = d :: rest ->
  IPAM_Gateway d = Some gw ->
  gob_Encode (AnyNwVal (mk_nwVal "br" gw)) = Some b1 ->
  gob_Encode (AnyInt (brCount (brMap g))) = Some b2 ->
  db g !! "nwMap" = Some bn ->
  db g !! "brMap" = Some bb ->
  bolt_Put env1 "nwMap" id = None ->
  bolt_Put env1 "brMap" id = None ->
  bolt_Delete env2 "nwMap" id = None ->
  bolt_Delete env2 "brMap" id = None ->
  nwMap_m (nwMap g) !! id = None ->
  brMap_m (brMap g) !! id = None ->
  bn !! id = None ->
  bb !! id = None ->
  globals (serve env2 (DeleteNetwork (Decoded (DeleteNetworkRequest.mk id)))
             (globals (serve env1 (CreateNetwork (Decoded req)) g)))
  = set_brMap (mk_brMap false (GoInt.add (brCount (brMap g)) 1)
                 (intfCount (brMap g)) (brMap_m (brMap g))) g.
Proof.
  intros id Hq Hd Hgw H1 H2 Hbn Hbb Hp1 Hp2 Hd1 Hd2 Hnone Hbnone Hk1 Hk2.
  subst id.
  rewrite (CreateNetwork_outcome env1 req d rest gw g b1 b2 bn bb) by done.
  cbn [globals].
  destruct Hq as (Hn & He & Hb).
  erewrite DeleteNetwork_outcome; cbn;
    [ | by repeat split | apply lookup_insert_eq
      | by rewrite lookup_insert_ne, lookup_insert_eq
      | apply lookup_insert_eq | done | done ].
  rewrite !delete_insert_id by done. unfold set_brMap.
  rewrite (unlocked_nwMap g Hn). f_equal.
  apply map_eq. intros t. rewrite !lookup_insert.
  repeat case_decide; congruence.
Qed.

End Networks.

Section Endpoints.
Context `{GoLib}.

(** The state after a CreateEndpoint call whose four steps succeed. *)
Lemma CreateEndpoint_success env g req ip :
  admissible g req ip ->
  all_succeed env
    (provisioning_steps (IP_String ip) (intfCount (brMap g))) = true ->
  let o := serve env (CreateEndpoint (Decoded req)) g in
  status o = Done
  ∧ response (events o) = Some (ErrResponse "")
  ∧ quiescent (globals o)
  ∧ epMap_m (epMap (globals o))
    = <[CreateEndpointRequest.EndpointID req :=
          mk_epVal (address_of req)
            (IP_String ip)
            (GoInt.itoa (GoInt.add (intfCount (brMap g)) 1))]>
        (epMap_m (epMap g))
  ∧ nwMap (globals o) = nwMap g
  ∧ intfCount (brMap (globals o)) = GoInt.add (intfCount (brMap g)) 1.
Proof.
  intros ((Hn & He & Hb) & Ha & Hp & nv & Hnv & Hbr).
  have_interface Ha.
  pose proof (unlocked_nwMap g Hn) as Hnw.
  cbn [provisioning_steps all_succeed step_result].
  unfold serve, call, handlerCreateEndpoint, dbAdd, quiescent. unfold_M.
  mrun; try done; intros _; by repeat split.
Qed.

(** What DeleteEndpoint does in memory and to the outside for an endpoint
    that exists. *)
Lemma DeleteEndpoint_outcome env req g m :
  quiescent g ->
  epMap_m (epMap g) !! DeleteEndpointRequest.EndpointID req = Some m ->
  let o := serve env (DeleteEndpoint (Decoded req)) g in
  let args := ["link"; "del"; vhostuserPort m] in
  status o = Done
  ∧ quiescent (globals o)
  ∧ epMap_m (epMap (globals o))
    = delete (DeleteEndpointRequest.EndpointID req) (epMap_m (epMap g))
  ∧ nwMap (globals o) = nwMap g
  ∧ brMap (globals o) = brMap g
  ∧ match exec_Command env "ip" args with
    | None =>
        effects (events o)
        = [EvExec "ip" args;
           EvRemoveAll ("/tmp/vhostuser_" +:+ vhostuserPort m)]
        ∧ response (events o) = Some (ErrResponse "")
    | Some e =>
        effects (events o) = [EvExec "ip" args]
        ∧ response (events o)
          = Some (ErrResponse ("Error EndPointCreate: [ip] ["
                               +:+ fmt_slice args +:+ "] [" +:+ e +:+ "]"))
    end.
Proof.
  intros (Hn & He & Hb) Hm.
  pose proof (unlocked_nwMap g Hn) as Hnw.
  unfold serve, call, handlerDeleteEndpoint, dbDelete, quiescent. unfold_M.
  mrun; by repeat split.
Qed.

(** X6.  DeleteEndpoint for an endpoint that exists first takes the record
    out of the endpoint table (and, when the ledger obeys, out of the
    "epMap" bucket only), releases both mutexes, and then deletes the dummy
    link named by the record's port.  If that command fails the caller gets
    its error and the socket directory is left in place, though the record
    is already gone; if it succeeds the directory "/tmp/vhostuser_<port>"
    is removed and the answer carries no error.  No other command runs:
    the virtual device and the forwarding rule are never taken back. *)
Theorem DeleteEndpoint_effect env req g m :
  quiescent g ->
  epMap_m (epMap g) !! DeleteEndpointRequest.EndpointID req = Some m ->
  let id := DeleteEndpointRequest.EndpointID req in
  let o := serve env (DeleteEndpoint (Decoded req)) g in
  let args := ["link"; "del"; vhostuserPort m] in
  status o = Done
  ∧ quiescent (globals o)
  ∧ epMap_m (epMap (globals o)) = delete id (epMap_m (epMap g))
  ∧ nwMap (globals o) = nwMap g
  ∧ brMap (globals o) = brMap g
  ∧ match exec_Command env "ip" args with
    | None =>
        effects (events o)
        = [EvExec "ip" args;
           EvRemoveAll ("/tmp/vhostuser_" +:+ vhostuserPort m)]
        ∧ response (events o) = Some (ErrResponse "")
    | Some e =>
        effects (events o) = [EvExec "ip" args]
        ∧ response (events o)
          = Some (ErrResponse ("Error EndPointCreate: [ip] ["
                               +:+ fmt_slice args +:+ "] [" +:+ e +:+ "]"))
    end
  ∧ (∀ be, db g !! "epMap" = Some be ->
           bolt_Delete env "epMap" id = None ->
           db (globals o) = <["epMap" := delete id be]> (db g)).
Proof.
  intros Hq Hm id o args.
  destruct (DeleteEndpoint_outcome env req g m Hq Hm)
    as (H1 & H2 & H3 & H4 & H5 & H6).
  do 5 (split; [done|]). split; [exact H6|].
  intros be Hbe Hdel. subst o id args. destruct Hq as (Hn & He & Hb).
  unfold serve, call, handlerDeleteEndpoint, dbDelete. unfold_M.
  mrun; done.
Qed.

(** X7.  An endpoint created and then deleted: DeleteEndpoint removes the
    dummy link and the socket directory that CreateEndpoint made for the
    address, and nothing else.  The endpoint table is as before the
    creation, but the interface counter stays one higher, and the virtual
    device and the forwarding rule installed by the creation are not
    touched by the deletion. *)
Theorem CreateEndpoint_then_DeleteEndpoint env1 env2 g req ip :
  admissible g req ip ->
  all_succeed env1
    (provisioning_steps (IP_String ip) (intfCount (brMap g))) = true ->
  exec_Command env2 "ip" ["link"; "del"; IP_String ip] = None ->
  epMap_m (epMap g) !! CreateEndpointRequest.EndpointID req = None ->
  let id := CreateEndpointRequest.EndpointID req in
  let o1 := serve env1 (CreateEndpoint (Decoded req)) g in
  let o2 := serve env2
              (DeleteEndpoint
                 (Decoded (DeleteEndpointRequest.mk
                             (CreateEndpointRequest.NetworkID req) id)))
              (globals o1) in
  EvMkdir ("/tmp/vhostuser_" +:+ IP_String ip) ∈ effects (events o1)
  ∧ EvExec "ip" (dummy_args (IP_String ip)) ∈ effects (events o1)
  ∧ effects (events o2)
    = [EvExec "ip" ["link"; "del"; IP_String ip];
       EvRemoveAll ("/tmp/vhostuser_" +:+ IP_String ip)]
  ∧ response (events o2) = Some (ErrResponse "")
  ∧ epMap_m (epMap (globals o2)) = epMap_m (epMap g)
  ∧ intf_counter (globals o2) = GoInt.add (intf_counter g) 1.
Proof.
  intros Ha Hok Hdel Hfresh id o1 o2.
  destruct (CreateEndpoint_success env1 g req ip Ha Hok)
    as (S1 & S2 & S3 & S4 & S5 & S6). fold o1 in S1, S2, S3, S4, S5, S6.
  assert (effects (events o1)
          = provisioning_steps (IP_String ip) (intfCount (brMap g))) as Heff.
  { subst o1. revert Hok.
    destruct Ha as ((Hn & He & Hb) & Hne & Hp & nv & Hnv & Hbr).
    have_interface Hne.
    cbn [provisioning_steps all_succeed step_result].
    unfold serve, call, handlerCreateEndpoint, dbAdd. unfold_M.
    mrun; done. }
  destruct (DeleteEndpoint_outcome env2
              (DeleteEndpointRequest.mk (CreateEndpointRequest.NetworkID req) id)
              (globals o1)
              (mk_epVal (address_of req)
                 (IP_String ip)
                 (GoInt.itoa (GoInt.add (intfCount (brMap g)) 1))) S3)
    as (D1 & D2 & D3 & D4 & D5 & D6).
  { rewrite S4. apply lookup_insert_eq. }
  fold o2 in D1, D2, D3, D4, D5, D6. cbn [vhostuserPort] in D6.
  rewrite Hdel in D6. destruct D6 as [D6 D7].
  rewrite Heff. repeat split; try done.
  - unfold provisioning_steps. solve_elem.
  - unfold provisioning_steps. solve_elem.
  - rewrite D3, S4. cbn. by apply delete_insert_id.
  - unfold intf_counter. by rewrite D5, S6.
Qed.

(** The answer of Join when network and endpoint exist. *)
Lemma Join_present req g nm em :
  quiescent g ->
  nwMap_m (nwMap g) !! JoinRequest.NetworkID req = Some nm ->
  epMap_m (epMap g) !! JoinRequest.EndpointID req = Some em ->
  let o := call (handlerJoin (Decoded req)) g in
  status o = Done
  ∧ response (events o)
    = Some (JoinResponse (vhostuserPort em, "eth")
              (IP_String (IPNet_IP (Gateway nm))) "").
Proof.
  intros (Hn & He & Hb) Hnm Hem.
  unfold call, handlerJoin. unfold_M. mrun; done.
Qed.

(** X8.  Join only reads.  On a state with no mutex held it takes and
    releases the network and endpoint mutexes, runs no command and leaves
    the whole state as it was on every path.  When both the network and
    the endpoint exist it answers with the endpoint's port as source
    name, the prefix "eth" and the text of the network's gateway address;
    when either is missing it panics on the nil record, after both mutexes
    were released, and sends nothing. *)
Theorem Join_reads_only r g :
  quiescent g ->
  let o := call (handlerJoin r) g in
  globals o = g
  ∧ effects (events o) = []
  ∧ match r with
    | Decoded req =>
        match nwMap_m (nwMap g) !! JoinRequest.NetworkID req,
              epMap_m (epMap g) !! JoinRequest.EndpointID req with
        | Some nm, Some em =>
            status o = Done
            ∧ response (events o)
              = Some (JoinResponse (vhostuserPort em, "eth")
                        (IP_String (IPNet_IP (Gateway nm))) "")
        | _, _ => status o = Panicked nil_deref ∧ response (events o) = None
        end
    | _ => status o = Done
    end.
Proof.
  intros (Hn & He & Hb).
  destruct g as [c [el em] [nl nm] b f d]. cbn in Hn, He. subst el nl.
  unfold call, handlerJoin. unfold_M.
  destruct r as [e|e|req]; mrun; done.
Qed.

(** X9.  After a successful CreateEndpoint, Join for the same network and
    endpoint answers with the text of the endpoint's IP address as the
    source interface name, which is the name of the dummy link the
    creation added, and with the gateway of the network. *)
Theorem CreateEndpoint_then_Join env g req ip nv :
  admissible g req ip ->
  nwMap_m (nwMap g) !! CreateEndpointRequest.NetworkID req = Some nv ->
  all_succeed env
    (provisioning_steps (IP_String ip) (intfCount (brMap g))) = true ->
  let o1 := serve env (CreateEndpoint (Decoded req)) g in
  let o2 := call (handlerJoin
                    (Decoded (JoinRequest.mk
                                (CreateEndpointRequest.NetworkID req)
                                (CreateEndpointRequest.EndpointID req))))
              (globals o1) in
  EvExec "ip" ["link"; "add"; IP_String ip; "type"; "dummy"]
    ∈ effects (events o1)
  ∧ status o2 = Done
  ∧ response (events o2)
    = Some (JoinResponse (IP_String ip, "eth")
              (IP_String (IPNet_IP (Gateway nv))) "").
Proof.
  intros Ha Hnv Hok o1 o2.
  destruct (CreateEndpoint_success env g req ip Ha Hok)
    as (S1 & S2 & S3 & S4 & S5 & S6). fold o1 in S1, S2, S3, S4, S5, S6.
  split.
  - subst o1. revert Hok.
    destruct Ha as ((Hn & He & Hb) & Hne & Hp & nv' & Hnv' & Hbr).
    have_interface Hne.
    assert (nv' = nv) as -> by congruence. clear Hnv'.
    cbn [provisioning_steps all_succeed step_result].
    unfold serve, call, handlerCreateEndpoint, dbAdd. unfold_M.
    mrun; try done; intros _; solve_elem.
  - apply (Join_present _ (globals o1) nv
             (mk_epVal (address_of req)
                (IP_String ip)
                (GoInt.itoa (GoInt.add (intfCount (brMap g)) 1))));
      cbn [JoinRequest.NetworkID JoinRequest.EndpointID].
    + done.
    + by rewrite S5.
    + rewrite S4. apply lookup_insert_eq.
Qed.

End Endpoints.

Section Mutexes.
Context `{GoLib}.

(** With the network mutex held, a request that reaches the tables blocks
    and changes nothing but, for DeleteEndpoint, the endpoint mutex it
    took on its way. *)
Lemma held_nwMap_blocks env op g :
  nwMap_locked (nwMap g) = true ->
  reaches_tables op ->
  let o := serve env op g in
  (∃ mu, status o = Blocks mu)
  ∧ events o = match op with
               | DeleteEndpoint _ =>
                   if epMap_locked (epMap g) then [] else [EvLock epMapMu]
               | _ => []
               end
  ∧ nwMap (globals o) = nwMap g.
Proof.
  intros Hn Hop.
  destruct op as [[| |req]|[| |req]|[| |req]|[| |req]|[| |req]]; try done;
    unfold serve, call.
  - unfold handlerCreateNetwork. unfold_M. mrun. eauto.
  - unfold handlerDeleteNetwork. unfold_M. mrun. eauto.
  - destruct Hop as (Ha & ip & Hp).
    have_interface Ha.
    unfold handlerCreateEndpoint. unfold_M. mrun; try done; eauto.
  - unfold handlerDeleteEndpoint. unfold_M. mrun; eauto.
  - unfold handlerJoin. unfold_M. mrun. eauto.
Qed.

(** No call releases a network mutex it did not take. *)
Lemma held_nwMap_stays env op g :
  nwMap_locked (nwMap g) = true ->
  nwMap_locked (nwMap (globals (serve env op g))) = true.
Proof.
  intros Hn. destruct op as [r|r|r|r|r]; unfold serve, call.
  - unfold handlerCreateNetwork. unfold_M. mrun; done.
  - unfold handlerDeleteNetwork. unfold_M. mrun; done.
  - unfold handlerCreateEndpoint. unfold_M. mrun; done.
  - unfold handlerDeleteEndpoint. unfold_M. mrun; done.
  - unfold handlerJoin. unfold_M. mrun; done.
Qed.

Lemma held_nwMap_run ops g :
  nwMap_locked (nwMap g) = true -> nwMap_locked (nwMap (run ops g)) = true.
Proof.
  revert g. induction ops as [|[env op] rest IH]; intros g Hn; [done|].
  cbn [run]. apply IH. by apply held_nwMap_stays.
Qed.

(** X10.  Once the network mutex is held with no call left to release it,
    it stays held for the rest of the process: whatever requests follow,
    each one that reaches the tables blocks on a mutex, sends no answer
    and runs no command. *)
Theorem held_network_mutex_is_permanent ops env op g :
  nwMap_locked (nwMap g) = true ->
  reaches_tables op ->
  let o := serve env op (run ops g) in
  nwMap_locked (nwMap (run ops g)) = true
  ∧ (∃ mu, status o = Blocks mu)
  ∧ response (events o) = None
  ∧ effects (events o) = [].
Proof.
  intros Hn Hop o. pose proof (held_nwMap_run ops g Hn) as Hrun.
  split; [done|].
  destruct (held_nwMap_blocks env op (run ops g) Hrun Hop) as (Hb & Hev & _).
  fold o in Hb, Hev. split; [done|]. rewrite Hev.
  destruct op; try done. by destruct (epMap_locked _).
Qed.

(** A request that panics with a mutex held leaves the network mutex
    held. *)
Lemma leak_holds_nwMap env op g :
  quiescent g -> leaks_mutex g op ->
  nwMap_locked (nwMap (globals (serve env op g))) = true.
Proof.
  intros (Hn & He & Hb) Hop.
  destruct op as [[| |req]|[| |req]|[| |req]|[| |req]|[| |req]]; try done;
    unfold serve, call.
  - destruct Hop as (Ha & (ip & Hp) & Hnone).
    have_interface Ha.
    unfold handlerCreateEndpoint. unfold_M. mrun; done.
  - cbn in Hop. unfold handlerDeleteEndpoint. unfold_M. mrun; done.
Qed.

(** X11.  One bad request wedges the plugin.  After a CreateEndpoint with a
    good address for a network that has no entry, or a DeleteEndpoint for
    an endpoint that has no entry, served on a state with no mutex held,
    every later request that reaches the tables blocks and is never
    answered, however many requests come in between. *)
Theorem one_crash_blocks_all_later_calls env0 op0 g ops env op :
  quiescent g ->
  leaks_mutex g op0 ->
  reaches_tables op ->
  let o := serve env op (run ops (globals (serve env0 op0 g))) in
  (∃ mu, status o = Blocks mu) ∧ response (events o) = None.
Proof.
  intros Hq Hleak Hop o.
  pose proof (held_nwMap_run ops _ (leak_holds_nwMap env0 op0 g Hq Hleak))
    as Hrun.
  destruct (held_nwMap_blocks env op _ Hrun Hop) as (Hb & Hev & _).
  fold o in Hb, Hev. split; [done|]. rewrite Hev.
  destruct op; try done. by destruct (epMap_locked _).
Qed.

(** X12.  Served on a state with no mutex held, a call never blocks, and
    when it ends normally every mutex is free again.  A panic in
    CreateNetwork, DeleteNetwork or Join leaves the state exactly as it
    was before the call; only CreateEndpoint and DeleteEndpoint can panic
    with a mutex held. *)
Theorem calls_on_free_mutexes env op g :
  quiescent g ->
  let o := serve env op g in
  (∀ mu, status o ≠ Blocks mu)
  ∧ (status o = Done -> quiescent (globals o))
  ∧ match op with
    | CreateEndpoint _ | DeleteEndpoint _ => True
    | _ => ∀ msg, status o = Panicked msg -> globals o = g
    end.
Proof.
  intros (Hn & He & Hb).
  destruct g as [c [el em] [nl nm] [bl bc ic bm] f d]. cbn in Hn, He, Hb.
  subst el nl bl. unfold quiescent.
  destruct op as [r|r|r|r|r]; unfold serve, call.
  - unfold handlerCreateNetwork, dbAdd. unfold_M. mrun; by repeat split.
  - unfold handlerDeleteNetwork, dbDelete. unfold_M. mrun; by repeat split.
  - unfold handlerCreateEndpoint, dbAdd. unfold_M. mrun; by repeat split.
  - unfold handlerDeleteEndpoint, dbDelete. unfold_M. mrun; by repeat split.
  - unfold handlerJoin. unfold_M. mrun; by repeat split.
Qed.

(** X13.  The lock order Network, Endpoint, Bridge is kept on every path,
    in every state and for every request, by CreateNetwork, DeleteNetwork,
    CreateEndpoint and Join. *)
Theorem lock_order_kept_elsewhere :
  (∀ env r g,
     lock_order_respected (events (call (handlerCreateNetwork env r) g)) = true)
  ∧ (∀ env r g,
     lock_order_respected (events (call (handlerDeleteNetwork env r) g)) = true)
  ∧ (∀ env r g,
     lock_order_respected (events (call (handlerCreateEndpoint env r) g)) = true)
  ∧ (∀ r g,
     lock_order_respected (events (call (handlerJoin r) g)) = true).
Proof.
  repeat split; intros.
  - apply CreateNetwork_lock_order.
  - apply DeleteNetwork_lock_order.
  - apply CreateEndpoint_lock_order.
  - apply Join_lock_order.
Qed.

End Mutexes.

Section TableInvariants.
Context `{GoLib}.

Lemma all_br_serve env op g : all_br g -> all_br (globals (serve env op g)).
Proof.
  intros Hbr. unfold all_br in *.
  destruct op as [r|r|r|r|r]; unfold serve, call.
  - unfold handlerCreateNetwork, dbAdd. unfold_M.
    mrun; try done; by apply map_Forall_insert_2.
  - unfold handlerDeleteNetwork, dbDelete. unfold_M.
    mrun; try done; by apply map_Forall_delete.
  - unfold handlerCreateEndpoint, dbAdd. unfold_M. mrun; done.
  - unfold handlerDeleteEndpoint, dbDelete. unfold_M. mrun; done.
  - unfold handlerJoin. unfold_M. mrun; done.
Qed.

Lemma all_br_run ops g : all_br g -> all_br (run ops g).
Proof.
  revert g. induction ops as [|[env op] rest IH]; intros g Hbr; [done|].
  cbn [run]. apply IH. by apply all_br_serve.
Qed.

(** X14.  CreateNetwork only ever stores the bridge name "br", and no
    handler changes a stored record: if every network in the table has the
    bridge name "br", that stays so over any sequence of requests.  In such
    a state the check [bridge == ""] of CreateEndpoint cannot fire: no
    decoded CreateEndpoint request is ever answered with "Error:
    incompatible network". *)
Theorem bridge_name_is_always_br ops g env req :
  all_br g ->
  all_br (run ops g)
  ∧ response (events (serve env (CreateEndpoint (Decoded req)) (run ops g)))
    ≠ Some (ErrResponse "Error: incompatible network").
Proof.
  intros Hbr. pose proof (all_br_run ops g Hbr) as Hrun. split; [done|].
  unfold all_br in Hrun. unfold serve, call, handlerCreateEndpoint, dbAdd.
  unfold_M. generalize dependent (run ops g). intros g' Hrun.
  mrun; try discriminate.
  match goal with
  | Hl : nwMap_m (nwMap g') !! _ = Some ?nv, He : Bridge ?nv = "" |- _ =>
      apply Hrun in Hl; cbn in Hl; rewrite He in Hl; discriminate
  end.
Qed.

Lemma same_networks_serve env op g :
  brMap_locked (brMap g) = false ->
  same_networks g ->
  brMap_locked (brMap (globals (serve env op g))) = false
  ∧ same_networks (globals (serve env op g)).
Proof.
  intros Hb Hsame. unfold same_networks in *.
  destruct op as [r|r|r|r|r]; unfold serve, call.
  - unfold handlerCreateNetwork, dbAdd. unfold_M.
    mrun; (split; [done|]); rewrite ?dom_insert_L; congruence.
  - unfold handlerDeleteNetwork, dbDelete. unfold_M.
    mrun; (split; [done|]); rewrite ?dom_delete_L; congruence.
  - unfold handlerCreateEndpoint, dbAdd. unfold_M. mrun; done.
  - unfold handlerDeleteEndpoint, dbDelete. unfold_M. mrun; done.
  - unfold handlerJoin. unfold_M. mrun; done.
Qed.

(** X15.  A network has a bridge number exactly as long as it has a
    record: if the bridge mutex is free and the network table and the
    bridge table hold the same network IDs, both stay so over any sequence
    of requests, panics and blocked calls included. *)
Theorem networks_and_bridges_stay_paired ops g :
  brMap_locked (brMap g) = false ->
  same_networks g ->
  brMap_locked (brMap (run ops g)) = false ∧ same_networks (run ops g).
Proof.
  revert g. induction ops as [|[env op] rest IH]; intros g Hb Hsame; [done|].
  cbn [run]. destruct (same_networks_serve env op g Hb Hsame) as [Hb' Hs'].
  by apply IH.
Qed.

End TableInvariants.

Section LedgerCalls.
Context `{GoLib}.

Lemma create_buckets_others env tables d d' t :
  create_buckets env tables d = inr d' -> t ∉ tables -> d' !! t = d !! t.
Proof.
  revert d. induction tables as [|t0 rest IH]; intros d Hc Ht; cbn in Hc.
  - by simplify_eq.
  - destruct (bolt_CreateBucket env t0); [done|].
    apply not_elem_of_cons in Ht as [Hne Ht]. rewrite (IH _ Hc Ht).
    destruct (d !! t0); [done|]. by rewrite lookup_insert_ne.
Qed.

Lemma create_buckets_fails env tables d e :
  create_buckets env tables d = inl e ->
  ∃ t, t ∈ tables ∧ is_Some (bolt_CreateBucket env t).
Proof.
  revert d. induction tables as [|t0 rest IH]; intros d Hc; cbn in Hc; [done|].
  destruct (bolt_CreateBucket env t0) as [e0|] eqn:Ht0.
  - exists t0. split; [apply list_elem_of_here | by rewrite Ht0].
  - destruct (IH _ Hc) as (t & Ht & Hf). exists t.
    split; [by apply list_elem_of_further | done].
Qed.

(** X16.  [dbTableInit] never loses data.  When it returns no error every
    table named exists afterwards, a table that existed keeps its content,
    a new one is empty, and tables not named are as before; when it
    returns an error, which happens only if creating one of the named
    buckets failed, the ledger is exactly as before.  Nothing but the
    ledger changes. *)
Theorem dbTableInit_keeps_data env tables fr :
  ∃ err fr',
    dbTableInit env tables fr = (Val err, fr')
    ∧ G fr' = set_db (db (G fr')) (G fr)
    ∧ match err with
      | None =>
          (∀ t, t ∈ tables -> db (G fr') !! t = Some (bucket (db (G fr)) t))
          ∧ (∀ t, t ∉ tables -> db (G fr') !! t = db (G fr) !! t)
      | Some _ =>
          db (G fr') = db (G fr)
          ∧ ∃ t, t ∈ tables ∧ is_Some (bolt_CreateBucket env t)
      end.
Proof.
  unfold dbTableInit. unfold_M.
  destruct (create_buckets env tables (db (G fr))) as [e|d'] eqn:Hc; cbn.
  - exists (Some e). eexists. split; [done|]. cbn.
    split; [by destruct (G fr)|]. split; [done|].
    by apply (create_buckets_fails _ _ _ _ Hc).
  - exists None. eexists. split; [done|]. cbn. split; [done|]. split.
    + intros t Ht. by apply (create_buckets_lookup _ _ _ _ _ Hc).
    + intros t Ht. by apply (create_buckets_others _ _ _ _ _ Hc).
Qed.

(** X17.  [dbAdd] is all or nothing.  It always returns; when it returns
    an error (the value does not encode, the table is missing, or the
    write is refused) the ledger is exactly as before, and when it returns
    none the ledger differs in the one key, which now holds the encoded
    value.  The in-memory tables are never touched. *)
Theorem dbAdd_all_or_nothing env table key value fr :
  ∃ err fr',
    dbAdd env table key value fr = (Val err, fr')
    ∧ G fr' = set_db (db (G fr')) (G fr)
    ∧ match err with
      | Some _ => db (G fr') = db (G fr)
      | None =>
          ∃ bytes b,
            gob_Encode value = Some bytes
            ∧ db (G fr) !! table = Some b
            ∧ db (G fr') = <[table := <[key := bytes]> b]> (db (G fr))
      end.
Proof.
  unfold dbAdd. unfold_M.
  destruct (gob_Encode value) as [bytes|]; cbn.
  - destruct (db (G fr) !! table) as [b|] eqn:Hb; cbn.
    + destruct (bolt_Put env table key); cbn.
      * eexists (Some _), _. split; [done|]. cbn. by destruct (G fr).
      * exists None. eexists. split; [done|]. cbn. split; [done|].
        by exists bytes, b.
    + eexists (Some _), _. split; [done|]. cbn. by destruct (G fr).
  - eexists (Some _), _. split; [done|]. cbn. by destruct (G fr).
Qed.

(** X18.  [dbDelete] on a table that exists, with the ledger obeying,
    returns no error and removes the one key: every other key of the table
    and every other table is as before, and deleting a key that is not
    there is not an error and changes nothing.  On a missing table it
    returns "Bucket <table> not found" and the ledger is unchanged. *)
Theorem dbDelete_removes_one_key env table key fr :
  match db (G fr) !! table with
  | None =>
      dbDelete env table key fr
      = (Val (Some ("Bucket " +:+ table +:+ " not found")), fr)
  | Some b =>
      bolt_Delete env table key = None ->
      ∃ fr',
        dbDelete env table key fr = (Val None, fr')
        ∧ G fr' = set_db (db (G fr')) (G fr)
        ∧ bucket (db (G fr')) table !! key = None
        ∧ (∀ k, k ≠ key -> bucket (db (G fr')) table !! k = b !! k)
        ∧ (∀ t, t ≠ table -> db (G fr') !! t = db (G fr) !! t)
        ∧ (b !! key = None -> db (G fr') = db (G fr))
  end.
Proof.
  unfold dbDelete. unfold_M.
  destruct (db (G fr) !! table) as [b|] eqn:Hb; cbn; [|done].
  intros ->. eexists. split; [done|]. cbn. unfold bucket.
  rewrite lookup_insert_eq. cbn. repeat split.
  - apply lookup_delete_eq.
  - intros k Hk. by apply lookup_delete_ne.
  - intros t Ht. by apply lookup_insert_ne.
  - intros Hk. rewrite delete_id by done. by apply insert_id.
Qed.

(** X19.  The counter stored in the ledger is never read back.  [dbGet]
    yields a nil value for every table, key and ledger content, and leaves
    the state as it is; so after every start-up that meets no error
    [intfCounter] is 100, whatever the table "global" holds, and both
    counters of [brMap] are 1. *)
Theorem stored_counter_is_never_read env disk fr table key fr0 :
  startup env disk = (Val None, fr) ->
  (∃ e l, dbGet table key fr0
          = (Val (None, e), mk_Frame (G fr0) (trace fr0 ++ l) (deferred fr0)))
  ∧ intfCounter (G fr) = 100
  ∧ bridge_counter (G fr) = 1
  ∧ intf_counter (G fr) = 1.
Proof.
  intros Hstart. split; [apply dbGet_result|].
  by apply startup_counters in Hstart.
Qed.

End LedgerCalls.

Section Restarts.
Context `{GoLib}.

Lemma create_buckets_refused env tables d t :
  t ∈ tables -> is_Some (bolt_CreateBucket env t) ->
  ∃ e, create_buckets env tables d = inl e.
Proof.
  intros Ht Hf. revert d.
  induction tables as [|t0 rest IH]; intros d; [by apply elem_of_nil in Ht|].
  cbn. destruct (bolt_CreateBucket env t0) as [e0|] eqn:Ht0; [by eexists|].
  apply elem_of_cons in Ht as [-> | Ht].
  - rewrite Ht0 in Hf. by destruct Hf.
  - by apply IH.
Qed.

(** A start-up whose file opens and whose buckets can be created gets to
    the loops with empty tables, free mutexes and a ledger that has the
    three table buckets with the content of the file. *)
Lemma startup_reaches_loops env disk :
  bolt_Open env "/tmp/dpdk_bolt.db" = None ->
  (∀ t, bolt_CreateBucket env t = None) ->
  ∃ fr0,
    startup env disk = load_tables fr0
    ∧ quiescent (G fr0)
    ∧ db (G fr0) !! "nwMap" = Some (bucket disk "nwMap")
    ∧ db (G fr0) !! "epMap" = Some (bucket disk "epMap")
    ∧ db (G fr0) !! "brMap" = Some (bucket disk "brMap")
    ∧ nwMap_m (nwMap (G fr0)) = ∅
    ∧ epMap_m (epMap (G fr0)) = ∅
    ∧ brMap_m (brMap (G fr0)) = ∅.
Proof.
  intros Hopen Hmk.
  destruct (create_buckets_succeeds env ["global"; "nwMap"; "epMap"; "brMap"]
              disk Hmk) as (d' & Hd').
  assert (d' !! "nwMap" = Some (bucket disk "nwMap")) as Lnw
    by (apply (create_buckets_lookup _ _ _ _ _ Hd'); solve_elem).
  assert (d' !! "epMap" = Some (bucket disk "epMap")) as Lep
    by (apply (create_buckets_lookup _ _ _ _ _ Hd'); solve_elem).
  assert (d' !! "brMap" = Some (bucket disk "brMap")) as Lbr
    by (apply (create_buckets_lookup _ _ _ _ _ Hd'); solve_elem).
  unfold startup, initDb.
  erewrite M_bind_val by reflexivity. cbn [G init dbFile]. rewrite Hopen.
  erewrite M_bind_val by (by apply dbTableInit_ok).
  cbn [G trace deferred].
  match goal with
  | |- ∃ _, (dbGet ?t ?k ≫= _) ?fr = _ ∧ _ =>
      destruct (dbGet_result t k fr) as (e & l & Hget)
  end.
  rewrite (M_bind_val _ _ _ _ _ Hget). cbn [fst snd G trace deferred].
  destruct e as [e|].
  - eexists. split; [erewrite M_bind_val by reflexivity; reflexivity|].
    by cbn.
  - eexists. split; [erewrite M_bind_val by reflexivity; reflexivity|].
    by cbn.
Qed.

Lemma load_nwVal_returns k v fr :
  ∃ e fr', load_nwVal k v fr = (Val e, fr')
           ∧ (gob_Decode_nwVal v = None -> is_Some e).
Proof.
  unfold load_nwVal. destruct (gob_Decode_nwVal v); eexists _, _;
    (split; [reflexivity|]); [done | by eexists].
Qed.

Lemma load_epVal_returns k v fr :
  ∃ e fr', load_epVal k v fr = (Val e, fr')
           ∧ (gob_Decode_epVal v = None -> is_Some e).
Proof.
  unfold load_epVal. destruct (gob_Decode_epVal v); eexists _, _;
    (split; [reflexivity|]); [done | by eexists].
Qed.

Lemma load_brVal_returns k v fr :
  ∃ e fr', load_brVal k v fr = (Val e, fr')
           ∧ (gob_Decode_int v = None -> is_Some e).
Proof.
  unfold load_brVal. destruct (gob_Decode_int v); eexists _, _;
    (split; [reflexivity|]); [done | by eexists].
Qed.

(** A loop always returns, and with an error when a value of the bucket
    makes its function return one. *)
Lemma ForEach_returns (bad : list Byte.byte -> Prop) b fn :
  (∀ k v fr, ∃ e fr', fn k v fr = (Val e, fr') ∧ (bad v -> is_Some e)) ->
  ∀ fr, ∃ e fr',
    ForEach b fn fr = (Val e, fr')
    ∧ ((∃ k v, b !! k = Some v ∧ bad v) -> is_Some e).
Proof.
  intros Hfn. unfold ForEach.
  apply (map_fold_weak_ind
           (fun r m => ∀ fr, ∃ e fr',
              r fr = (Val e, fr')
              ∧ ((∃ k v, m !! k = Some v ∧ bad v) -> is_Some e))).
  - intros fr. exists None, fr. split; [done|].
    intros (k & v & Hk & _). by rewrite lookup_empty in Hk.
  - intros i x m r Hi IH fr.
    destruct (IH fr) as (e & fr1 & Hr & He).
    rewrite (M_bind_val _ _ _ _ _ Hr). destruct e as [e|].
    + exists (Some e), fr1. split; [done|]. by eexists.
    + destruct (Hfn i x fr1) as (e' & fr2 & Hf & Hbad).
      exists e', fr2. split; [done|].
      intros (k & v & Hk & Hv).
      destruct (decide (i = k)) as [<-|Hne].
      * rewrite lookup_insert_eq in Hk. simplify_eq. by apply Hbad.
      * rewrite lookup_insert_ne in Hk by done.
        destruct He as [? He]; [by eauto | done].
Qed.

Lemma dbTableInit_fails env tables fr e :
  create_buckets env tables (db (G fr)) = inl e ->
  dbTableInit env tables fr
  = (Val (Some e),
     mk_Frame (G fr) (trace fr ++ [EvErrorf "Table creation error %v"])
       (deferred fr)).
Proof. intros Hc. unfold dbTableInit. unfold_M. by rewrite Hc. Qed.

(** X20.  The process serves no request when its ledger cannot be set up:
    if the file does not open, if one of the four buckets cannot be
    created, or if a single value in one of the three table buckets does
    not decode, [initDb] returns an error and [main] quits before the
    first request. *)
Theorem bad_ledger_stops_the_process env disk requests :
  is_Some (bolt_Open env "/tmp/dpdk_bolt.db")
  ∨ (∃ t, t ∈ ["global"; "nwMap"; "epMap"; "brMap"]
          ∧ is_Some (bolt_CreateBucket env t))
  ∨ ((∀ t, bolt_CreateBucket env t = None) ∧ corrupt disk) ->
  (∃ e fr, startup env disk = (Val (Some e), fr))
  ∧ main env disk requests = None.
Proof.
  intros Hbad.
  assert (∃ e fr, startup env disk = (Val (Some e), fr)) as (e & fr & Hs);
    [|split; [by eauto | unfold main; by rewrite Hs]].
  destruct (bolt_Open env "/tmp/dpdk_bolt.db") as [eo|] eqn:Hopen.
  { unfold startup, initDb. erewrite M_bind_val by reflexivity.
    cbn [G init dbFile]. rewrite Hopen. by eexists _, _. }
  destruct Hbad as [[? ?] | [(t & Ht & Hf) | [Hmk Hcor]]]; [done | |].
  { destruct (create_buckets_refused env _ disk t Ht Hf) as (ec & Hc).
    unfold startup, initDb. erewrite M_bind_val by reflexivity.
    cbn [G init dbFile]. rewrite Hopen.
    erewrite M_bind_val by (by apply (dbTableInit_fails _ _ _ ec)).
    by eexists _, _. }
  destruct (startup_reaches_loops env disk Hopen Hmk)
    as (fr0 & -> & Hq & Lnw & Lep & Lbr & _).
  unfold load_tables.
  destruct (ForEach_returns (fun v => gob_Decode_nwVal v = None)
              (bucket disk "nwMap") load_nwVal load_nwVal_returns fr0)
    as (e1 & fr1 & Hr1 & Hb1).
  pose proof (ForEach_loops_keep _ _ _ _ _ _ (or_introl eq_refl) Hr1
                (conj eq_refl Hq)) as [Hd1 Hq1].
  rewrite <- (View_ForEach_eq "nwMap") in Hr1 by done.
  rewrite (M_bind_val _ _ _ _ _ Hr1).
  destruct e1 as [e1|]; [by eexists _, _|].
  destruct (ForEach_returns (fun v => gob_Decode_epVal v = None)
              (bucket disk "epMap") load_epVal load_epVal_returns fr1)
    as (e2 & fr2 & Hr2 & Hb2).
  pose proof (ForEach_loops_keep _ _ _ _ _ _
                (or_intror (or_introl eq_refl)) Hr2 (conj eq_refl Hq1))
    as [Hd2 Hq2].
  rewrite <- (View_ForEach_eq "epMap") in Hr2 by (by rewrite Hd1).
  rewrite (M_bind_val _ _ _ _ _ Hr2).
  destruct e2 as [e2|]; [by eexists _, _|].
  destruct (ForEach_returns (fun v => gob_Decode_int v = None)
              (bucket disk "brMap") load_brVal load_brVal_returns fr2)
    as (e3 & fr3 & Hr3 & Hb3).
  rewrite <- (View_ForEach_eq "brMap") in Hr3 by (by rewrite Hd2, Hd1).
  rewrite Hr3.
  destruct Hcor as [Hc | [Hc | Hc]].
  - destruct (Hb1 Hc) as [? ?]; done.
  - destruct (Hb2 Hc) as [? ?]; done.
  - destruct (Hb3 Hc) as [e3' ->]. by eexists _, _.
Qed.

(** A loop that stores the decoded value of every pair leaves a table that
    holds, under each key of the bucket, the decoded value. *)
Lemma ForEach_loads {V} (dec : list Byte.byte -> option V)
    (tbl : Frame -> gmap string V) fn b :
  (∀ k v fr x, dec v = Some x ->
     ∃ fr', fn k v fr = (Val None, fr') ∧ tbl fr' = <[k := x]> (tbl fr)) ->
  map_Forall (fun _ v => is_Some (dec v)) b ->
  ∀ fr, ∃ fr',
    ForEach b fn fr = (Val None, fr')
    ∧ ∀ k, tbl fr' !! k = match b !! k with
                           | Some v => dec v
                           | None => tbl fr !! k
                           end.
Proof.
  intros Hfn. unfold ForEach.
  apply (map_fold_weak_ind
           (fun r m =>
              map_Forall (fun _ v => is_Some (dec v)) m ->
              ∀ fr, ∃ fr',
                r fr = (Val None, fr')
                ∧ ∀ k, tbl fr' !! k = match m !! k with
                                       | Some v => dec v
                                       | None => tbl fr !! k
                                       end)).
  - intros _ fr. exists fr. split; [done|]. intros k. by rewrite lookup_empty.
  - intros k v m r Hk IH Hall fr.
    apply map_Forall_insert in Hall as [[x Hv] Hall]; [|done].
    destruct (IH Hall fr) as (fr1 & Hr & Hlook).
    rewrite (M_bind_val _ _ _ _ _ Hr).
    destruct (Hfn k v fr1 x Hv) as (fr2 & Hf & Ht).
    exists fr2. split; [done|]. intros k'. rewrite Ht.
    destruct (decide (k = k')) as [<-|Hne].
    + by rewrite !lookup_insert_eq.
    + rewrite !lookup_insert_ne by done. apply Hlook.
Qed.

Lemma ForEach_keeps_epMap n b fr r fr' :
  ForEach b load_brVal fr = (r, fr') -> epMap (G fr) = n -> epMap (G fr') = n.
Proof.
  intros Hr Hfr.
  assert (preserves (fun fr => epMap (G fr) = n) (ForEach b load_brVal))
    as Hpres.
  { apply preserves_ForEach. intros k v. by apply load_brVal_preserves. }
  specialize (Hpres fr Hfr). by rewrite Hr in Hpres.
Qed.

(** The three tables after a start-up that meets no error. *)
Lemma startup_tables env disk :
  bolt_Open env "/tmp/dpdk_bolt.db" = None ->
  (∀ t, bolt_CreateBucket env t = None) ->
  decodable disk ->
  ∃ fr,
    startup env disk = (Val None, fr)
    ∧ quiescent (G fr)
    ∧ (∀ k, nwMap_m (nwMap (G fr)) !! k
            = bucket disk "nwMap" !! k ≫= gob_Decode_nwVal)
    ∧ (∀ k, epMap_m (epMap (G fr)) !! k
            = bucket disk "epMap" !! k ≫= gob_Decode_epVal)
    ∧ (∀ k, brMap_m (brMap (G fr)) !! k
            = bucket disk "brMap" !! k ≫= gob_Decode_int).
Proof.
  intros Hopen Hmk (Hnw & Hep & Hbr).
  destruct (startup_reaches_loops env disk Hopen Hmk)
    as (fr0 & -> & Hq & Lnw & Lep & Lbr & Enw & Eep & Ebr).
  unfold load_tables.
  destruct (ForEach_loads gob_Decode_nwVal (fun fr => nwMap_m (nwMap (G fr)))
              load_nwVal (bucket disk "nwMap")) with (fr := fr0)
    as (fr1 & Hr1 & Hl1); [|done|].
  { intros k v fr x Hx. unfold load_nwVal. rewrite Hx. by eexists. }
  pose proof (ForEach_loops_keep _ _ _ _ _ _ (or_introl eq_refl) Hr1
                (conj eq_refl Hq)) as [Hd1 Hq1].
  assert (epMap_m (epMap (G fr1)) = ∅) as Eep1.
  { assert (preserves (fun fr => epMap_m (epMap (G fr)) = ∅)
              (ForEach (bucket disk "nwMap") load_nwVal)) as Hp.
    { apply preserves_ForEach. intros k v. by apply load_nwVal_preserves. }
    specialize (Hp fr0 Eep). by rewrite Hr1 in Hp. }
  assert (brMap_m (brMap (G fr1)) = ∅) as Ebr1.
  { assert (preserves (fun fr => brMap_m (brMap (G fr)) = ∅)
              (ForEach (bucket disk "nwMap") load_nwVal)) as Hp.
    { apply preserves_ForEach. intros k v. by apply load_nwVal_preserves. }
    specialize (Hp fr0 Ebr). by rewrite Hr1 in Hp. }
  rewrite <- (View_ForEach_eq "nwMap") in Hr1 by done.
  rewrite (M_bind_val _ _ _ _ _ Hr1).
  destruct (ForEach_loads gob_Decode_epVal (fun fr => epMap_m (epMap (G fr)))
              load_epVal (bucket disk "epMap")) with (fr := fr1)
    as (fr2 & Hr2 & Hl2); [|done|].
  { intros k v fr x Hx. unfold load_epVal. rewrite Hx. by eexists. }
  pose proof (ForEach_loops_keep _ _ _ _ _ _
                (or_intror (or_introl eq_refl)) Hr2 (conj eq_refl Hq1))
    as [Hd2 Hq2].
  pose proof (ForEach_keeps_nwMap _ _ _ _ _ _ (or_introl eq_refl) Hr2 eq_refl)
    as Hnw2.
  assert (brMap_m (brMap (G fr2)) = ∅) as Ebr2.
  { assert (preserves (fun fr => brMap_m (brMap (G fr)) = ∅)
              (ForEach (bucket disk "epMap") load_epVal)) as Hp.
    { apply preserves_ForEach. intros k v. by apply load_epVal_preserves. }
    specialize (Hp fr1 Ebr1). by rewrite Hr2 in Hp. }
  rewrite <- (View_ForEach_eq "epMap") in Hr2 by (by rewrite Hd1).
  rewrite (M_bind_val _ _ _ _ _ Hr2).
  destruct (ForEach_loads gob_Decode_int (fun fr => brMap_m (brMap (G fr)))
              load_brVal (bucket disk "brMap")) with (fr := fr2)
    as (fr3 & Hr3 & Hl3); [|done|].
  { intros k v fr x Hx. unfold load_brVal. rewrite Hx. by eexists. }
  pose proof (ForEach_loops_keep _ _ _ _ _ _
                (or_intror (or_intror eq_refl)) Hr3 (conj eq_refl Hq2))
    as [Hd3 Hq3].
  pose proof (ForEach_keeps_nwMap _ _ _ _ _ _ (or_intror eq_refl) Hr3 Hnw2)
    as Hnw3.
  pose proof (ForEach_keeps_epMap _ _ _ _ _ Hr3 eq_refl) as Hep3.
  rewrite <- (View_ForEach_eq "brMap") in Hr3 by (by rewrite Hd2, Hd1).
  exists fr3. split; [done|]. split; [done|]. repeat split; intros k.
  - rewrite Hnw3, Hl1, Enw, lookup_empty.
    by destruct (bucket disk "nwMap" !! k).
  - rewrite Hep3, Hl2, Eep1, lookup_empty.
    by destruct (bucket disk "epMap" !! k).
  - rewrite Hl3, Ebr2, lookup_empty. by destruct (bucket disk "brMap" !! k).
Qed.

(** X21.  When the file opens, the buckets can be created and every stored
    value decodes, start-up succeeds with no mutex held, and each of the
    three tables holds exactly the decoded content of its bucket: nothing
    in memory comes from anywhere but the ledger. *)
Theorem startup_rebuilds_every_table env disk :
  bolt_Open env "/tmp/dpdk_bolt.db" = None ->
  (∀ t, bolt_CreateBucket env t = None) ->
  decodable disk ->
  ∃ g0,
    main env disk [] = Some g0
    ∧ quiescent g0
    ∧ (∀ k, nwMap_m (nwMap g0) !! k
            = bucket disk "nwMap" !! k ≫= gob_Decode_nwVal)
    ∧ (∀ k, epMap_m (epMap g0) !! k
            = bucket disk "epMap" !! k ≫= gob_Decode_epVal)
    ∧ (∀ k, brMap_m (brMap g0) !! k
            = bucket disk "brMap" !! k ≫= gob_Decode_int).
Proof.
  intros Hopen Hmk Hdec.
  destruct (startup_tables env disk Hopen Hmk Hdec)
    as (fr & Hs & Hq & Hn & He & Hb).
  exists (G fr). unfold main. rewrite Hs. cbn [run]. tauto.
Qed.

(** What CreateNetwork leaves in the bridge table, whatever the ledger
    does. *)
Lemma CreateNetwork_bridge_table env req d rest gw g :
  quiescent g ->
  CreateNetworkRequest.IPv4Data req = d :: rest ->
  IPAM_Gateway d = Some gw ->
  brMap_m (brMap (globals (serve env (CreateNetwork (Decoded req)) g)))
  = <[CreateNetworkRequest.NetworkID req := brCount (brMap g)]>
      (brMap_m (brMap g)).
Proof.
  intros (Hn & He & Hb) Hd Hgw.
  unfold serve, call, handlerCreateNetwork, dbAdd. unfold_M. msimpl.
  rewrite Hd. mrun; done.
Qed.

(** X22.  Bridge numbers are unique only within one run of the process.
    The bridge counter is not stored: after a restart it is 1 again while
    the bridge table is loaded from the ledger, so the first network
    created after the restart gets the number 1 although a reloaded
    network already has it. *)
Theorem restart_reuses_bridge_numbers env env' disk k v req d rest gw :
  bolt_Open env "/tmp/dpdk_bolt.db" = None ->
  (∀ t, bolt_CreateBucket env t = None) ->
  decodable disk ->
  bucket disk "brMap" !! k = Some v ->
  gob_Decode_int v = Some 1 ->
  CreateNetworkRequest.IPv4Data req = d :: rest ->
  IPAM_Gateway d = Some gw ->
  CreateNetworkRequest.NetworkID req ≠ k ->
  ∃ g1,
    main env disk [(env', CreateNetwork (Decoded req))] = Some g1
    ∧ brMap_m (brMap g1) !! k = Some 1
    ∧ brMap_m (brMap g1) !! CreateNetworkRequest.NetworkID req = Some 1.
Proof.
  intros Hopen Hmk Hdec Hk Hv Hd Hgw Hne.
  destruct (startup_tables env disk Hopen Hmk Hdec)
    as (fr & Hs & Hq & _ & _ & Hb).
  destruct (startup_counters _ _ _ Hs) as (_ & Hone & _).
  eexists. unfold main. rewrite Hs. split; [reflexivity|]. cbn [run].
  rewrite (CreateNetwork_bridge_table env' req d rest gw (G fr)) by done.
  rewrite Hone. split.
  - rewrite lookup_insert_ne by done. by rewrite Hb, Hk.
  - apply lookup_insert_eq.
Qed.

Lemma run_decodable ops g :
  codec_reads_back -> decodable (db g) -> decodable (db (run ops g)).
Proof.
  intros Hlaw. revert g.
  induction ops as [|[env op] rest IH]; intros g Hd; [done|].
  cbn [run]. apply IH. by apply serve_decodable.
Qed.

(** X23.  The process can always come back.  If the codec reads back what
    it writes and the ledger was decodable to begin with, then after any
    sequence of requests, with whatever failures of commands and ledger
    writes, a restart over the ledger as it stands succeeds and rebuilds
    the network table from it. *)
Theorem restart_succeeds_after_any_run env ops g :
  codec_reads_back ->
  decodable (db g) ->
  bolt_Open env "/tmp/dpdk_bolt.db" = None ->
  (∀ t, bolt_CreateBucket env t = None) ->
  ∃ g0,
    main env (db (run ops g)) [] = Some g0
    ∧ quiescent g0
    ∧ ∀ k, nwMap_m (nwMap g0) !! k
           = bucket (db (run ops g)) "nwMap" !! k ≫= gob_Decode_nwVal.
Proof.
  intros Hlaw Hdec Hopen Hmk.
  destruct (startup_tables env (db (run ops g)) Hopen Hmk
              (run_decodable ops g Hlaw Hdec))
    as (fr & Hs & Hq & Hn & _).
  exists (G fr). unfold main. rewrite Hs. cbn [run]. tauto.
Qed.

End Restarts.

Section CountersAndPipeline.
Context `{GoLib}.

(** X24.  An interface index is used up by the creation of the socket
    directory, not by the success of the call.  A CreateEndpoint that passes
    its checks moves the interface counter by one exactly when
    [os.Mkdir] succeeds, whatever the three commands after it do: when one
    of them fails no record is stored and the index is skipped for good.
    The bridge counter never moves. *)
Theorem interface_index_used_up_by_mkdir env g req ip :
  admissible g req ip ->
  let o := serve env (CreateEndpoint (Decoded req)) g in
  intf_counter (globals o)
  = match os_Mkdir env ("/tmp/vhostuser_" +:+ IP_String ip) with
    | None => GoInt.add (intf_counter g) 1
    | Some _ => intf_counter g
    end
  ∧ bridge_counter (globals o) = bridge_counter g.
Proof.
  intros ((Hn & He & Hb) & Ha & Hp & nv & Hnv & Hbr).
  have_interface Ha.
  unfold serve, call, handlerCreateEndpoint, dbAdd, intf_counter,
    bridge_counter.
  unfold_M. mrun; done.
Qed.

(** X25.  The counters are Go [int]s and wrap.  When the bridge counter
    stands at the largest [int], the next CreateNetwork stores that number
    for its network and the counter wraps to the smallest [int], which the
    CreateNetwork after it stores for its own: a number below every number
    given to a network before. *)
Theorem bridge_counter_wraps env1 env2 req1 req2 d1 rest1 gw1 d2 rest2 gw2 g :
  quiescent g ->
  bridge_counter g = GoInt.max_int ->
  CreateNetworkRequest.IPv4Data req1 = d1 :: rest1 ->
  IPAM_Gateway d1 = Some gw1 ->
  CreateNetworkRequest.IPv4Data req2 = d2 :: rest2 ->
  IPAM_Gateway d2 = Some gw2 ->
  bridge_ids [(env1, CreateNetwork (Decoded req1));
              (env2, CreateNetwork (Decoded req2))] g
  = [GoInt.max_int; GoInt.min_int].
Proof.
  intros Hq Hmax Hd1 Hg1 Hd2 Hg2.
  destruct (CreateNetwork_hands_out env1 req1 d1 rest1 gw1 g Hq Hd1 Hg1)
    as (Hs1 & Hq1 & Hc1).
  destruct (CreateNetwork_hands_out env2 req2 d2 rest2 gw2 _ Hq1 Hd2 Hg2)
    as (Hs2 & _ & _).
  unfold bridge_ids. cbn [numbers_given].
  rewrite Hs1, Hs2, Hc1, Hmax. reflexivity.
Qed.


End CountersAndPipeline.

Section Mirroring.
Context `{GoLib}.

Lemma ledger_has_insert {V} (enc : V -> any) m d table b k v bytes :
  ledger_has enc m d table ->
  d !! table = Some b ->
  gob_Encode (enc v) = Some bytes ->
  ledger_has enc (<[k := v]> m) (<[table := <[k := bytes]> b]> d) table.
Proof.
  intros (b' & Hb' & Hm) Hb Henc. assert (b' = b) as -> by congruence.
  exists (<[k := bytes]> b). split; [apply lookup_insert_eq|].
  intros k'. destruct (decide (k' = k)) as [->|Hne].
  - rewrite !lookup_insert_eq. cbn. by rewrite Henc.
  - rewrite !lookup_insert_ne by done. apply Hm.
Qed.

Lemma ledger_has_delete {V} (enc : V -> any) m d table b k :
  ledger_has enc m d table ->
  d !! table = Some b ->
  ledger_has enc (delete k m) (<[table := delete k b]> d) table.
Proof.
  intros (b' & Hb' & Hm) Hb. assert (b' = b) as -> by congruence.
  exists (delete k b). split; [apply lookup_insert_eq|].
  intros k'. destruct (decide (k' = k)) as [->|Hne].
  - by rewrite !lookup_delete_eq.
  - rewrite !lookup_delete_ne by done. apply Hm.
Qed.

Lemma ledger_has_other {V} (enc : V -> any) m d table t x :
  t ≠ table ->
  ledger_has enc m d table ->
  ledger_has enc m (<[t := x]> d) table.
Proof.
  intros Hne (b & Hb & Hm). exists b. split; [|done].
  by rewrite lookup_insert_ne.
Qed.

Ltac absurd_write Hint Hrel Henc :=
  match goal with
  | E : bolt_Put _ ?t ?k = Some _ |- _ =>
      destruct (Hrel t k) as [? _]; congruence
  | E : bolt_Delete _ ?t ?k = Some _ |- _ =>
      destruct (Hrel t k) as [_ ?]; congruence
  | E : gob_Encode (AnyInt ?n) = None |- _ =>
      destruct (Hint n); congruence
  | E : gob_Encode (AnyNwVal _) = None |- _ =>
      edestruct Henc as [? ?]; [reflexivity|eassumption|congruence]
  end.

Ltac solve_ledger_has :=
  repeat first
    [ assumption
    | apply ledger_has_other; [done|]
    | eapply ledger_has_insert;
      [|by rewrite ?lookup_insert_ne by done|eassumption]
    | eapply ledger_has_delete; [|by rewrite ?lookup_insert_ne by done] ].

Lemma ledger_follows_serve env op g :
  (∀ n, is_Some (gob_Encode (AnyInt n))) ->
  writes_go_through (env, op) ->
  ledger_follows g ->
  ledger_follows (globals (serve env op g)).
Proof.
  intros Hint [Hrel Henc] [Hnw Hbr].
  pose proof Hnw as (bn & Hbn & _). pose proof Hbr as (bb & Hbb & _).
  unfold ledger_follows.
  destruct op as [r|r|r|r|r]; unfold serve, call; cbn [fst snd] in *.
  - unfold handlerCreateNetwork, dbAdd. unfold_M. mrun_db.
    all: try done.
    all: try absurd_write Hint Hrel Henc.
    all: split; solve_ledger_has.
  - unfold handlerDeleteNetwork, dbDelete. unfold_M. mrun_db.
    all: try done.
    all: try absurd_write Hint Hrel Henc.
    all: split; solve_ledger_has.
  - unfold handlerCreateEndpoint, dbAdd. unfold_M. mrun_db.
    all: try done.
    all: split; solve_ledger_has.
  - unfold handlerDeleteEndpoint, dbDelete. unfold_M. mrun_db.
    all: try done.
    all: split; solve_ledger_has.
  - unfold handlerJoin. unfold_M. mrun; done.
Qed.

Lemma ledger_follows_serve_run ops g :
  (∀ n, is_Some (gob_Encode (AnyInt n))) ->
  Forall writes_go_through ops ->
  ledger_follows g ->
  ledger_follows (run ops g).
Proof.
  intros Hint Hops. revert g.
  induction Hops as [|[env op] rest Hw _ IH]; intros g Hg; [done|].
  cbn [run]. apply IH. by apply ledger_follows_serve.
Qed.

(** X27.  While the ledger accepts every write and the records encode, the
    buckets "nwMap" and "brMap" stay exact copies of the network table and
    the bridge table over any sequence of requests, whatever commands fail
    and whichever calls panic or block: every handler changes table and
    bucket together. *)
Theorem ledger_follows_the_network_tables ops g :
  (∀ n, is_Some (gob_Encode (AnyInt n))) ->
  Forall writes_go_through ops ->
  ledger_follows g ->
  ledger_follows (run ops g).
Proof.
  intros Hint Hops. revert g.
  induction Hops as [|[env op] rest Hw _ IH]; intros g Hg; [done|].
  cbn [run]. apply IH. by apply ledger_follows_serve.
Qed.

Lemma ledger_has_reads_back {V} (enc : V -> any)
    (dec : list Byte.byte -> option V) m d table k :
  (∀ v bytes, gob_Encode (enc v) = Some bytes -> dec bytes = Some v) ->
  ledger_has enc m d table ->
  bucket d table !! k ≫= dec = m !! k.
Proof.
  intros Hrt (b & Hb & Hm).
  assert (bucket d table = b) as -> by (unfold bucket; by rewrite Hb).
  specialize (Hm k).
  destruct (m !! k) as [v|], (b !! k) as [bytes|]; cbn in Hm |- *;
    try done.
  apply Hrt. congruence.
Qed.

(** X28.  Networks survive a restart.  If the codec returns what it was
    given, the ledger accepted every write of the run and held a copy of
    the two tables when the run began, then a restart over the ledger as
    the run left it succeeds, and its network table and bridge table are
    exactly the ones the process had in memory at the end of the run. *)
Theorem restart_restores_the_network_tables env ops g :
  codec_reads_back ->
  codec_round_trip ->
  (∀ n, is_Some (gob_Encode (AnyInt n))) ->
  Forall writes_go_through ops ->
  ledger_follows g ->
  decodable (db g) ->
  bolt_Open env "/tmp/dpdk_bolt.db" = None ->
  (∀ t, bolt_CreateBucket env t = None) ->
  ∃ g0,
    main env (db (run ops g)) [] = Some g0
    ∧ nwMap_m (nwMap g0) = nwMap_m (nwMap (run ops g))
    ∧ brMap_m (brMap g0) = brMap_m (brMap (run ops g)).
Proof.
  intros Hlaw [Hnw Hbr] Hint Hops Hg Hdec Hopen Hmk.
  destruct (startup_tables env (db (run ops g)) Hopen Hmk
              (run_decodable ops g Hlaw Hdec))
    as (fr & Hs & _ & Ln & _ & Lb).
  destruct (ledger_follows_serve_run ops g Hint Hops Hg) as [Fn Fb].
  exists (G fr). unfold main. rewrite Hs. cbn [run].
  split; [done|].
  split; apply map_eq; intros k.
  - rewrite Ln. by apply (ledger_has_reads_back AnyNwVal).
  - rewrite Lb. by apply (ledger_has_reads_back AnyInt).
Qed.

End Mirroring.


(** * The example instance *)

Section ExampleFacts.

Lemma get_bytes_put_bytes l p r :
  Example.put_bytes l = Some p ->
  Example.get_bytes (p ++ r) = Some (l, r).
Proof.
  unfold Example.put_bytes. intros Hp.
  destruct (Byte.of_N (N.of_nat (length l))) as [n|] eqn:Hn; cbn in Hp;
    [|done].
  injection Hp as <-. cbn.
  apply Byte.to_of_N in Hn. rewrite Hn, Nat2N.id.
  rewrite decide_True by (rewrite length_app; lia).
  by rewrite take_app_length, drop_app_length.
Qed.

Lemma Example_nwVal_round_trip v bytes :
  Example.encode (AnyNwVal v) = Some bytes ->
  Example.decode_nwVal bytes = Some v.
Proof.
  destruct v as [br [ip mask]]. unfold Example.encode.
  cbn [Bridge Gateway IPNet_IP IPNet_Mask].
  destruct (Example.put_bytes (list_byte_of_string br)) as [b|] eqn:Hb;
    cbn [mbind option_bind]; [|done].
  destruct (Example.put_bytes ip) as [i|] eqn:Hi;
    cbn [mbind option_bind]; [|done].
  destruct (Example.put_bytes mask) as [m|] eqn:Hm;
    cbn [mbind option_bind]; [|done].
  intros [= <-]. unfold Example.decode_nwVal.
  rewrite (get_bytes_put_bytes _ _ _ Hb). cbn [mbind option_bind].
  rewrite (get_bytes_put_bytes _ _ _ Hi). cbn [mbind option_bind].
  rewrite <- (app_nil_r m), (get_bytes_put_bytes _ _ _ Hm).
  cbn [mbind option_bind].
  by rewrite string_of_list_byte_of_string.
Qed.

Lemma Example_int_round_trip n bytes :
  Example.encode (AnyInt n) = Some bytes ->
  Example.decode_int bytes = Some n.
Proof.
  cbn. intros [= <-]. unfold Example.decode_int, GoInt.itoa.
  rewrite string_of_list_byte_of_string, NilZero.isi.
  - cbn. by rewrite DecimalZ.of_to.
  - destruct n; cbn; try discriminate.
    intros [= Hp]. by apply DecimalPos.Unsigned.to_uint_nonnil in Hp.
  - destruct n; cbn; try discriminate.
    intros [= Hp]. by apply DecimalPos.Unsigned.to_uint_nonnil in Hp.
Qed.

Lemma Example_epVal_reads_back v bytes :
  Example.encode (AnyEpVal v) = Some bytes ->
  is_Some (Example.decode_epVal bytes).
Proof.
  unfold Example.encode.
  destruct (Example.put_bytes (list_byte_of_string (IP v))) as [i|] eqn:Hi;
    cbn [mbind option_bind]; [|done].
  intros [= <-]. unfold Example.decode_epVal.
  rewrite <- (app_nil_r i), (get_bytes_put_bytes _ _ _ Hi).
  cbn [mbind option_bind]. by eexists.
Qed.

Lemma Example_codec_reads_back : codec_reads_back (H := Example.lib).
Proof.
  intros [v|v|n] bytes Henc.
  - cbn in *. rewrite (Example_nwVal_round_trip _ _ Henc). by eexists.
  - by apply (Example_epVal_reads_back v).
  - cbn in *. rewrite (Example_int_round_trip _ _ Henc). by eexists.
Qed.

Lemma Example_codec_round_trip : codec_round_trip (H := Example.lib).
Proof.
  split.
  - apply Example_nwVal_round_trip.
  - apply Example_int_round_trip.
Qed.

(** A fresh process over an empty ledger: the two buckets exist and are
    empty, as the tables are. *)
Lemma Example_started_ledger_follows :
  ledger_follows (H := Example.lib) (Example.started ∅).
Proof.
  split; exists ∅; (split; [vm_compute; reflexivity|]); intros k.
  - replace (nwMap_m (nwMap (Example.started ∅)))
      with (∅ : gmap string nwVal) by (vm_compute; reflexivity).
    by rewrite !lookup_empty.
  - replace (brMap_m (brMap (Example.started ∅)))
      with (∅ : gmap string Z) by (vm_compute; reflexivity).
    by rewrite !lookup_empty.
Qed.

Lemma Example_churn_writes_go_through :
  Forall (writes_go_through (H := Example.lib)) Example.churn.
Proof.
  unfold Example.churn.
  repeat (apply Forall_cons_2;
          [split;
           [intros t k; split; reflexivity
           |cbn [snd]; try exact I;
            intros d rest gw Hd Hg; vm_compute in Hd;
            injection Hd as <- <-; vm_compute in Hg; injection Hg as <-;
            vm_compute; by eexists]|]).
  apply Forall_nil_2.
Qed.

End ExampleFacts.

(** * The theorems at work on the example instance *)

#[local] Existing Instance Example.lib.

Lemma CreateEndpoint_bad_address_witness :
  CreateEndpointRequest.Interface Example.ep_no_interface = None
  ∧ call (handlerCreateEndpoint Example.ok (Decoded Example.ep_no_interface))
      (Example.started ∅)
    = mk_Outcome (Panicked nil_deref) (Example.started ∅) []
  ∧ ParseCIDR "10.0.0.5" = None
  ∧ ∃ msg,
      msg ≠ ""
      ∧ call (handlerCreateEndpoint Example.ok (Decoded Example.ep_bad))
          (Example.started ∅)
        = mk_Outcome Done (Example.started ∅) [EvSend (ErrResponse msg)].
Proof.
  assert (ParseCIDR "10.0.0.5" = None) as Hp by (vm_compute; reflexivity).
  destruct (CreateEndpoint_bad_address Example.ok Example.ep_no_interface
              (Example.started ∅)) as [Hnil _].
  destruct (CreateEndpoint_bad_address Example.ok Example.ep_bad
              (Example.started ∅)) as [_ Hbad].
  split; [reflexivity|]. split; [exact (Hnil eq_refl)|].
  split; [exact Hp|].
  apply (Hbad (mk_EndpointInterface "10.0.0.5") eq_refl). right. exact Hp.
Defined.

Lemma CreateEndpoint_unknown_network_witness :
  nwMap_m (nwMap (Example.started ∅))
    !! CreateEndpointRequest.NetworkID Example.ep1 = None
  ∧ (let o := call (handlerCreateEndpoint Example.ok (Decoded Example.ep1))
                (Example.started ∅) in
     status o = Panicked nil_deref
     ∧ response (events o) = None
     ∧ effects (events o) = []
     ∧ globals o = set_locked nwMapMu true (Example.started ∅)).
Proof.
  assert (nwMap_m (nwMap (Example.started ∅))
            !! CreateEndpointRequest.NetworkID Example.ep1 = None) as Hn
    by (vm_compute; reflexivity).
  split; [exact Hn|].
  apply (CreateEndpoint_unknown_network Example.ok Example.ep1
           (Example.started ∅) Example.ip1);
    [discriminate | vm_compute; reflexivity | exact Hn
    | vm_compute; reflexivity].
Defined.

Lemma Delete_absent_id_panics_witness :
  quiescent (Example.started ∅)
  ∧ (let o := call (handlerDeleteNetwork Example.ok (Decoded Example.del_net1))
                (Example.started ∅) in
     status o = Panicked nil_deref
     ∧ response (events o) = None
     ∧ globals o = Example.started ∅)
  ∧ (let o := call (handlerDeleteEndpoint Example.ok (Decoded Example.del_ep1))
                (Example.started ∅) in
     status o = Panicked nil_deref
     ∧ response (events o) = None
     ∧ globals o
       = set_locked nwMapMu true (set_locked epMapMu true (Example.started ∅))).
Proof.
  assert (quiescent (Example.started ∅)) as Hq by (by vm_compute).
  destruct (Delete_absent_id_panics Example.ok _ Hq) as [Hnet Hep].
  split; [exact Hq|]. split.
  - apply Hnet. vm_compute; reflexivity.
  - apply Hep. vm_compute; reflexivity.
Defined.

Lemma DeleteEndpoint_lock_order_witness :
  quiescent Example.with_ep1
  ∧ (let tr := events (call (handlerDeleteEndpoint Example.ok
                               (Decoded Example.del_ep1)) Example.with_ep1) in
     take 2 tr = [EvLock epMapMu; EvLock nwMapMu]
     ∧ lock_order_respected tr = false).
Proof.
  assert (quiescent Example.with_ep1) as Hq by (by vm_compute).
  split; [exact Hq|]. by apply DeleteEndpoint_lock_order.
Defined.




Lemma counters_strictly_increasing_witness :
  bridge_ids Example.churn (Example.started ∅) = [1; 2]
  ∧ intf_ids Example.churn (Example.started ∅) = [1; 2]
  ∧ StronglySorted Z.lt (bridge_ids Example.churn (Example.started ∅))
  ∧ StronglySorted Z.lt (intf_ids Example.churn (Example.started ∅))
  ∧ Forall (fun n => n < bridge_counter (run Example.churn (Example.started ∅)))
      (bridge_ids Example.churn (Example.started ∅))
  ∧ Forall (fun n => n < intf_counter (run Example.churn (Example.started ∅)))
      (intf_ids Example.churn (Example.started ∅)).
Proof.
  split; [vm_compute; reflexivity|]. split; [vm_compute; reflexivity|].
  apply counters_strictly_increasing; by vm_compute.
Defined.

Lemma NetworkRecord_round_trip_witness :
  dbAdd Example.ok "nwMap" "net1" (AnyNwVal (mk_nwVal "br" Example.gw))
    (mk_Frame (Example.started ∅) [] [])
  = (Val None,
     (dbAdd Example.ok "nwMap" "net1" (AnyNwVal (mk_nwVal "br" Example.gw))
        (mk_Frame (Example.started ∅) [] [])).2)
  ∧ ∃ fr',
      startup Example.ok
        (db (G (dbAdd Example.ok "nwMap" "net1"
                  (AnyNwVal (mk_nwVal "br" Example.gw))
                  (mk_Frame (Example.started ∅) [] [])).2))
      = (Val None, fr')
      ∧ nwMap_m (nwMap (G fr')) !! "net1" = Some (mk_nwVal "br" Example.gw).
Proof.
  assert (dbAdd Example.ok "nwMap" "net1" (AnyNwVal (mk_nwVal "br" Example.gw))
            (mk_Frame (Example.started ∅) [] [])
          = (Val None,
             (dbAdd Example.ok "nwMap" "net1"
                (AnyNwVal (mk_nwVal "br" Example.gw))
                (mk_Frame (Example.started ∅) [] [])).2)) as Hadd
    by (vm_compute; reflexivity).
  split; [exact Hadd|].
  apply (NetworkRecord_round_trip Example.ok Example.ok
           (mk_Frame (Example.started ∅) [] []) "net1"
           (mk_nwVal "br" Example.gw));
    [| | exact Hadd | reflexivity | reflexivity].
  - repeat split;
      (match goal with
       | |- map_Forall _ ?b =>
           replace b with (∅ : gmap string (list Byte.byte))
             by (vm_compute; reflexivity)
       end; apply map_Forall_empty).
  - intros bytes Hb. vm_compute in Hb. injection Hb as <-.
    vm_compute; reflexivity.
Defined.

Lemma startup_interface_counter_witness :
  bucket Scenario.disk_net1_bad_counter "global" !! "counter"
  = Some [Byte.x00]
  ∧ gob_Decode_nil [Byte.x00]
    = Some "gob: unknown type id or corrupted data"
  ∧ intfCounter (G (startup Example.ok Scenario.disk_net1_bad_counter).2) = 100
  ∧ intf_counter (G (startup Example.ok Scenario.disk_net1_bad_counter).2) = 1
  ∧ intf_ids Example.churn (G (startup Example.ok Scenario.disk_net1_bad_counter).2)
    = [1; 2]
  ∧ (let used := intf_ids Example.churn
                   (G (startup Example.ok Scenario.disk_net1_bad_counter).2) in
     used = seqZ 1 (Z.of_nat (length used))
     ∧ intfCounter (run Example.churn
                      (G (startup Example.ok Scenario.disk_net1_bad_counter).2))
       = intfCounter (G (startup Example.ok Scenario.disk_net1_bad_counter).2)
     ∧ devices_created (CreateEndpoint (Decoded Example.ep1))
         (serve Example.ok (CreateEndpoint (Decoded Example.ep1))
            (run Example.churn
               (G (startup Example.ok Scenario.disk_net1_bad_counter).2)))
       = [1 + Z.of_nat (length used)]).
Proof.
  assert (admissible
            (run Example.churn
               (G (startup Example.ok Scenario.disk_net1_bad_counter).2))
            Example.ep1 Example.ip1) as Hadm.
  { split; [by vm_compute|]. split; [discriminate|].
    split; [vm_compute; reflexivity|].
    exists (mk_nwVal "br" Example.gw).
    split; [vm_compute; reflexivity | discriminate]. }
  assert (startup Example.ok Scenario.disk_net1_bad_counter
          = (Val None,
             (startup Example.ok Scenario.disk_net1_bad_counter).2))
    as Hstart by (vm_compute; reflexivity).
  destruct (startup_interface_counter _ _ _ Hstart) as (Hread & Hone & Hrun).
  assert (bucket Scenario.disk_net1_bad_counter "global" !! "counter"
          = Some [Byte.x00]) as Hb by (vm_compute; reflexivity).
  split; [exact Hb|]. split; [reflexivity|].
  split; [exact (Hread _ _ Hb eq_refl)|]. split; [exact Hone|].
  split; [vm_compute; reflexivity|].
  destruct (Hrun Example.churn) as (Hused & Hvar & Hnext); [by vm_compute|].
  split; [exact Hused|]. split; [exact Hvar|].
  apply (Hnext Example.ok Example.ep1 Example.ip1 Hadm). reflexivity.
Defined.

(** Claim C6 as the specification states it fails on a fresh ledger and on
    one that holds a counter.  On the empty ledger [intfCounter] is 100
    after start-up, yet the CreateEndpoint calls that follow number their
    devices 1 and 2, not 100 and 101.  On the ledger whose table "global" holds the
    integer 500 under "counter" the read reports no error, yet
    [intfCounter] is 100, not 500, and the devices are again numbered 1
    and 2. *)
Lemma startup_counter_counterexample :
  (intfCounter (Example.started ∅) = 100
   ∧ intf_ids Example.churn (Example.started ∅) = [1; 2]
   ∧ ¬ intf_ids Example.churn (Example.started ∅)
       = [intfCounter (Example.started ∅);
          intfCounter (Example.started ∅) + 1])
  ∧ (gob_Decode_int Example.counter500 = Some 500
     ∧ (dbGet "global" "counter"
          (mk_Frame (Example.started Example.disk_counter500) [] [])).1
       = Val (None, None)
     ∧ intfCounter (Example.started Example.disk_counter500) = 100
     ∧ ¬ intfCounter (Example.started Example.disk_counter500) = 500
     ∧ intf_ids Example.churn (Example.started Example.disk_counter500)
       = [1; 2]).
Proof.
  repeat split; try (vm_compute; reflexivity);
    intros Hc; vm_compute in Hc; discriminate.
Qed.

(** ** The further properties at work *)

Ltac example_admissible :=
  split; [by vm_compute|]; split; [discriminate|];
  split; [vm_compute; reflexivity|];
  exists (mk_nwVal "br" Example.gw);
  split; [vm_compute; reflexivity | discriminate].

Ltac example_decodable :=
  repeat split; apply map_Forall_to_list; vm_compute;
  repeat constructor; by eexists.

Lemma undecodable_request_answered_witness :
  serve Example.ok (DeleteNetwork Scenario.truncated) Scenario.wedged
  = mk_Outcome Done Scenario.wedged
      [EvSend (ErrResponse ("Error: " +:+ "unexpected end of JSON input"))].
Proof. apply undecodable_request_answered. reflexivity. Defined.

Lemma CreateNetwork_effect_witness :
  quiescent (Example.started ∅)
  ∧ (let o := serve Example.ok (CreateNetwork (Decoded Example.net1))
                (Example.started ∅) in
     status o = Done
     ∧ response (events o) = Some (ErrResponse "")
     ∧ nwMap_m (nwMap (globals o))
       = <["net1" := mk_nwVal "br" Example.gw]>
           (nwMap_m (nwMap (Example.started ∅)))
     ∧ brMap_m (brMap (globals o))
       = <["net1" := brCount (brMap (Example.started ∅))]>
           (brMap_m (brMap (Example.started ∅)))
     ∧ bridge_counter (globals o)
       = GoInt.add (bridge_counter (Example.started ∅)) 1).
Proof.
  assert (quiescent (Example.started ∅)) as Hq by (by vm_compute).
  split; [exact Hq|].
  destruct (CreateNetwork_effect Example.ok Example.net1
              (mk_IPAMData (Some Example.gw)) [] Example.gw
              (Example.started ∅)
              (default [] (gob_Encode (AnyNwVal (mk_nwVal "br" Example.gw))))
              (default [] (gob_Encode
                             (AnyInt (brCount (brMap (Example.started ∅))))))
              ∅ ∅ Hq)
    as (H1 & H2 & _ & _ & H5 & H6 & H7 & _);
    try (vm_compute; reflexivity).
  cbv zeta. tauto.
Defined.

Lemma CreateNetwork_malformed_witness :
  ∃ msg,
    serve Example.ok (CreateNetwork (Decoded Scenario.net_no_ipv4))
      Example.with_net1
    = mk_Outcome (Panicked msg) Example.with_net1
        [EvLock nwMapMu; EvUnlock nwMapMu].
Proof.
  apply CreateNetwork_malformed; [by vm_compute | left; reflexivity].
Defined.

Lemma DeleteNetwork_effect_witness :
  quiescent Example.with_ep1
  ∧ (let o := serve Example.ok (DeleteNetwork (Decoded Example.del_net1))
                Example.with_ep1 in
     status o = Done
     ∧ response (events o) = Some (ErrResponse "")
     ∧ effects (events o) = []
     ∧ quiescent (globals o)
     ∧ nwMap_m (nwMap (globals o))
       = delete "net1" (nwMap_m (nwMap Example.with_ep1))
     ∧ brMap_m (brMap (globals o))
       = delete "net1" (brMap_m (brMap Example.with_ep1))
     ∧ bridge_counter (globals o) = bridge_counter Example.with_ep1
     ∧ intf_counter (globals o) = intf_counter Example.with_ep1
     ∧ epMap (globals o) = epMap Example.with_ep1).
Proof.
  assert (quiescent Example.with_ep1) as Hq by (by vm_compute).
  split; [exact Hq|].
  apply (DeleteNetwork_effect Example.ok Example.del_net1 Example.with_ep1
           (mk_nwVal "br" Example.gw) Hq).
  vm_compute; reflexivity.
Defined.

Lemma CreateNetwork_DeleteNetwork_round_trip_witness :
  globals (serve Example.ok
             (DeleteNetwork (Decoded (DeleteNetworkRequest.mk "net1")))
             (globals (serve Example.ok (CreateNetwork (Decoded Example.net1))
                         (Example.started ∅))))
  = set_brMap (mk_brMap false
                 (GoInt.add (brCount (brMap (Example.started ∅))) 1)
                 (intfCount (brMap (Example.started ∅)))
                 (brMap_m (brMap (Example.started ∅))))
      (Example.started ∅).
Proof.
  apply (CreateNetwork_DeleteNetwork_round_trip Example.ok Example.ok
           Example.net1 (mk_IPAMData (Some Example.gw)) [] Example.gw
           (Example.started ∅)
           (default [] (gob_Encode (AnyNwVal (mk_nwVal "br" Example.gw))))
           (default [] (gob_Encode
                          (AnyInt (brCount (brMap (Example.started ∅))))))
           ∅ ∅);
    first [by vm_compute | vm_compute; reflexivity].
Defined.

Lemma DeleteEndpoint_effect_witness :
  epMap_m (epMap Example.with_ep1) !! "ep1" = Some Scenario.ep1_record
  ∧ (let o := serve Example.ok (DeleteEndpoint (Decoded Example.del_ep1))
                Example.with_ep1 in
     let args := ["link"; "del"; vhostuserPort Scenario.ep1_record] in
     status o = Done
     ∧ quiescent (globals o)
     ∧ epMap_m (epMap (globals o))
       = delete "ep1" (epMap_m (epMap Example.with_ep1))
     ∧ effects (events o)
       = [EvExec "ip" args;
          EvRemoveAll ("/tmp/vhostuser_"
                       +:+ vhostuserPort Scenario.ep1_record)]
     ∧ response (events o) = Some (ErrResponse "")).
Proof.
  assert (quiescent Example.with_ep1) as Hq by (by vm_compute).
  assert (epMap_m (epMap Example.with_ep1) !! "ep1"
          = Some Scenario.ep1_record) as He by (vm_compute; reflexivity).
  split; [exact He|].
  pose proof (DeleteEndpoint_effect Example.ok Example.del_ep1
                Example.with_ep1 Scenario.ep1_record Hq He) as Heff.
  cbv zeta in Heff |- *.
  destruct Heff as (H1 & H2 & H3 & _ & _ & H6 & _).
  change (exec_Command Example.ok "ip"
            ["link"; "del"; vhostuserPort Scenario.ep1_record])
    with (@None error) in H6.
  cbv iota in H6. destruct H6 as [H6 H7].
  split; [exact H1|]. split; [exact H2|]. split; [exact H3|].
  split; [exact H6 | exact H7].
Defined.

Lemma CreateEndpoint_then_DeleteEndpoint_witness :
  admissible Example.with_net1 Example.ep1 Example.ip1
  ∧ (let o1 := serve Example.ok (CreateEndpoint (Decoded Example.ep1))
                 Example.with_net1 in
     let o2 := serve Example.ok
                 (DeleteEndpoint
                    (Decoded (DeleteEndpointRequest.mk "net1" "ep1")))
                 (globals o1) in
     EvMkdir ("/tmp/vhostuser_" +:+ IP_String Example.ip1)
       ∈ effects (events o1)
     ∧ EvExec "ip" (dummy_args (IP_String Example.ip1)) ∈ effects (events o1)
     ∧ effects (events o2)
       = [EvExec "ip" ["link"; "del"; IP_String Example.ip1];
          EvRemoveAll ("/tmp/vhostuser_" +:+ IP_String Example.ip1)]
     ∧ response (events o2) = Some (ErrResponse "")
     ∧ epMap_m (epMap (globals o2)) = epMap_m (epMap Example.with_net1)
     ∧ intf_counter (globals o2)
       = GoInt.add (intf_counter Example.with_net1) 1).
Proof.
  assert (admissible Example.with_net1 Example.ep1 Example.ip1) as Ha
    by example_admissible.
  split; [exact Ha|].
  apply (CreateEndpoint_then_DeleteEndpoint Example.ok Example.ok
           Example.with_net1 Example.ep1 Example.ip1 Ha);
    vm_compute; reflexivity.
Defined.

Lemma Join_reads_only_witness :
  quiescent Example.with_ep1
  ∧ (let o := call (handlerJoin (Decoded Scenario.join1)) Example.with_ep1 in
     globals o = Example.with_ep1
     ∧ effects (events o) = []
     ∧ status o = Done
     ∧ response (events o)
       = Some (JoinResponse ("10.0.0.5", "eth") "10.0.0.1" "")).
Proof.
  assert (quiescent Example.with_ep1) as Hq by (by vm_compute).
  split; [exact Hq|].
  destruct (Join_reads_only (Decoded Scenario.join1) Example.with_ep1 Hq)
    as (H1 & H2 & H3).
  cbv zeta. split; [exact H1|]. split; [exact H2|].
  split; vm_compute; reflexivity.
Defined.

Lemma CreateEndpoint_then_Join_witness :
  admissible Example.with_net1 Example.ep1 Example.ip1
  ∧ (let o1 := serve Example.ok (CreateEndpoint (Decoded Example.ep1))
                 Example.with_net1 in
     let o2 := call (handlerJoin (Decoded (JoinRequest.mk "net1" "ep1")))
                 (globals o1) in
     EvExec "ip" ["link"; "add"; IP_String Example.ip1; "type"; "dummy"]
       ∈ effects (events o1)
     ∧ status o2 = Done
     ∧ response (events o2)
       = Some (JoinResponse (IP_String Example.ip1, "eth")
                 (IP_String (IPNet_IP (Gateway (mk_nwVal "br" Example.gw))))
                 "")).
Proof.
  assert (admissible Example.with_net1 Example.ep1 Example.ip1) as Ha
    by example_admissible.
  split; [exact Ha|].
  apply (CreateEndpoint_then_Join Example.ok Example.with_net1 Example.ep1
           Example.ip1 (mk_nwVal "br" Example.gw) Ha);
    vm_compute; reflexivity.
Defined.

Lemma held_network_mutex_is_permanent_witness :
  nwMap_locked (nwMap Scenario.wedged) = true
  ∧ (let o := serve Example.ok (CreateNetwork (Decoded Example.net2))
                (run Example.churn Scenario.wedged) in
     nwMap_locked (nwMap (run Example.churn Scenario.wedged)) = true
     ∧ (∃ mu, status o = Blocks mu)
     ∧ response (events o) = None
     ∧ effects (events o) = []).
Proof.
  assert (nwMap_locked (nwMap Scenario.wedged) = true) as Hl
    by (vm_compute; reflexivity).
  split; [exact Hl|].
  apply (held_network_mutex_is_permanent Example.churn Example.ok
           (CreateNetwork (Decoded Example.net2)) Scenario.wedged Hl).
  exact I.
Defined.

Lemma one_crash_blocks_all_later_calls_witness :
  leaks_mutex (Example.started ∅) (CreateEndpoint (Decoded Example.ep1))
  ∧ (let o := serve Example.ok (Join (Decoded Scenario.join1))
                (run Example.churn
                   (globals (serve Example.ok
                               (CreateEndpoint (Decoded Example.ep1))
                               (Example.started ∅)))) in
     (∃ mu, status o = Blocks mu) ∧ response (events o) = None).
Proof.
  assert (leaks_mutex (Example.started ∅)
            (CreateEndpoint (Decoded Example.ep1))) as Hleak.
  { split; [discriminate|]. split; [|vm_compute; reflexivity].
    exists Example.ip1. vm_compute; reflexivity. }
  split; [exact Hleak|].
  apply (one_crash_blocks_all_later_calls Example.ok
           (CreateEndpoint (Decoded Example.ep1)) (Example.started ∅)
           Example.churn Example.ok (Join (Decoded Scenario.join1)));
    [by vm_compute | exact Hleak | exact I].
Defined.

Lemma calls_on_free_mutexes_witness :
  quiescent Example.with_net1
  ∧ (let o := serve Example.ok (CreateNetwork (Decoded Scenario.net_no_ipv4))
                Example.with_net1 in
     (∀ mu, status o ≠ Blocks mu)
     ∧ (status o = Done -> quiescent (globals o))
     ∧ ∀ msg, status o = Panicked msg -> globals o = Example.with_net1).
Proof.
  assert (quiescent Example.with_net1) as Hq by (by vm_compute).
  split; [exact Hq|].
  apply (calls_on_free_mutexes Example.ok
           (CreateNetwork (Decoded Scenario.net_no_ipv4)) Example.with_net1
           Hq).
Defined.

Lemma bridge_name_is_always_br_witness :
  all_br (Example.started ∅)
  ∧ all_br (run Example.churn (Example.started ∅))
  ∧ response (events (serve Example.ok (CreateEndpoint (Decoded Example.ep1))
                        (run Example.churn (Example.started ∅))))
    ≠ Some (ErrResponse "Error: incompatible network").
Proof.
  assert (all_br (Example.started ∅)) as Hbr.
  { unfold all_br.
    replace (nwMap_m (nwMap (Example.started ∅)))
      with (∅ : gmap string nwVal) by (vm_compute; reflexivity).
    apply map_Forall_empty. }
  split; [exact Hbr|].
  apply (bridge_name_is_always_br Example.churn (Example.started ∅)
           Example.ok Example.ep1 Hbr).
Defined.

Lemma networks_and_bridges_stay_paired_witness :
  same_networks (Example.started ∅)
  ∧ brMap_locked (brMap (run Example.churn (Example.started ∅))) = false
  ∧ same_networks (run Example.churn (Example.started ∅)).
Proof.
  assert (same_networks (Example.started ∅)) as Hs
    by (vm_compute; reflexivity).
  split; [exact Hs|].
  apply (networks_and_bridges_stay_paired Example.churn (Example.started ∅));
    [vm_compute; reflexivity | exact Hs].
Defined.

Lemma stored_counter_is_never_read_witness :
  bucket Example.disk_counter500 "global" !! "counter"
  = Some Example.counter500
  ∧ (∃ e l,
       dbGet "global" "counter"
         (mk_Frame (Example.started Example.disk_counter500) [] [])
       = (Val (None, e),
          mk_Frame (Example.started Example.disk_counter500) ([] ++ l) []))
  ∧ intfCounter (G (startup Example.ok Example.disk_counter500).2) = 100
  ∧ bridge_counter (G (startup Example.ok Example.disk_counter500).2) = 1
  ∧ intf_counter (G (startup Example.ok Example.disk_counter500).2) = 1.
Proof.
  split; [vm_compute; reflexivity|].
  apply (stored_counter_is_never_read Example.ok Example.disk_counter500
           (startup Example.ok Example.disk_counter500).2 "global" "counter"
           (mk_Frame (Example.started Example.disk_counter500) [] [])).
  vm_compute; reflexivity.
Defined.

Lemma bad_ledger_stops_the_process_witness :
  corrupt Scenario.disk_corrupt
  ∧ (∃ e fr, startup Example.ok Scenario.disk_corrupt = (Val (Some e), fr))
  ∧ main Example.ok Scenario.disk_corrupt Example.churn = None.
Proof.
  assert (corrupt Scenario.disk_corrupt) as Hc.
  { left. exists "net1", [Byte.x00]. split; vm_compute; reflexivity. }
  split; [exact Hc|].
  apply (bad_ledger_stops_the_process Example.ok Scenario.disk_corrupt
           Example.churn).
  right; right. split; [reflexivity | exact Hc].
Defined.

Lemma startup_rebuilds_every_table_witness :
  decodable Scenario.disk_ep1
  ∧ ∃ g0,
      main Example.ok Scenario.disk_ep1 [] = Some g0
      ∧ quiescent g0
      ∧ (∀ k, nwMap_m (nwMap g0) !! k
              = bucket Scenario.disk_ep1 "nwMap" !! k ≫= gob_Decode_nwVal)
      ∧ (∀ k, epMap_m (epMap g0) !! k
              = bucket Scenario.disk_ep1 "epMap" !! k ≫= gob_Decode_epVal)
      ∧ (∀ k, brMap_m (brMap g0) !! k
              = bucket Scenario.disk_ep1 "brMap" !! k ≫= gob_Decode_int).
Proof.
  assert (decodable Scenario.disk_ep1) as Hd by example_decodable.
  split; [exact Hd|].
  apply (startup_rebuilds_every_table Example.ok Scenario.disk_ep1);
    [reflexivity | reflexivity | exact Hd].
Defined.

Lemma restart_reuses_bridge_numbers_witness :
  bucket Scenario.disk_net1 "brMap" !! "net1" = Some Scenario.one
  ∧ ∃ g1,
      main Example.ok Scenario.disk_net1
        [(Example.ok, CreateNetwork (Decoded Example.net2))] = Some g1
      ∧ brMap_m (brMap g1) !! "net1" = Some 1
      ∧ brMap_m (brMap g1) !! "net2" = Some 1.
Proof.
  assert (bucket Scenario.disk_net1 "brMap" !! "net1" = Some Scenario.one)
    as Hb by (vm_compute; reflexivity).
  split; [exact Hb|].
  apply (restart_reuses_bridge_numbers Example.ok Example.ok
           Scenario.disk_net1 "net1" Scenario.one Example.net2
           (mk_IPAMData (Some Example.gw)) [] Example.gw);
    [reflexivity | reflexivity | example_decodable | exact Hb
    | vm_compute; reflexivity | reflexivity | reflexivity | discriminate].
Defined.

Lemma restart_succeeds_after_any_run_witness :
  decodable (db (Example.started ∅))
  ∧ ∃ g0,
      main Example.ok (db (run Example.churn (Example.started ∅))) []
      = Some g0
      ∧ quiescent g0
      ∧ ∀ k, nwMap_m (nwMap g0) !! k
             = bucket (db (run Example.churn (Example.started ∅))) "nwMap"
                 !! k ≫= gob_Decode_nwVal.
Proof.
  assert (decodable (db (Example.started ∅))) as Hd by example_decodable.
  split; [exact Hd|].
  apply (restart_succeeds_after_any_run Example.ok Example.churn
           (Example.started ∅) Example_codec_reads_back Hd);
    reflexivity.
Defined.

Lemma interface_index_used_up_by_mkdir_witness :
  admissible Example.with_net1 Example.ep1 Example.ip1
  ∧ (let o := serve Example.p4ctl_down (CreateEndpoint (Decoded Example.ep1))
                Example.with_net1 in
     intf_counter (globals o)
     = match os_Mkdir Example.p4ctl_down
               ("/tmp/vhostuser_" +:+ IP_String Example.ip1) with
       | None => GoInt.add (intf_counter Example.with_net1) 1
       | Some _ => intf_counter Example.with_net1
       end
     ∧ bridge_counter (globals o) = bridge_counter Example.with_net1).
Proof.
  assert (admissible Example.with_net1 Example.ep1 Example.ip1) as Ha
    by example_admissible.
  split; [exact Ha|].
  apply (interface_index_used_up_by_mkdir Example.p4ctl_down
           Example.with_net1 Example.ep1 Example.ip1 Ha).
Defined.

Lemma bridge_counter_wraps_witness :
  bridge_counter Scenario.at_max = GoInt.max_int
  ∧ bridge_ids [(Example.ok, CreateNetwork (Decoded Example.net1));
                (Example.ok, CreateNetwork (Decoded Example.net2))]
      Scenario.at_max
    = [GoInt.max_int; GoInt.min_int].
Proof.
  assert (bridge_counter Scenario.at_max = GoInt.max_int) as Hm
    by reflexivity.
  split; [exact Hm|].
  apply (bridge_counter_wraps Example.ok Example.ok Example.net1 Example.net2
           (mk_IPAMData (Some Example.gw)) [] Example.gw
           (mk_IPAMData (Some Example.gw)) [] Example.gw Scenario.at_max);
    [by vm_compute | exact Hm | reflexivity..].
Defined.

Lemma ledger_follows_the_network_tables_witness :
  ledger_follows (Example.started ∅)
  ∧ Forall writes_go_through Example.churn
  ∧ ledger_follows (run Example.churn (Example.started ∅)).
Proof.
  split; [exact Example_started_ledger_follows|].
  split; [exact Example_churn_writes_go_through|].
  apply (ledger_follows_the_network_tables Example.churn (Example.started ∅));
    [ intros n; by eexists
    | exact Example_churn_writes_go_through
    | exact Example_started_ledger_follows ].
Defined.

Lemma restart_restores_the_network_tables_witness :
  ledger_follows (Example.started ∅)
  ∧ Forall writes_go_through Example.churn
  ∧ ∃ g0,
      main Example.ok (db (run Example.churn (Example.started ∅))) []
      = Some g0
      ∧ nwMap_m (nwMap g0)
        = nwMap_m (nwMap (run Example.churn (Example.started ∅)))
      ∧ brMap_m (brMap g0)
        = brMap_m (brMap (run Example.churn (Example.started ∅))).
Proof.
  split; [exact Example_started_ledger_follows|].
  split; [exact Example_churn_writes_go_through|].
  apply (restart_restores_the_network_tables Example.ok Example.churn
           (Example.started ∅) Example_codec_reads_back
           Example_codec_round_trip);
    [ intros n; by eexists
    | exact Example_churn_writes_go_through
    | exact Example_started_ledger_follows
    | example_decodable
    | reflexivity
    | reflexivity ].
Defined.
